(** * g10/build-packet.c: assembling OpenPGP packets

    A shallow embedding of GnuPG's packet writer (g10/build-packet.c) and
    the properties of its header codec, primitive writers, signature
    subpacket builder and packet encoders.

    Integers are [Z] with the C conversions written out, byte buffers are
    [list Z], IOBUF handles are keys of a store of sinks, and the process
    state (sinks, diagnostics) is threaded through a small state-and-abort
    monad. *)

From Stdlib Require Import ZArith Lia Bool.
From stdpp Require Import base option list gmap.

Open Scope Z_scope.

(** ** Machine integers *)

(** Conversion to [byte], [u16], [u32] and [size_t] (32 bits, as on the
    machines the file was written for). *)
Definition byte_of (c : Z) : Z := Z.land c 0xff.
Definition u16 (a : Z) : Z := a mod 2 ^ 16.
Definition u32 (a : Z) : Z := a mod 2 ^ 32.
Definition size_t (a : Z) : Z := a mod 2 ^ 32.

(** C truth value of an integer, and [!x]. *)
Definition nonzero (x : Z) : bool := negb (x =? 0).

(** ** The byte sink (iobuf.h)

    iobuf.c is not part of the sources; the sink is modelled by what the
    writer can observe of it. *)

(** Modelled from the spec: the buffered output stream (iobuf.c is
    missing): a byte sink with [putByte]/[writeBytes] returning success or
    failure, temporary buffers and a block-mode framing switch.  A sink
    keeps the bytes it accepted, the framing switches it received (each
    with the number of bytes accepted before it), and the outcomes of the
    write calls still to come ([true]: the call fails and stores nothing;
    no entry: the call succeeds). *)
Record iobuf : Type := mk_iobuf {
  io_written : list Z;
  io_framing : list (nat * Z);
  io_faults : list bool
}.

Definition IOBUF : Type := nat.

Definition iobuf_empty : iobuf := mk_iobuf [] [] [].

(** One write call offering the bytes [bs] to a sink. *)
Definition sink_write (bs : list Z) (b : iobuf) : Z * iobuf :=
  match io_faults b with
  | true :: fs => (-1, mk_iobuf (io_written b) (io_framing b) fs)
  | false :: fs => (0, mk_iobuf (io_written b ++ bs) (io_framing b) fs)
  | [] => (0, mk_iobuf (io_written b ++ bs) (io_framing b) [])
  end.

Definition sink_block_mode (n : Z) (b : iobuf) : iobuf :=
  mk_iobuf (io_written b)
           (io_framing b ++ [(length (io_written b), n)])
           (io_faults b).

(** ** Process state *)

(** Messages of [log_error]. *)
Inductive log_msg : Type :=
| LOG_plaintext_length (wrote expected : Z)
| LOG_subpkt_short.

(** Reasons for which the process stops: [log_bug], a failed [assert], and
    the undefined behaviour of a stray pointer.  Nothing of the state is
    looked at once the process has stopped. *)
Inductive bug : Type :=
| BUG_build_packet_type
| BUG_calc_packet_length_type
| BUG_symkey_s2k (mode : Z)
| BUG_subpkt_update_nyi
| BUG_subpkt_long_nyi
| BUG_new_header_hdrlen
| BUG_new_header_partial
| BUG_assert
| BUG_bad_pointer
| BUG_fuel.

Record world : Type := mk_world {
  iobufs : gmap nat iobuf;
  diag : list log_msg;
  opt_no_comment : bool
}.

Definition set_iobufs (m : gmap nat iobuf) (w : world) : world :=
  mk_world m (diag w) (opt_no_comment w).

Inductive outcome (A : Type) : Type :=
| Done (a : A) (w : world)
| Abort (why : bug).
Arguments Done {A} a w.
Arguments Abort {A} why.

Definition M (A : Type) : Type := world -> outcome A.

Definition ret {A : Type} (a : A) : M A := fun w => Done a w.

Definition bind {A B : Type} (m : M A) (k : A -> M B) : M B :=
  fun w => match m w with
           | Done a w' => k a w'
           | Abort why => Abort why
           end.

Notation "'do' x <- c ;; k" := (bind c (fun x => k))
  (at level 10, x name, c at level 99, k at level 200).

Definition when (c : bool) (m : M Z) : M Z := if c then m else ret 0.

(** [log_error] records its message and returns; [log_bug] and a failed
    [assert] stop the process. *)
Definition log_error (msg : log_msg) : M unit :=
  fun w => Done tt (mk_world (iobufs w) (diag w ++ [msg]) (opt_no_comment w)).

Definition log_bug {A : Type} (why : bug) : M A := fun _ => Abort why.

Definition assert (c : bool) : M unit :=
  if c then ret tt else log_bug BUG_assert.

(** ** Sink operations on handles *)

(** Modelled from the spec: the operations of the byte sink (iobuf.c is
    missing), [putByte], [writeBytes], [createTemporaryBuffer],
    [temporaryBufferLength], [flushTemporaryInto],
    [discardTemporaryBuffer] and [setIndeterminateLengthFraming], on the
    sink a handle stands for.  A temporary buffer gets a handle that is
    not in use, and its writes do not fail. *)

Definition on_iobuf {A : Type} (h : IOBUF) (f : iobuf -> A * iobuf) : M A :=
  fun w => match iobufs w !! h with
           | Some b => let '(r, b') := f b in
                       Done r (set_iobufs (<[h := b']> (iobufs w)) w)
           | None => Abort BUG_bad_pointer
           end.

Definition iobuf_put (h : IOBUF) (c : Z) : M Z :=
  on_iobuf h (sink_write [byte_of c]).

Definition iobuf_write (h : IOBUF) (bs : list Z) : M Z :=
  on_iobuf h (sink_write bs).

Definition iobuf_set_block_mode (h : IOBUF) (n : Z) : M unit :=
  on_iobuf h (fun b => (tt, sink_block_mode n b)).

Definition iobuf_temp : M IOBUF :=
  fun w => let h := fresh (dom (iobufs w)) in
           Done h (set_iobufs (<[h := iobuf_empty]> (iobufs w)) w).

Definition iobuf_get_temp_length (h : IOBUF) : M Z :=
  on_iobuf h (fun b => (Z.of_nat (length (io_written b)), b)).

Definition iobuf_write_temp (out a : IOBUF) : M Z :=
  fun w => match iobufs w !! a with
           | Some t => iobuf_write out (io_written t) w
           | None => Abort BUG_bad_pointer
           end.

Definition iobuf_close (h : IOBUF) : M unit :=
  fun w => Done tt (set_iobufs (delete h (iobufs w)) w).

(** ** Primitive writers *)

(** [write_16]: only the result of the last [iobuf_put] is looked at. *)
Definition write_16 (out : IOBUF) (a : Z) : M Z :=
  let a := u16 a in
  do _ <- iobuf_put out (Z.shiftr a 8) ;;
  do r <- iobuf_put out a ;;
  if nonzero r then ret (-1) else ret 0.

Definition write_32 (out : IOBUF) (a : Z) : M Z :=
  let a := u32 a in
  do _ <- iobuf_put out (Z.shiftr a 24) ;;
  do _ <- iobuf_put out (Z.shiftr a 16) ;;
  do _ <- iobuf_put out (Z.shiftr a 8) ;;
  do r <- iobuf_put out a ;;
  if nonzero r then ret (-1) else ret 0.

Definition write_version (out : IOBUF) (ctb : Z) : M Z :=
  do r <- iobuf_put out 3 ;;
  if nonzero r then ret (-1) else ret 0.

(** ** Header codec *)

Definition calc_header_length (len : Z) : Z :=
  if len =? 0 then 1
  else if len <? 256 then 2
  else if len <? 65536 then 3
  else 5.

Definition write_new_header (out : IOBUF) (ctb len hdrlen : Z) : M Z :=
  do _ <- (if nonzero hdrlen then log_bug BUG_new_header_hdrlen else ret tt) ;;
  do r <- iobuf_put out ctb ;;
  if nonzero r then ret (-1)
  else if len =? 0 then log_bug BUG_new_header_partial
  else if len <? 192 then
    do r <- iobuf_put out len ;;
    if nonzero r then ret (-1) else ret 0
  else if len <? 8384 then
    let len := len - 192 in
    do r <- iobuf_put out (len / 256 + 192) ;;
    if nonzero r then ret (-1)
    else
      do r <- iobuf_put out (len mod 256) ;;
      if nonzero r then ret (-1) else ret 0
  else
    do r <- iobuf_put out 0xff ;;
    if nonzero r then ret (-1)
    else
      do r <- iobuf_put out (Z.land (Z.shiftr len 24) 0xff) ;;
      if nonzero r then ret (-1)
      else
        do r <- iobuf_put out (Z.land (Z.shiftr len 16) 0xff) ;;
        if nonzero r then ret (-1)
        else
          do r <- iobuf_put out (Z.land (Z.shiftr len 8) 0xff) ;;
          if nonzero r then ret (-1)
          else
            do r <- iobuf_put out (Z.land len 0xff) ;;
            if nonzero r then ret (-1) else ret 0.

(** The length-type selector merged into an old-format CTB. *)
Definition old_ctb (ctb len hdrlen : Z) : Z :=
  if nonzero hdrlen then
    if len =? 0 then Z.lor ctb 3
    else if (hdrlen =? 2) && (len <? 256) then ctb
    else if (hdrlen =? 3) && (len <? 65536) then Z.lor ctb 1
    else Z.lor ctb 2
  else
    if len =? 0 then Z.lor ctb 3
    else if len <? 256 then ctb
    else if len <? 65536 then Z.lor ctb 1
    else Z.lor ctb 2.

Definition write_header2 (out : IOBUF) (ctb len hdrlen blkmode : Z) : M Z :=
  if nonzero (Z.land ctb 0x40) then write_new_header out ctb len hdrlen
  else
    let ctb := old_ctb ctb len hdrlen in
    do r <- iobuf_put out ctb ;;
    if nonzero r then ret (-1)
    else if len =? 0 then
      do _ <- (if nonzero blkmode then iobuf_set_block_mode out 8196
            else ret tt) ;;
      ret 0
    else
      do _ <- when (nonzero (Z.land ctb 2))
             (do _ <- iobuf_put out (Z.shiftr len 24) ;;
              iobuf_put out (Z.shiftr len 16)) ;;
      do _ <- when (nonzero (Z.land ctb 3)) (iobuf_put out (Z.shiftr len 8)) ;;
      do r <- iobuf_put out len ;;
      if nonzero r then ret (-1) else ret 0.

Definition write_header (out : IOBUF) (ctb len : Z) : M Z :=
  write_header2 out ctb len 0 1.

(** ** Declarations of the headers that are not part of the sources *)

(** Result codes of the encoders (errors.h): [0] and two distinct error
    macros. *)
Inductive rc_t : Type :=
| RC_OK
| G10ERR_PUBKEY_ALGO
| G10ERR_WRITE_FILE.

(** The packet kinds named in build-packet.c (enum [pkttype_t] of
    packet.h); [PKT_other] stands for any value without a case label. *)
Inductive pkttype_t : Type :=
| PKT_USER_ID | PKT_COMMENT | PKT_OLD_COMMENT
| PKT_PUBKEY_SUBCERT | PKT_PUBLIC_CERT
| PKT_SECKEY_SUBCERT | PKT_SECRET_CERT
| PKT_SYMKEY_ENC | PKT_PUBKEY_ENC | PKT_PLAINTEXT | PKT_ENCRYPTED
| PKT_COMPRESSED | PKT_SIGNATURE | PKT_ONEPASS_SIG | PKT_RING_TRUST
| PKT_other (code : Z).

(** The constants and macros build-packet.c takes from packet.h and
    cipher.h, whose values the sources do not show. *)
Class Headers : Type := {
  pkttype_code : pkttype_t -> Z;
  is_ELGAMAL : Z -> bool;
  is_RSA : Z -> bool;
  PUBKEY_ALGO_DSA : Z;
  SIGSUBPKT_SIG_CREATED : Z;
  SIGSUBPKT_ISSUER : Z;
  SIGSUBPKT_PRIV_ADD_SIG : Z
}.

(** Modelled from the spec: the multi-precision integers (mpi.h is
    missing), consumed as an opaque "write this big integer in its defined
    format" operation: an [MPI] is given by the bytes [mpi_write] emits. *)
Record MPI : Type := mk_MPI { mpi_wire : list Z }.

Definition mpi_write (a : IOBUF) (m : MPI) : M Z :=
  iobuf_write a (mpi_wire m).

(** ** Packet payloads

    Only the fields build-packet.c reads.  A buffer and its length are one
    list; a C union is the record of its members. *)

Record PKT_comment : Type := { rem_data : list Z }.
Definition rem_len (r : PKT_comment) : Z := Z.of_nat (length (rem_data r)).

Record PKT_user_id : Type := { uid_name : list Z }.
Definition uid_len (u : PKT_user_id) : Z := Z.of_nat (length (uid_name u)).

Record PKT_public_cert : Type := {
  pkc_version : Z; pkc_timestamp : Z; pkc_valid_days : Z;
  pkc_pubkey_algo : Z; pkc_hdrbytes : Z;
  pkc_elg_p : MPI; pkc_elg_g : MPI; pkc_elg_y : MPI;
  pkc_dsa_p : MPI; pkc_dsa_q : MPI; pkc_dsa_g : MPI; pkc_dsa_y : MPI;
  pkc_rsa_n : MPI; pkc_rsa_e : MPI
}.

Record STRING2KEY : Type := {
  s2k_mode : Z; s2k_hash_algo : Z; s2k_salt : list Z; s2k_count : Z
}.

Record PKT_secret_cert : Type := {
  skc_version : Z; skc_timestamp : Z; skc_valid_days : Z;
  skc_pubkey_algo : Z; skc_hdrbytes : Z;
  skc_is_protected : Z;
  skc_protect_algo : Z; skc_protect_s2k : STRING2KEY;
  skc_protect_iv : list Z;
  skc_csum : Z;
  skc_elg_p : MPI; skc_elg_g : MPI; skc_elg_y : MPI; skc_elg_x : MPI;
  skc_dsa_p : MPI; skc_dsa_q : MPI; skc_dsa_g : MPI; skc_dsa_y : MPI;
  skc_dsa_x : MPI;
  skc_rsa_n : MPI; skc_rsa_e : MPI; skc_rsa_d : MPI; skc_rsa_p : MPI;
  skc_rsa_q : MPI; skc_rsa_u : MPI
}.

Record PKT_symkey_enc : Type := {
  sym_version : Z; sym_cipher_algo : Z; sym_s2k : STRING2KEY;
  sym_seskey : list Z
}.
Definition sym_seskeylen (e : PKT_symkey_enc) : Z :=
  Z.of_nat (length (sym_seskey e)).

Record PKT_pubkey_enc : Type := {
  enc_keyid0 : Z; enc_keyid1 : Z; enc_pubkey_algo : Z;
  enc_elg_a : MPI; enc_elg_b : MPI; enc_rsa_integer : MPI
}.

(** [pt_buf] is the content the body source still holds. *)
Record PKT_plaintext : Type := {
  pt_len : Z; pt_buf : list Z; pt_mode : Z; pt_timestamp : Z;
  pt_name : list Z
}.
Definition pt_namelen (pt : PKT_plaintext) : Z :=
  Z.of_nat (length (pt_name pt)).

Record PKT_encrypted : Type := { ed_len : Z }.

Record PKT_compressed : Type := { cd_algorithm : Z }.

(** [NULL] or the bytes of the allocated region. *)
Record PKT_signature : Type := mk_sig {
  sig_version : Z; sig_class : Z; sig_timestamp : Z;
  sig_keyid0 : Z; sig_keyid1 : Z;
  sig_pubkey_algo : Z; sig_digest_algo : Z;
  hashed_data : option (list Z);
  unhashed_data : option (list Z);
  sig_digest_start0 : Z; sig_digest_start1 : Z;
  sig_elg_a : MPI; sig_elg_b : MPI; sig_dsa_r : MPI; sig_dsa_s : MPI;
  sig_rsa_integer : MPI
}.

Record PKT_onepass_sig : Type := {
  ops_sig_class : Z; ops_digest_algo : Z; ops_pubkey_algo : Z;
  ops_keyid0 : Z; ops_keyid1 : Z; ops_last : Z
}.

Inductive payload : Type :=
| P_user_id (uid : PKT_user_id)
| P_comment (rem : PKT_comment)
| P_public_cert (pkc : PKT_public_cert)
| P_secret_cert (skc : PKT_secret_cert)
| P_symkey_enc (enc : PKT_symkey_enc)
| P_pubkey_enc (enc : PKT_pubkey_enc)
| P_plaintext (pt : PKT_plaintext)
| P_encrypted (ed : PKT_encrypted)
| P_compressed (cd : PKT_compressed)
| P_signature (sig : PKT_signature)
| P_onepass_sig (ops : PKT_onepass_sig).

(** [pkt_generic] is [None] for a null payload pointer. *)
Record PACKET : Type := {
  pkttype : pkttype_t;
  pkt_generic : option payload
}.

(** ** Memory reads *)

(** Reading outside an allocated array is undefined: the model stops.
    What is read through a [byte *] is a value from 0 to 255. *)
Definition mem_byte (buf : list Z) (i : nat) : M Z :=
  match buf !! i with
  | Some x => ret (byte_of x)
  | None => log_bug BUG_bad_pointer
  end.

Definition mem_bytes (buf : list Z) (off n : nat) : M (list Z) :=
  if decide (off + n <= length buf)%nat
  then ret (take n (drop off buf))
  else log_bug BUG_bad_pointer.

(** The 2-byte big-endian length in front of a subpacket region
    (first byte shifted left by 8, or-ed with the second; [0] for
    [NULL]). *)
Definition region_length (region : option (list Z)) : M Z :=
  match region with
  | None => ret 0
  | Some buf =>
      do b0 <- mem_byte buf 0 ;;
      do b1 <- mem_byte buf 1 ;;
      ret (Z.lor (Z.shiftl b0 8) b1)
  end.

Definition iobuf_write_mem (a : IOBUF) (buf : list Z) (off n : nat) : M Z :=
  do bs <- mem_bytes buf off n ;;
  iobuf_write a bs.

Definition get_opt_no_comment : M bool :=
  fun w => Done (opt_no_comment w) w.

Definition rc_of_write (r : Z) : rc_t :=
  if nonzero r then G10ERR_WRITE_FILE else RC_OK.

(** ** Packet encoders *)

Section Encoders.
Context `{Headers}.

Definition do_comment (out : IOBUF) (ctb : Z) (rem : PKT_comment) : M rc_t :=
  do no_comment <- get_opt_no_comment ;;
  if negb no_comment then
    do _ <- write_header out ctb (u32 (rem_len rem)) ;;
    do r <- iobuf_write out (rem_data rem) ;;
    ret (rc_of_write r)
  else ret RC_OK.

Definition do_user_id (out : IOBUF) (ctb : Z) (uid : PKT_user_id) : M rc_t :=
  do _ <- write_header out ctb (u32 (uid_len uid)) ;;
  do r <- iobuf_write out (uid_name uid) ;;
  ret (rc_of_write r).

(** The tail shared by the staged encoders: with the body complete in the
    temporary buffer [a], write header and body to [out]; [leave] closes
    [a] on both paths. *)
Definition flush_staged (out a : IOBUF) (ctb hdrlen blkmode : Z) : M rc_t :=
  do n <- iobuf_get_temp_length a ;;
  do _ <- write_header2 out ctb (u32 n) hdrlen blkmode ;;
  do r <- iobuf_write_temp out a ;;
  ret (rc_of_write r).

Definition leave (a : IOBUF) (rc : rc_t) : M rc_t :=
  do _ <- iobuf_close a ;;
  ret rc.

Definition put_version (a : IOBUF) (version : Z) : M Z :=
  if nonzero version then iobuf_put a version else iobuf_put a 3.

(** Staging of a public certificate; [false] is the jump to [leave] for
    an unknown algorithm. *)
Definition stage_public_cert (a : IOBUF) (pkc : PKT_public_cert) : M bool :=
  do _ <- put_version a (pkc_version pkc) ;;
  do _ <- write_32 a (pkc_timestamp pkc) ;;
  do _ <- when (pkc_version pkc <? 4) (write_16 a (pkc_valid_days pkc)) ;;
  do _ <- iobuf_put a (pkc_pubkey_algo pkc) ;;
  if is_ELGAMAL (pkc_pubkey_algo pkc) then
    do _ <- mpi_write a (pkc_elg_p pkc) ;;
    do _ <- mpi_write a (pkc_elg_g pkc) ;;
    do _ <- mpi_write a (pkc_elg_y pkc) ;;
    ret true
  else if pkc_pubkey_algo pkc =? PUBKEY_ALGO_DSA then
    do _ <- mpi_write a (pkc_dsa_p pkc) ;;
    do _ <- mpi_write a (pkc_dsa_q pkc) ;;
    do _ <- mpi_write a (pkc_dsa_g pkc) ;;
    do _ <- mpi_write a (pkc_dsa_y pkc) ;;
    ret true
  else if is_RSA (pkc_pubkey_algo pkc) then
    do _ <- mpi_write a (pkc_rsa_n pkc) ;;
    do _ <- mpi_write a (pkc_rsa_e pkc) ;;
    ret true
  else ret false.

Definition do_public_cert (out : IOBUF) (ctb : Z) (pkc : PKT_public_cert)
  : M rc_t :=
  do a <- iobuf_temp ;;
  do known <- stage_public_cert a pkc ;;
  do rc <- (if known then flush_staged out a ctb (pkc_hdrbytes pkc) 1
            else ret G10ERR_PUBKEY_ALGO) ;;
  leave a rc.

(** The protection descriptor of an Elgamal or DSA secret certificate. *)
Definition put_protection (a : IOBUF) (skc : PKT_secret_cert) : M Z :=
  if nonzero (skc_is_protected skc) then
    let s2k := skc_protect_s2k skc in
    do _ <- iobuf_put a 0xff ;;
    do _ <- iobuf_put a (skc_protect_algo skc) ;;
    do _ <- iobuf_put a (s2k_mode s2k) ;;
    do _ <- iobuf_put a (s2k_hash_algo s2k) ;;
    do _ <- when ((s2k_mode s2k =? 1) || (s2k_mode s2k =? 4))
              (iobuf_write_mem a (s2k_salt s2k) 0 8) ;;
    do _ <- when (s2k_mode s2k =? 4) (write_32 a (s2k_count s2k)) ;;
    iobuf_write_mem a (skc_protect_iv skc) 0 8
  else iobuf_put a 0.

Definition stage_secret_cert (a : IOBUF) (skc : PKT_secret_cert) : M bool :=
  do _ <- put_version a (skc_version skc) ;;
  do _ <- write_32 a (skc_timestamp skc) ;;
  do _ <- when (skc_version skc <? 4) (write_16 a (skc_valid_days skc)) ;;
  do _ <- iobuf_put a (skc_pubkey_algo skc) ;;
  if is_ELGAMAL (skc_pubkey_algo skc) then
    do _ <- mpi_write a (skc_elg_p skc) ;;
    do _ <- mpi_write a (skc_elg_g skc) ;;
    do _ <- mpi_write a (skc_elg_y skc) ;;
    do _ <- put_protection a skc ;;
    do _ <- mpi_write a (skc_elg_x skc) ;;
    do _ <- write_16 a (skc_csum skc) ;;
    ret true
  else if skc_pubkey_algo skc =? PUBKEY_ALGO_DSA then
    do _ <- mpi_write a (skc_dsa_p skc) ;;
    do _ <- mpi_write a (skc_dsa_q skc) ;;
    do _ <- mpi_write a (skc_dsa_g skc) ;;
    do _ <- mpi_write a (skc_dsa_y skc) ;;
    do _ <- put_protection a skc ;;
    do _ <- mpi_write a (skc_dsa_x skc) ;;
    do _ <- write_16 a (skc_csum skc) ;;
    ret true
  else if is_RSA (skc_pubkey_algo skc) then
    do _ <- mpi_write a (skc_rsa_n skc) ;;
    do _ <- mpi_write a (skc_rsa_e skc) ;;
    do _ <- (if nonzero (skc_is_protected skc) then
               do _ <- iobuf_put a (skc_protect_algo skc) ;;
               iobuf_write_mem a (skc_protect_iv skc) 0 8
             else iobuf_put a 0) ;;
    do _ <- mpi_write a (skc_rsa_d skc) ;;
    do _ <- mpi_write a (skc_rsa_p skc) ;;
    do _ <- mpi_write a (skc_rsa_q skc) ;;
    do _ <- mpi_write a (skc_rsa_u skc) ;;
    do _ <- write_16 a (skc_csum skc) ;;
    ret true
  else ret false.

Definition do_secret_cert (out : IOBUF) (ctb : Z) (skc : PKT_secret_cert)
  : M rc_t :=
  do a <- iobuf_temp ;;
  do known <- stage_secret_cert a skc ;;
  do rc <- (if known then flush_staged out a ctb (skc_hdrbytes skc) 1
            else ret G10ERR_PUBKEY_ALGO) ;;
  leave a rc.

Definition do_symkey_enc (out : IOBUF) (ctb : Z) (enc : PKT_symkey_enc)
  : M rc_t :=
  let mode := s2k_mode (sym_s2k enc) in
  do a <- iobuf_temp ;;
  do _ <- assert (sym_version enc =? 4) ;;
  do _ <- (if (mode =? 0) || (mode =? 1) || (mode =? 4) then ret tt
           else log_bug (BUG_symkey_s2k mode)) ;;
  do _ <- iobuf_put a (sym_version enc) ;;
  do _ <- iobuf_put a (sym_cipher_algo enc) ;;
  do _ <- iobuf_put a mode ;;
  do _ <- iobuf_put a (s2k_hash_algo (sym_s2k enc)) ;;
  do _ <- when ((mode =? 1) || (mode =? 4))
            (do _ <- iobuf_write_mem a (s2k_salt (sym_s2k enc)) 0 8 ;;
             when (mode =? 4) (write_32 a (s2k_count (sym_s2k enc)))) ;;
  do _ <- when (nonzero (sym_seskeylen enc))
            (iobuf_write a (sym_seskey enc)) ;;
  do rc <- flush_staged out a ctb 0 1 ;;
  leave a rc.

Definition stage_pubkey_enc (a : IOBUF) (ctb : Z) (enc : PKT_pubkey_enc)
  : M bool :=
  do _ <- write_version a ctb ;;
  do _ <- write_32 a (enc_keyid0 enc) ;;
  do _ <- write_32 a (enc_keyid1 enc) ;;
  do _ <- iobuf_put a (enc_pubkey_algo enc) ;;
  if is_ELGAMAL (enc_pubkey_algo enc) then
    do _ <- mpi_write a (enc_elg_a enc) ;;
    do _ <- mpi_write a (enc_elg_b enc) ;;
    ret true
  else if is_RSA (enc_pubkey_algo enc) then
    do _ <- mpi_write a (enc_rsa_integer enc) ;;
    ret true
  else ret false.

Definition do_pubkey_enc (out : IOBUF) (ctb : Z) (enc : PKT_pubkey_enc)
  : M rc_t :=
  do a <- iobuf_temp ;;
  do known <- stage_pubkey_enc a ctb enc ;;
  do rc <- (if known then flush_staged out a ctb 0 1
            else ret G10ERR_PUBKEY_ALGO) ;;
  leave a rc.

Definition calc_plaintext (pt : PKT_plaintext) : Z :=
  if nonzero (pt_len pt)
  then u32 (1 + 1 + pt_namelen pt + 4 + pt_len pt)
  else 0.

(** Modelled from the spec: the body source (iobuf.c is missing),
    [pullChunk(source, maxBytes) -> bytes | endOfStream]: a read hands out
    the next [maxBytes] bytes of the content, fewer at its end, and
    [None] (the [-1] of [iobuf_read]) when none is left. *)
Definition iobuf_read (src : list Z) (maxbytes : nat)
  : option (list Z * list Z) :=
  match src with
  | [] => None
  | _ => Some (take maxbytes src, drop maxbytes src)
  end.

Fixpoint put_each (out : IOBUF) (bs : list Z) : M unit :=
  match bs with
  | [] => ret tt
  | b :: bs' => do _ <- iobuf_put out b ;; put_each out bs'
  end.

(** The copy loop of [do_plaintext]; it returns [rc] and the counter [n].
    Every round consumes at least one byte of the source, so
    [S (length src)] rounds of fuel are never used up. *)
Fixpoint copy_body (fuel : nat) (out : IOBUF) (src : list Z) (rc : rc_t)
  (n : Z) : M (rc_t * Z) :=
  match fuel with
  | O => log_bug BUG_fuel
  | S fuel' =>
      match iobuf_read src 1000 with
      | None => ret (rc, n)
      | Some (buf, src') =>
          do r <- iobuf_write out buf ;;
          if r =? -1 then ret (G10ERR_WRITE_FILE, n)
          else copy_body fuel' out src' rc (u32 (n + Z.of_nat (length buf)))
      end
  end.

Definition do_plaintext (out : IOBUF) (ctb : Z) (pt : PKT_plaintext)
  : M rc_t :=
  do _ <- write_header out ctb (calc_plaintext pt) ;;
  do _ <- iobuf_put out (pt_mode pt) ;;
  do _ <- iobuf_put out (pt_namelen pt) ;;
  do _ <- put_each out (pt_name pt) ;;
  do r <- write_32 out (pt_timestamp pt) ;;
  do res <- copy_body (S (length (pt_buf pt))) out (pt_buf pt)
              (rc_of_write r) 0 ;;
  let '(rc, n) := res in
  do _ <- (if negb (nonzero (pt_len pt)) then iobuf_set_block_mode out 0
           else if negb (n =? pt_len pt)
                then log_error (LOG_plaintext_length n (pt_len pt))
                else ret tt) ;;
  ret rc.

Definition do_encrypted (out : IOBUF) (ctb : Z) (ed : PKT_encrypted)
  : M rc_t :=
  let n := if nonzero (ed_len ed) then u32 (ed_len ed + 10) else 0 in
  do _ <- write_header out ctb n ;;
  ret RC_OK.

Definition do_compressed (out : IOBUF) (ctb : Z) (cd : PKT_compressed)
  : M rc_t :=
  do _ <- write_header2 out ctb 0 0 0 ;;
  do _ <- iobuf_put out (cd_algorithm cd) ;;
  ret RC_OK.

(** The length and the entries of a region as [do_signature] writes
    them. *)
Definition put_region (a : IOBUF) (region : option (list Z)) : M Z :=
  do n <- region_length region ;;
  do _ <- write_16 a n ;;
  match region with
  | Some buf => when (nonzero n) (iobuf_write_mem a buf 2 (Z.to_nat n))
  | None => ret 0
  end.

Definition stage_signature (a : IOBUF) (sig : PKT_signature) : M bool :=
  do _ <- put_version a (sig_version sig) ;;
  do _ <- when (sig_version sig <? 4) (iobuf_put a 5) ;;
  do _ <- iobuf_put a (sig_class sig) ;;
  do _ <- when (sig_version sig <? 4)
            (do _ <- write_32 a (sig_timestamp sig) ;;
             do _ <- write_32 a (sig_keyid0 sig) ;;
             write_32 a (sig_keyid1 sig)) ;;
  do _ <- iobuf_put a (sig_pubkey_algo sig) ;;
  do _ <- iobuf_put a (sig_digest_algo sig) ;;
  do _ <- when (4 <=? sig_version sig)
            (do _ <- put_region a (hashed_data sig) ;;
             put_region a (unhashed_data sig)) ;;
  do _ <- iobuf_put a (sig_digest_start0 sig) ;;
  do _ <- iobuf_put a (sig_digest_start1 sig) ;;
  if is_ELGAMAL (sig_pubkey_algo sig) then
    do _ <- mpi_write a (sig_elg_a sig) ;;
    do _ <- mpi_write a (sig_elg_b sig) ;;
    ret true
  else if sig_pubkey_algo sig =? PUBKEY_ALGO_DSA then
    do _ <- mpi_write a (sig_dsa_r sig) ;;
    do _ <- mpi_write a (sig_dsa_s sig) ;;
    ret true
  else if is_RSA (sig_pubkey_algo sig) then
    do _ <- mpi_write a (sig_rsa_integer sig) ;;
    ret true
  else ret false.

Definition do_signature (out : IOBUF) (ctb : Z) (sig : PKT_signature)
  : M rc_t :=
  do a <- iobuf_temp ;;
  do known <- stage_signature a sig ;;
  do rc <- (if known then flush_staged out a ctb 0 1
            else ret G10ERR_PUBKEY_ALGO) ;;
  leave a rc.

Definition do_onepass_sig (out : IOBUF) (ctb : Z) (ops : PKT_onepass_sig)
  : M rc_t :=
  do a <- iobuf_temp ;;
  do _ <- write_version a ctb ;;
  do _ <- iobuf_put a (ops_sig_class ops) ;;
  do _ <- iobuf_put a (ops_digest_algo ops) ;;
  do _ <- iobuf_put a (ops_pubkey_algo ops) ;;
  do _ <- write_32 a (ops_keyid0 ops) ;;
  do _ <- write_32 a (ops_keyid1 ops) ;;
  do _ <- iobuf_put a (ops_last ops) ;;
  do rc <- flush_staged out a ctb 0 1 ;;
  leave a rc.

(** ** Dispatcher and length precomputation *)

(** The case labels of the two [switch] statements, once
    [PKT_OLD_COMMENT] has been turned into [PKT_COMMENT]; a payload of
    another kind than the label's is a stray pointer. *)
Definition build_packet (out : IOBUF) (pkt : PACKET) : M rc_t :=
  let ty := match pkttype pkt with
            | PKT_OLD_COMMENT => PKT_COMMENT
            | t => t
            end in
  match pkt_generic pkt with
  | None => log_bug BUG_assert
  | Some body =>
      let code := pkttype_code ty in
      let ctb := if 15 <? code
                 then Z.lor 0xc0 (Z.land code 0x3f)
                 else Z.lor 0x80 (Z.shiftl (Z.land code 15) 2) in
      match ty, body with
      | PKT_USER_ID, P_user_id uid => do_user_id out ctb uid
      | PKT_COMMENT, P_comment rem => do_comment out ctb rem
      | PKT_PUBKEY_SUBCERT, P_public_cert pkc
      | PKT_PUBLIC_CERT, P_public_cert pkc => do_public_cert out ctb pkc
      | PKT_SECKEY_SUBCERT, P_secret_cert skc
      | PKT_SECRET_CERT, P_secret_cert skc => do_secret_cert out ctb skc
      | PKT_SYMKEY_ENC, P_symkey_enc enc => do_symkey_enc out ctb enc
      | PKT_PUBKEY_ENC, P_pubkey_enc enc => do_pubkey_enc out ctb enc
      | PKT_PLAINTEXT, P_plaintext pt => do_plaintext out ctb pt
      | PKT_ENCRYPTED, P_encrypted ed => do_encrypted out ctb ed
      | PKT_COMPRESSED, P_compressed cd => do_compressed out ctb cd
      | PKT_SIGNATURE, P_signature sig => do_signature out ctb sig
      | PKT_ONEPASS_SIG, P_onepass_sig ops => do_onepass_sig out ctb ops
      | PKT_RING_TRUST, _ | PKT_other _, _ | PKT_OLD_COMMENT, _ =>
          log_bug BUG_build_packet_type
      | _, _ => log_bug BUG_bad_pointer
      end
  end.

Definition calc_packet_length (pkt : PACKET) : M Z :=
  match pkt_generic pkt with
  | None => log_bug BUG_assert
  | Some body =>
      match pkttype pkt, body with
      | PKT_PLAINTEXT, P_plaintext pt =>
          let n := calc_plaintext pt in
          ret (u32 (n + calc_header_length n))
      | PKT_PLAINTEXT, _ => log_bug BUG_bad_pointer
      | _, _ => log_bug BUG_calc_packet_length_type
      end
  end.

(** ** Signature subpackets *)

(** The exit after the scan loop: the [break]s end here. *)
Definition subpkt_too_short {A : Type} : M (option A) :=
  do _ <- log_error LOG_subpkt_short ;;
  ret None.

(** The length of an entry.  [p] is the offset of [buffer] in the region
    and [buflen] what is left of the declared length, both after the first
    length byte [n]; the result is the decoded length with the new [p] and
    [buflen], or [None] for [break].  The two-byte form leaves [buffer]
    where it was.  A first byte of 128 or more in the five-byte form
    overflows the [int] shift; whatever [size_t] comes out is above every
    [buflen], as the value computed here is. *)
Definition subpkt_length (buf : list Z) (p : nat) (buflen n : Z)
  : M (option (Z * nat * Z)) :=
  if n =? 255 then
    if buflen <? 4 then ret None
    else
      do b0 <- mem_byte buf p ;;
      do b1 <- mem_byte buf (p + 1) ;;
      do b2 <- mem_byte buf (p + 2) ;;
      do b3 <- mem_byte buf (p + 3) ;;
      ret (Some (Z.lor (Z.lor (Z.lor (Z.shiftl b0 24) (Z.shiftl b1 16))
                              (Z.shiftl b2 8)) b3,
                 (p + 4)%nat, buflen - 4))
  else if 192 <=? n then
    if buflen <? 2 then ret None
    else
      do b <- mem_byte buf p ;;
      ret (Some (Z.shiftl (n - 192) 8 + b + 192, p, buflen - 1))
  else ret (Some (n, p, buflen)).

(** The scan loop of [find_subpkt].  A found subpacket is given by the
    offset of its data in the region, [*ret_hlen] and [*ret_n].  Every
    round takes at least the length byte off [buflen], so [S buflen]
    rounds of fuel are never used up. *)
Fixpoint find_subpkt_scan (fuel : nat) (buf : list Z) (reqtype : Z)
  (p : nat) (buflen : Z) : M (option (nat * Z * Z)) :=
  match fuel with
  | O => log_bug BUG_fuel
  | S fuel' =>
      if buflen =? 0 then ret None
      else
        let bufstart := p in
        do n <- mem_byte buf p ;;
        do dec <- subpkt_length buf (S p) (buflen - 1) n ;;
        match dec with
        | None => subpkt_too_short
        | Some (n, p, buflen) =>
            if buflen <? n then subpkt_too_short
            else
              do t <- mem_byte buf p ;;
              let type := Z.land t 0x7f in
              if type =? reqtype then
                let p := S p in
                let n := size_t (n - 1) in
                if buflen <? n then subpkt_too_short
                else ret (Some (p, Z.of_nat (p - bufstart), n))
              else
                find_subpkt_scan fuel' buf reqtype
                  (p + Z.to_nat n) (buflen - n)
        end
  end.

Definition find_subpkt (buffer : option (list Z)) (reqtype : Z)
  : M (option (nat * Z * Z)) :=
  match buffer with
  | None => ret None
  | Some buf =>
      do buflen <- region_length buffer ;;
      find_subpkt_scan (S (Z.to_nat buflen)) buf reqtype 2 buflen
  end.

(** [m_alloc] and [m_realloc] to [size] bytes: the old bytes are kept and
    the new ones, which C leaves undetermined, are [0] here;
    [build_sig_subpkt] writes every byte past a well-formed old region. *)
Definition m_realloc (old : option (list Z)) (size : Z) : list Z :=
  resize (Z.to_nat size) 0 (default [] old).

Definition memcpy (data : list Z) (off : Z) (src : list Z) : list Z :=
  list_inserts (Z.to_nat off) src data.

Definition poke (data : list Z) (off : Z) (v : Z) : list Z :=
  <[Z.to_nat off := byte_of v]> data.

Definition set_region (hashed : bool) (data : list Z) (sig : PKT_signature)
  : PKT_signature :=
  mk_sig (sig_version sig) (sig_class sig) (sig_timestamp sig)
    (sig_keyid0 sig) (sig_keyid1 sig)
    (sig_pubkey_algo sig) (sig_digest_algo sig)
    (if hashed then Some data else hashed_data sig)
    (if hashed then unhashed_data sig else Some data)
    (sig_digest_start0 sig) (sig_digest_start1 sig)
    (sig_elg_a sig) (sig_elg_b sig) (sig_dsa_r sig) (sig_dsa_s sig)
    (sig_rsa_integer sig).

(** [build_sig_subpkt] returns the signature with its region replaced. *)
Definition build_sig_subpkt (sig : PKT_signature) (type : Z)
  (buffer : list Z) : M PKT_signature :=
  let buflen := Z.of_nat (length buffer) in
  do in_hashed <- find_subpkt (hashed_data sig) type ;;
  do found <- (match in_hashed with
               | Some _ => ret 1
               | None =>
                   do in_unhashed <- find_subpkt (unhashed_data sig) type ;;
                   match in_unhashed with
                   | Some _ => ret 2
                   | None => ret 0
                   end
               end) ;;
  do _ <- (if nonzero found then log_bug BUG_subpkt_update_nyi
           else ret tt) ;;
  do _ <- (if 192 <=? size_t (buflen + 1) then log_bug BUG_subpkt_long_nyi
           else ret tt) ;;
  let hashed := (type =? SIGSUBPKT_SIG_CREATED)
                || (type =? SIGSUBPKT_PRIV_ADD_SIG) in
  let region := if hashed then hashed_data sig else unhashed_data sig in
  do n0 <- region_length region ;;
  let n := n0 + 1 + 1 + buflen in
  let data := m_realloc region (n + 2) in
  let data := poke data (n0 + 0) (Z.land (Z.shiftr n 8) 0xff) in
  let data := poke data (n0 + 1) (Z.land n 0xff) in
  let data := poke data (n0 + 2) (buflen + 1) in
  let data := poke data (n0 + 3) type in
  let data := memcpy data (n0 + 4) buffer in
  ret (set_region hashed data sig).

Definition be32_bytes (u : Z) : list Z :=
  [Z.land (Z.shiftr u 24) 0xff; Z.land (Z.shiftr u 16) 0xff;
   Z.land (Z.shiftr u 8) 0xff; Z.land u 0xff].

Definition build_sig_subpkt_from_sig (sig : PKT_signature)
  : M PKT_signature :=
  let buf := be32_bytes (u32 (sig_keyid0 sig))
             ++ be32_bytes (u32 (sig_keyid1 sig)) in
  do sig <- build_sig_subpkt sig SIGSUBPKT_ISSUER buf ;;
  build_sig_subpkt sig SIGSUBPKT_SIG_CREATED
    (be32_bytes (u32 (sig_timestamp sig))).

End Encoders.

(** * Vocabulary of the properties *)

(** The values of a byte. *)
Definition is_byte (x : Z) : Prop := 0 <= x < 256.

(** The value of a big-endian byte string. *)
Definition be_value (bs : list Z) : Z :=
  fold_left (fun acc b => acc * 256 + b) bs 0.

(** The state after the sink [out], found as [b], accepted the bytes
    [bs] with no failure pending. *)
Definition wrote (out : IOBUF) (b : iobuf) (bs : list Z) (w : world) : world :=
  set_iobufs
    (<[out := mk_iobuf (io_written b ++ bs) (io_framing b) []]> (iobufs w)) w.

(** The new-format length of the specification: one byte below 192, the
    two-byte scaled form below 8384, and 0xFF with the four big-endian
    bytes otherwise. *)
Definition new_format_length (len : Z) : list Z :=
  if len <? 192 then [len]
  else if len <? 8384 then [(len - 192) / 256 + 192; (len - 192) mod 256]
  else [0xff; len / 16777216 mod 256; len / 65536 mod 256;
        len / 256 mod 256; len mod 256].

(** A world whose only sink, handle 0, is empty and reliable. *)
Definition sink0 : iobuf := iobuf_empty.

Definition world0 : world := mk_world {[ 0%nat := sink0 ]} [] false.

(** The length bytes [write_header2] puts after an old-format tag byte
    [ctb'] that already carries the selector. *)
Definition old_length_bytes (ctb' len : Z) : list Z :=
  (if nonzero (Z.land ctb' 2)
   then [byte_of (Z.shiftr len 24); byte_of (Z.shiftr len 16)] else [])
  ++ (if nonzero (Z.land ctb' 3) then [byte_of (Z.shiftr len 8)] else [])
  ++ [byte_of len].

(** A world whose only sink, handle 0, has the given write outcomes
    ahead. *)
Definition faulty_world (faults : list bool) : world :=
  mk_world {[ 0%nat := mk_iobuf [] [] faults ]} [] false.

(** Two runs agree and it is not the fuel that stopped them. *)
Definition same_unfuelled {A : Type} (o1 o2 : outcome A) : Prop :=
  o1 = o2 /\ o1 <> Abort BUG_fuel.

(** The values of GnuPG's packet.h and cipher.h, which are OpenPGP's
    numbers, to run the code on concrete inputs. *)
Definition gnupg_headers : Headers := {|
  pkttype_code := fun t =>
    match t with
    | PKT_PUBKEY_ENC => 1 | PKT_SIGNATURE => 2 | PKT_SYMKEY_ENC => 3
    | PKT_ONEPASS_SIG => 4 | PKT_SECRET_CERT => 5 | PKT_PUBLIC_CERT => 6
    | PKT_SECKEY_SUBCERT => 7 | PKT_COMPRESSED => 8 | PKT_ENCRYPTED => 9
    | PKT_PLAINTEXT => 11 | PKT_RING_TRUST => 12 | PKT_USER_ID => 13
    | PKT_PUBKEY_SUBCERT => 14 | PKT_OLD_COMMENT => 16 | PKT_COMMENT => 61
    | PKT_other code => code
    end;
  is_ELGAMAL := fun a => (a =? 20) || (a =? 16);
  is_RSA := fun a => (a =? 1) || (a =? 2) || (a =? 3);
  PUBKEY_ALGO_DSA := 17;
  SIGSUBPKT_SIG_CREATED := 2;
  SIGSUBPKT_ISSUER := 16;
  SIGSUBPKT_PRIV_ADD_SIG := 101
|}.

(** A version 4 signature without subpacket regions. *)
Definition sig0 : PKT_signature :=
  mk_sig 4 0 0 0 0 17 2 None None 0 0
    (mk_MPI []) (mk_MPI []) (mk_MPI []) (mk_MPI []) (mk_MPI []).


(** The state with the sink [t] at the handle [a]. *)
Definition ins (a : IOBUF) (t : iobuf) (w : world) : world :=
  set_iobufs (<[a := t]> (iobufs w)) w.

(** [m] is confined to the sink [a]: started with [a] allocated, it
    changes nothing else. *)
Definition confined (a : IOBUF) {A : Type} (m : M A) : Prop :=
  forall w r w',
    is_Some (iobufs w !! a) -> m w = Done r w' -> exists t, w' = ins a t w.

(** The common shape of the staged encoders. *)
Definition staged (stage : IOBUF -> M bool) (flush : IOBUF -> M rc_t)
  : M rc_t :=
  do a <- iobuf_temp ;;
  do known <- stage a ;;
  do rc <- (if known then flush a else ret G10ERR_PUBKEY_ALGO) ;;
  leave a rc.

(** [m] works on the sink [out] alone: a sink allocated elsewhere stays
    as it is and does not matter to the run. *)
Definition local (out : IOBUF) {A : Type} (m : M A) : Prop :=
  forall a t w,
    a <> out -> iobufs w !! a = None ->
    match m w with
    | Done r w' => m (ins a t w) = Done r (ins a t w')
                   /\ iobufs w' !! a = None
    | Abort why => m (ins a t w) = Abort why
    end.

(** What a staged encoder does to the real sink once the body [t] is
    complete: the header for the whole body, then the body. *)
Definition emit_packet (out : IOBUF) (ctb hdrlen blkmode : Z) (body : list Z)
  : M rc_t :=
  do _ <- write_header2 out ctb (u32 (Z.of_nat (length body))) hdrlen
            blkmode ;;
  do r <- iobuf_write out body ;;
  ret (rc_of_write r).

(** [m] runs to its end on the sink [a], found as [b] with no failure
    pending, writing to it alone, and returns a result in [P]. *)
Definition runs_to (a : IOBUF) (b : iobuf) {A : Type} (m : M A)
  (P : A -> Prop) : Prop :=
  forall bs w,
    exists r bs', m (wrote a b bs w) = Done r (wrote a b bs' w) /\ P r.

(** The postcondition of a result that is not looked at. *)
Definition any {A : Type} (_ : A) : Prop := True.

(** A region whose declared length does not exceed what is allocated. *)
Definition region_fits (region : option (list Z)) : Prop :=
  match region with
  | None => True
  | Some buf =>
      exists p0 p1 entries,
        buf = p0 :: p1 :: entries
        /\ Z.lor (Z.shiftl (byte_of p0) 8) (byte_of p1)
           <= Z.of_nat (length entries)
  end.

(** A public certificate of the unassigned algorithm 99. *)
Definition pkc_unknown : PKT_public_cert :=
  Build_PKT_public_cert 3 0x36000000 0 99 0
    (mk_MPI []) (mk_MPI []) (mk_MPI []) (mk_MPI []) (mk_MPI [])
    (mk_MPI []) (mk_MPI []) (mk_MPI []) (mk_MPI []).

(** The fields of a literal packet between header and body. *)
Definition plaintext_fields (pt : PKT_plaintext) : list Z :=
  [byte_of (pt_mode pt); byte_of (pt_namelen pt)]
  ++ map byte_of (pt_name pt)
  ++ [u32 (pt_timestamp pt) / 16777216 mod 256;
      u32 (pt_timestamp pt) / 65536 mod 256;
      u32 (pt_timestamp pt) / 256 mod 256;
      u32 (pt_timestamp pt) mod 256].


(** A literal packet declaring the 2 bytes its source holds. *)
Definition pt_exact : PKT_plaintext :=
  Build_PKT_plaintext 2 [0x68; 0x69] 0x62 0x36000000 [0x61].

(** A literal packet without a name declaring the [2^32 - 10] zero bytes
    its source holds: the body with its 6 field bytes has [2^32 - 4]
    bytes, which the 4-byte length field still holds. *)
Definition pt_wrap : PKT_plaintext :=
  Build_PKT_plaintext (2 ^ 32 - 10) (replicate (Z.to_nat (2 ^ 32 - 10)) 0)
    0x62 0x36000000 [].

Section Vocabulary.
Context `{Headers}.

(** The region a subpacket goes to. *)
Definition routed_hashed (type : Z) : bool :=
  (type =? SIGSUBPKT_SIG_CREATED) || (type =? SIGSUBPKT_PRIV_ADD_SIG).

(** No branch of the three-family encoders takes the algorithm. *)
Definition unknown_pubkey_algo (algo : Z) : Prop :=
  is_ELGAMAL algo = false /\ (algo =? PUBKEY_ALGO_DSA) = false
  /\ is_RSA algo = false.

End Vocabulary.

(** ** Vocabulary of the further properties *)

(** The bytes [write_16] and [write_32] put, most significant first. *)
Definition u16_wire (a : Z) : list Z := [u16 a / 256 mod 256; u16 a mod 256].

Definition u32_wire (a : Z) : list Z :=
  [u32 a / 16777216 mod 256; u32 a / 65536 mod 256;
   u32 a / 256 mod 256; u32 a mod 256].

(** The old-format header of a nonzero length under a tag byte whose
    selector bits are clear: the shortest of the three widths. *)
Definition old_header (ctb len : Z) : list Z :=
  if len <? 256 then [byte_of ctb; len]
  else if len <? 65536 then [byte_of (Z.lor ctb 1); len / 256; len mod 256]
  else [byte_of (Z.lor ctb 2); len / 16777216; len / 65536 mod 256;
        len / 256 mod 256; len mod 256].

(** The version byte of certificates and signatures: 3 stands in for 0. *)
Definition version_byte (version : Z) : Z :=
  byte_of (if nonzero version then version else 3).

(** The body of a one-pass signature packet. *)
Definition onepass_sig_body (ops : PKT_onepass_sig) : list Z :=
  [3; byte_of (ops_sig_class ops); byte_of (ops_digest_algo ops);
   byte_of (ops_pubkey_algo ops)]
  ++ u32_wire (ops_keyid0 ops) ++ u32_wire (ops_keyid1 ops)
  ++ [byte_of (ops_last ops)].

(** A subpacket region as it goes into a signature packet: the two
    prefix bytes and as many of the bytes behind them as they declare;
    two zero bytes for [NULL]. *)
Definition region_wire (region : option (list Z)) : list Z :=
  match region with
  | Some (p0 :: p1 :: entries) =>
      byte_of p0 :: byte_of p1
      :: take (Z.to_nat (byte_of p0 * 256 + byte_of p1)) entries
  | _ => [0; 0]
  end.

(** An entry in the short form: length byte, type byte, body. *)
Definition short_entry (e : Z * list Z) : list Z :=
  (Z.of_nat (length (snd e)) + 1) :: fst e :: snd e.

Fixpoint short_entries (es : list (Z * list Z)) : list Z :=
  match es with
  | [] => []
  | e :: es' => short_entry e ++ short_entries es'
  end.

(** A region: the 2-byte big-endian number of the bytes, and the bytes. *)
Definition region_of (bytes : list Z) : list Z :=
  (Z.of_nat (length bytes) / 256) :: (Z.of_nat (length bytes) mod 256)
  :: bytes.

(** The first entry of the wanted type, bit 7 of the type byte left
    out: the offset of its body, counted from [off] for the first entry,
    and the length of its body. *)
Fixpoint first_entry (reqtype : Z) (es : list (Z * list Z)) (off : nat)
  : option (nat * Z) :=
  match es with
  | [] => None
  | e :: es' =>
      if Z.land (fst e) 0x7f =? reqtype
      then Some ((off + 2)%nat, Z.of_nat (length (snd e)))
      else first_entry reqtype es' (off + 2 + length (snd e))%nat
  end.

(** Entries the short form can hold. *)
Definition short_form_ok (e : Z * list Z) : Prop :=
  is_byte (fst e) /\ (length (snd e) <= 190)%nat.

(** The state with one more "buffer shorter than subpacket" message. *)
Definition with_short_error (w : world) : world :=
  mk_world (iobufs w) (diag w ++ [LOG_subpkt_short]) (opt_no_comment w).

Section Bodies.
Context `{Headers}.

(** An algorithm of one of the three families. *)
Definition known_pubkey_algo (algo : Z) : bool :=
  is_ELGAMAL algo || (algo =? PUBKEY_ALGO_DSA) || is_RSA algo.


(** The protection descriptor of an Elgamal or DSA secret certificate:
    one zero byte when the key is not protected. *)
Definition protection_wire (skc : PKT_secret_cert) : list Z :=
  let s2k := skc_protect_s2k skc in
  if nonzero (skc_is_protected skc) then
    [0xff; byte_of (skc_protect_algo skc); byte_of (s2k_mode s2k);
     byte_of (s2k_hash_algo s2k)]
    ++ (if (s2k_mode s2k =? 1) || (s2k_mode s2k =? 4)
        then s2k_salt s2k else [])
    ++ (if s2k_mode s2k =? 4 then u32_wire (s2k_count s2k) else [])
    ++ skc_protect_iv skc
  else [0].

(** The body of a secret certificate packet. *)
Definition secret_cert_body (skc : PKT_secret_cert) : list Z :=
  [version_byte (skc_version skc)] ++ u32_wire (skc_timestamp skc)
  ++ (if skc_version skc <? 4 then u16_wire (skc_valid_days skc) else [])
  ++ [byte_of (skc_pubkey_algo skc)]
  ++ (if is_ELGAMAL (skc_pubkey_algo skc) then
        mpi_wire (skc_elg_p skc) ++ mpi_wire (skc_elg_g skc)
        ++ mpi_wire (skc_elg_y skc)
        ++ protection_wire skc
        ++ mpi_wire (skc_elg_x skc)
      else if skc_pubkey_algo skc =? PUBKEY_ALGO_DSA then
        mpi_wire (skc_dsa_p skc) ++ mpi_wire (skc_dsa_q skc)
        ++ mpi_wire (skc_dsa_g skc) ++ mpi_wire (skc_dsa_y skc)
        ++ protection_wire skc
        ++ mpi_wire (skc_dsa_x skc)
      else
        mpi_wire (skc_rsa_n skc) ++ mpi_wire (skc_rsa_e skc)
        ++ (if nonzero (skc_is_protected skc)
            then byte_of (skc_protect_algo skc) :: skc_protect_iv skc
            else [0])
        ++ mpi_wire (skc_rsa_d skc) ++ mpi_wire (skc_rsa_p skc)
        ++ mpi_wire (skc_rsa_q skc) ++ mpi_wire (skc_rsa_u skc))
  ++ u16_wire (skc_csum skc).

(** The body of a public-key encrypted session key packet. *)
Definition pubkey_enc_body (enc : PKT_pubkey_enc) : list Z :=
  [3] ++ u32_wire (enc_keyid0 enc) ++ u32_wire (enc_keyid1 enc)
  ++ [byte_of (enc_pubkey_algo enc)]
  ++ (if is_ELGAMAL (enc_pubkey_algo enc)
      then mpi_wire (enc_elg_a enc) ++ mpi_wire (enc_elg_b enc)
      else mpi_wire (enc_rsa_integer enc)).

(** The integers of a signature. *)
Definition signature_mpis (sig : PKT_signature) : list Z :=
  if is_ELGAMAL (sig_pubkey_algo sig) then
    mpi_wire (sig_elg_a sig) ++ mpi_wire (sig_elg_b sig)
  else if sig_pubkey_algo sig =? PUBKEY_ALGO_DSA then
    mpi_wire (sig_dsa_r sig) ++ mpi_wire (sig_dsa_s sig)
  else mpi_wire (sig_rsa_integer sig).

(** The body of a signature packet: the layout with the fixed 5-byte
    hashed material below version 4, the one with the two subpacket
    regions from version 4 on. *)
Definition signature_body (sig : PKT_signature) : list Z :=
  if sig_version sig <? 4 then
    [version_byte (sig_version sig); 5; byte_of (sig_class sig)]
    ++ u32_wire (sig_timestamp sig)
    ++ u32_wire (sig_keyid0 sig) ++ u32_wire (sig_keyid1 sig)
    ++ [byte_of (sig_pubkey_algo sig); byte_of (sig_digest_algo sig);
        byte_of (sig_digest_start0 sig); byte_of (sig_digest_start1 sig)]
    ++ signature_mpis sig
  else
    [version_byte (sig_version sig); byte_of (sig_class sig);
     byte_of (sig_pubkey_algo sig); byte_of (sig_digest_algo sig)]
    ++ region_wire (hashed_data sig) ++ region_wire (unhashed_data sig)
    ++ [byte_of (sig_digest_start0 sig); byte_of (sig_digest_start1 sig)]
    ++ signature_mpis sig.

End Bodies.

(** The body of a symmetric-key encrypted session key packet. *)
Definition symkey_enc_body (enc : PKT_symkey_enc) : list Z :=
  let s2k := sym_s2k enc in
  [byte_of (sym_version enc); byte_of (sym_cipher_algo enc);
   byte_of (s2k_mode s2k); byte_of (s2k_hash_algo s2k)]
  ++ (if (s2k_mode s2k =? 1) || (s2k_mode s2k =? 4) then s2k_salt s2k else [])
  ++ (if s2k_mode s2k =? 4 then u32_wire (s2k_count s2k) else [])
  ++ sym_seskey enc.

(** [m] returns whenever the sink [out] is allocated, whatever the sink
    does with the writes, and leaves it allocated. *)
Definition total_on (out : IOBUF) {A : Type} (m : M A) : Prop :=
  forall w,
    is_Some (iobufs w !! out) ->
    exists r w', m w = Done r w' /\ is_Some (iobufs w' !! out).

(** * Properties *)

(** ** Bytes and big-endian values *)

(** Linear arithmetic with division and remainder by constants. *)
Ltac zlia := Z.to_euclidean_division_equations; lia.

Lemma byte_of_mod (c : Z) : byte_of c = c mod 256.
Proof.
  unfold byte_of. change 0xff with (Z.ones 8).
  rewrite Z.land_ones by lia. reflexivity.
Qed.

Lemma byte_of_range (c : Z) : is_byte (byte_of c).
Proof. unfold is_byte. rewrite byte_of_mod. zlia. Qed.

Lemma byte_of_byte (c : Z) : is_byte c -> byte_of c = c.
Proof. unfold is_byte. intros Hc. rewrite byte_of_mod. apply Z.mod_small. lia. Qed.

Lemma land_ff_mod (c : Z) : Z.land c 0xff = c mod 256.
Proof. apply byte_of_mod. Qed.

Lemma shiftr_8 (a : Z) : Z.shiftr a 8 = a / 256.
Proof. apply Z.shiftr_div_pow2. lia. Qed.

Lemma shiftr_16 (a : Z) : Z.shiftr a 16 = a / 65536.
Proof. apply Z.shiftr_div_pow2. lia. Qed.

Lemma shiftr_24 (a : Z) : Z.shiftr a 24 = a / 16777216.
Proof. apply Z.shiftr_div_pow2. lia. Qed.

Lemma nonzero_0 : nonzero 0 = false.
Proof. reflexivity. Qed.

Lemma nonzero_true (x : Z) : x <> 0 -> nonzero x = true.
Proof. unfold nonzero. intros Hx. apply negb_true_iff, Z.eqb_neq, Hx. Qed.

(** ** Running the writers on a reliable sink *)

Lemma bind_Done {A B : Type} (m : M A) (k : A -> M B) w a w' :
  m w = Done a w' -> bind m k w = k a w'.
Proof. unfold bind. intros ->. reflexivity. Qed.

Lemma wrote_nil out b w :
  iobufs w !! out = Some b -> io_faults b = [] -> wrote out b [] w = w.
Proof.
  intros Hb Hf. unfold wrote, set_iobufs.
  destruct w as [m d o], b as [wr fr fa]; simpl in *. subst fa.
  rewrite app_nil_r, insert_id by exact Hb. reflexivity.
Qed.

Lemma iobuf_write_wrote out b bs cs w :
  iobuf_write out cs (wrote out b bs w) = Done 0 (wrote out b (bs ++ cs) w).
Proof.
  unfold iobuf_write, on_iobuf, wrote, set_iobufs. simpl.
  rewrite lookup_insert_eq. simpl.
  rewrite insert_insert_eq, app_assoc. reflexivity.
Qed.

Lemma iobuf_put_wrote out b bs c w :
  iobuf_put out c (wrote out b bs w)
  = Done 0 (wrote out b (bs ++ [byte_of c]) w).
Proof. apply iobuf_write_wrote. Qed.

Lemma wrote_lookup out b bs w :
  iobufs (wrote out b bs w) !! out
  = Some (mk_iobuf (io_written b ++ bs) (io_framing b) []).
Proof. unfold wrote. simpl. apply lookup_insert_eq. Qed.

(** One step of a writer whose next action is a put on the reliable
    sink. *)
Ltac run_done :=
  lazymatch goal with
  | |- bind _ _ _ = _ =>
      erewrite bind_Done by run_done;
      rewrite ?nonzero_0; cbv beta iota; run_done
  | |- iobuf_put _ _ _ = _ => apply iobuf_put_wrote
  | |- _ => reflexivity
  end.

Ltac put_step :=
  first
    [ erewrite bind_Done by run_done
    | rewrite iobuf_put_wrote ];
  rewrite ?nonzero_0; cbv beta iota.

Lemma write_16_wrote out b bs a w :
  write_16 out a (wrote out b bs w)
  = Done 0 (wrote out b (bs ++ [u16 a / 256 mod 256; u16 a mod 256]) w).
Proof.
  unfold write_16. cbv zeta. do 2 put_step. unfold ret.
  rewrite <- app_assoc. simpl. rewrite !byte_of_mod, shiftr_8. reflexivity.
Qed.

Lemma write_32_wrote out b bs a w :
  write_32 out a (wrote out b bs w)
  = Done 0 (wrote out b
              (bs ++ [u32 a / 16777216 mod 256; u32 a / 65536 mod 256;
                      u32 a / 256 mod 256; u32 a mod 256]) w).
Proof.
  unfold write_32. cbv zeta. do 4 put_step. unfold ret.
  rewrite <- !app_assoc. simpl.
  rewrite !byte_of_mod, shiftr_8, shiftr_16, shiftr_24. reflexivity.
Qed.

Lemma be_value_4 (len : Z) :
  0 <= len < 2 ^ 32 ->
  be_value [len / 16777216 mod 256; len / 65536 mod 256;
            len / 256 mod 256; len mod 256] = len.
Proof. intros Hlen. unfold be_value. simpl. zlia. Qed.

(** ** Header codec *)

(** C3: for every 32-bit length, [calc_header_length] is 1 for 0, 2 below
    256, 3 below 65536 and 5 from there on, in particular at 0, 255, 256,
    65535 and 65536.  It is a function on integers outside the monad of
    effects: it performs no I/O. *)
Theorem calc_header_length_cases (len : Z) :
  0 <= len < 2 ^ 32 ->
  (len = 0 -> calc_header_length len = 1)
  /\ (0 < len < 256 -> calc_header_length len = 2)
  /\ (256 <= len < 65536 -> calc_header_length len = 3)
  /\ (65536 <= len -> calc_header_length len = 5)
  /\ calc_header_length 0 = 1
  /\ calc_header_length 255 = 2
  /\ calc_header_length 256 = 3
  /\ calc_header_length 65535 = 3
  /\ calc_header_length 65536 = 5.
Proof.
  intros Hlen. unfold calc_header_length.
  repeat split; try reflexivity; intros Hcase;
    repeat (case_match; try reflexivity); lia.
Qed.

Lemma calc_header_length_cases_witness : calc_header_length 300 = 3.
Proof.
  destruct (calc_header_length_cases 300) as (_ & _ & H3 & _).
  - lia.
  - apply H3. lia.
Defined.

Lemma write_new_header_wrote out b bs ctb len w :
  0 < len < 2 ^ 32 ->
  write_new_header out ctb len 0 (wrote out b bs w)
  = Done 0 (wrote out b (bs ++ byte_of ctb :: new_format_length len) w).
Proof.
  intros Hlen. unfold write_new_header, new_format_length.
  rewrite nonzero_0.
  erewrite bind_Done by reflexivity.
  put_step.
  destruct (len =? 0) eqn:E0; [lia|].
  destruct (len <? 192) eqn:E1; [|destruct (len <? 8384) eqn:E2].
  - put_step. unfold ret. rewrite <- app_assoc. simpl.
    rewrite (byte_of_byte len) by (unfold is_byte; lia). reflexivity.
  - cbv zeta. do 2 put_step. unfold ret. rewrite <- !app_assoc. simpl.
    rewrite (byte_of_byte ((len - 192) / 256 + 192))
      by (unfold is_byte; zlia).
    rewrite (byte_of_byte ((len - 192) mod 256))
      by (unfold is_byte; zlia).
    reflexivity.
  - do 5 put_step. unfold ret. rewrite <- !app_assoc. simpl.
    rewrite !land_ff_mod, !byte_of_mod, shiftr_8, shiftr_16, shiftr_24.
    rewrite !Z.mod_mod by lia. reflexivity.
Qed.

(** C1: for a length [0 < len] the new-format header writer emits, after
    the tag byte, the single byte [len] below 192, the two bytes
    [(len-192)/256+192] and [(len-192) mod 256] from 192 up to 8383, and
    from 8384 on the marker 0xFF followed by the four big-endian bytes of
    [len]; 191, 192, 8383 and 8384 are the boundary cases. *)
Theorem write_new_header_length_encoding w out b ctb len :
  iobufs w !! out = Some b -> io_faults b = [] ->
  0 < len < 2 ^ 32 ->
  exists enc,
    write_new_header out ctb len 0 w
      = Done 0 (wrote out b (byte_of ctb :: enc) w)
    /\ (len < 192 -> enc = [len])
    /\ (192 <= len < 8384 ->
        enc = [(len - 192) / 256 + 192; (len - 192) mod 256])
    /\ (8384 <= len ->
        exists b3 b2 b1 b0,
          enc = [0xff; b3; b2; b1; b0]
          /\ Forall is_byte [b3; b2; b1; b0]
          /\ be_value [b3; b2; b1; b0] = len)
    /\ (len = 191 -> enc = [191])
    /\ (len = 192 -> enc = [192; 0])
    /\ (len = 8383 -> enc = [223; 255])
    /\ (len = 8384 -> enc = [0xff; 0; 0; 32; 192]).
Proof.
  intros Hb Hf Hlen. exists (new_format_length len). split.
  - rewrite <- (wrote_nil out b w Hb Hf) at 1.
    apply (write_new_header_wrote out b [] ctb len w Hlen).
  - unfold new_format_length.
    repeat split; intros Hcase; try (subst len; reflexivity).
    + destruct (len <? 192) eqn:E1; [reflexivity | lia].
    + destruct (len <? 192) eqn:E1; [lia|].
      destruct (len <? 8384) eqn:E2; [reflexivity | lia].
    + destruct (len <? 192) eqn:E1; [lia|].
      destruct (len <? 8384) eqn:E2; [lia|].
      do 4 eexists. split; [reflexivity|]. split.
      * repeat constructor; zlia.
      * apply be_value_4. lia.
Qed.

Lemma write_new_header_length_encoding_witness :
  exists enc,
    write_new_header 0%nat 0xcb 192 0 world0
      = Done 0 (wrote 0%nat sink0 (byte_of 0xcb :: enc) world0)
    /\ enc = [192; 0].
Proof.
  destruct (write_new_header_length_encoding world0 0%nat sink0 0xcb 192)
    as (enc & Hrun & _ & _ & _ & _ & H192 & _).
  - reflexivity.
  - reflexivity.
  - lia.
  - exists enc. split; [exact Hrun | apply H192; reflexivity].
Defined.

Lemma write_header2_old_wrote out b bs ctb len hdrlen blkmode w :
  Z.land ctb 0x40 = 0 -> len <> 0 ->
  write_header2 out ctb len hdrlen blkmode (wrote out b bs w)
  = Done 0 (wrote out b
              (bs ++ byte_of (old_ctb ctb len hdrlen)
                  :: old_length_bytes (old_ctb ctb len hdrlen) len) w).
Proof.
  intros Hold Hlen. unfold write_header2, old_length_bytes.
  rewrite Hold, nonzero_0. cbv zeta.
  put_step.
  destruct (len =? 0) eqn:E0; [lia|].
  unfold when.
  destruct (nonzero (Z.land (old_ctb ctb len hdrlen) 2));
    destruct (nonzero (Z.land (old_ctb ctb len hdrlen) 3));
    repeat put_step;
    unfold ret; rewrite <- ?app_assoc; reflexivity.
Qed.

Lemma land_3_2 (ctb : Z) : Z.land ctb 3 = 0 -> Z.land ctb 2 = 0.
Proof.
  intros H3. change 2 with (Z.land 3 2).
  rewrite Z.land_assoc, H3. reflexivity.
Qed.

Lemma selector_merged (ctb sel : Z) :
  Z.land ctb 3 = 0 -> 0 <= sel < 4 ->
  Z.land (Z.lor ctb sel) 3 = sel /\ Z.land (Z.lor ctb sel) 2 = Z.land sel 2.
Proof.
  intros H3 Hsel. rewrite !Z.land_lor_distr_l, H3, (land_3_2 ctb H3).
  assert (sel = 0 \/ sel = 1 \/ sel = 2 \/ sel = 3) as Hs by lia.
  destruct Hs as [->|[->|[->| ->]]]; split; reflexivity.
Qed.

(** C2: on an old-format tag byte (bit 6 clear, selector bits clear, as
    [build_packet] forms it), a length [0 < len] and a forced header width
    [hdrlen <> 0], [write_header2] merges a selector [sel] and writes
    length bytes such that: [sel = 0] with one length byte only when
    [len < 256], [sel = 1] with two only when [len < 65536], otherwise
    [sel = 2] with four; the bytes written are the big-endian digits of
    [len]. *)
Theorem write_header2_forced_width_fits w out b ctb len hdrlen blkmode :
  iobufs w !! out = Some b -> io_faults b = [] ->
  Z.land ctb 0x40 = 0 -> Z.land ctb 3 = 0 ->
  0 < len < 2 ^ 32 -> hdrlen <> 0 ->
  exists sel lenbytes,
    write_header2 out ctb len hdrlen blkmode w
      = Done 0 (wrote out b (byte_of (Z.lor ctb sel) :: lenbytes) w)
    /\ Z.land (byte_of (Z.lor ctb sel)) 3 = sel
    /\ (sel = 0 /\ len < 256 /\ length lenbytes = 1%nat
        \/ sel = 1 /\ len < 65536 /\ length lenbytes = 2%nat
        \/ sel = 2 /\ length lenbytes = 4%nat)
    /\ (sel = 0 <-> hdrlen = 2 /\ len < 256)
    /\ (sel = 1 <-> hdrlen = 3 /\ len < 65536)
    /\ Forall is_byte lenbytes
    /\ be_value lenbytes = len.
Proof.
  intros Hb Hf Hold H3 Hlen Hhdr.
  set (sel := if (hdrlen =? 2) && (len <? 256) then 0
              else if (hdrlen =? 3) && (len <? 65536) then 1 else 2).
  assert (Hctb : old_ctb ctb len hdrlen = Z.lor ctb sel).
  { unfold old_ctb, sel. rewrite (nonzero_true hdrlen Hhdr).
    destruct (len =? 0) eqn:E0; [lia|].
    destruct ((hdrlen =? 2) && (len <? 256)).
    - rewrite Z.lor_0_r. reflexivity.
    - destruct ((hdrlen =? 3) && (len <? 65536)); reflexivity. }
  assert (Hsel : 0 <= sel < 4).
  { unfold sel. repeat case_match; lia. }
  destruct (selector_merged ctb sel H3 Hsel) as [Hs3 Hs2].
  exists sel, (old_length_bytes (Z.lor ctb sel) len).
  split.
  { rewrite <- (wrote_nil out b w Hb Hf) at 1. rewrite <- Hctb.
    apply (write_header2_old_wrote out b [] ctb len hdrlen blkmode w Hold).
    lia. }
  split.
  { unfold byte_of. rewrite <- Z.land_assoc. exact Hs3. }
  unfold old_length_bytes. rewrite Hs3, Hs2.
  rewrite !byte_of_mod, shiftr_8, shiftr_16, shiftr_24.
  unfold sel in *. clear Hs3 Hs2 Hctb Hsel sel.
  destruct (hdrlen =? 2) eqn:E2; destruct (len <? 256) eqn:E256;
    destruct (hdrlen =? 3) eqn:E3; destruct (len <? 65536) eqn:E64k;
    simpl; unfold be_value; simpl;
    (split; [ lia | ]);
    (split; [ split; [ intros; lia | intros [? ?]; lia ] | ]);
    (split; [ split; [ intros; lia | intros [? ?]; lia ] | ]);
    (split; [ repeat constructor; unfold is_byte; zlia | zlia ]).
Qed.

Lemma write_header2_forced_width_fits_witness :
  exists sel lenbytes,
    write_header2 0%nat 0x98 300 2 1 world0
      = Done 0 (wrote 0%nat sink0 (byte_of (Z.lor 0x98 sel) :: lenbytes)
                  world0)
    /\ sel <> 0
    /\ be_value lenbytes = 300.
Proof.
  destruct (write_header2_forced_width_fits world0 0%nat sink0 0x98 300 2 1)
    as (sel & lenbytes & Hrun & _ & _ & H0 & _ & _ & Hval);
    try reflexivity; try lia.
  exists sel, lenbytes. split; [exact Hrun|]. split; [|exact Hval].
  intros Hsel. apply H0 in Hsel. lia.
Defined.

(** ** Primitive writers *)

(** What [write_16] returns is the outcome of its second [iobuf_put]
    alone. *)
Lemma write_16_result out a w b f1 f2 fs :
  iobufs w !! out = Some b -> io_faults b = f1 :: f2 :: fs ->
  exists w', write_16 out a w = Done (if f2 then -1 else 0) w'.
Proof.
  intros Hb Hf. unfold write_16, bind, iobuf_put, iobuf_write, on_iobuf.
  cbv zeta. rewrite Hb. unfold sink_write. rewrite Hf.
  destruct f1; simpl; rewrite lookup_insert_eq; simpl;
    destruct f2; simpl; eexists; reflexivity.
Qed.

(** What [write_32] returns is the outcome of its fourth [iobuf_put]
    alone. *)
Lemma write_32_result out a w b f1 f2 f3 f4 fs :
  iobufs w !! out = Some b -> io_faults b = f1 :: f2 :: f3 :: f4 :: fs ->
  exists w', write_32 out a w = Done (if f4 then -1 else 0) w'.
Proof.
  intros Hb Hf. unfold write_32, bind, iobuf_put, iobuf_write, on_iobuf.
  cbv zeta. rewrite Hb. unfold sink_write. rewrite Hf.
  destruct f1; simpl; rewrite lookup_insert_eq; simpl;
    destruct f2; simpl; rewrite lookup_insert_eq; simpl;
    destruct f3; simpl; rewrite lookup_insert_eq; simpl;
    destruct f4; simpl; eexists; reflexivity.
Qed.

(** C9 (the code departs from it): [write_16] and [write_32] write
    big-endian, byte by byte, but a failure of a byte write other than the
    last is not propagated: with the first write failing [write_16]
    returns 0, and so does [write_32] with its second write failing. *)
Theorem write_16_32_early_failure_lost :
  write_16 0%nat 0x1234 (faulty_world [true])
    = Done 0 (mk_world {[ 0%nat := mk_iobuf [0x34] [] [] ]} [] false)
  /\ write_32 0%nat 0x12345678 (faulty_world [false; true])
    = Done 0 (mk_world {[ 0%nat := mk_iobuf [0x12; 0x56; 0x78] [] [] ]}
                [] false)
  /\ write_16 0%nat 0x1234 (faulty_world [false; true])
    = Done (-1) (mk_world {[ 0%nat := mk_iobuf [0x12] [] [] ]} [] false).
Proof. repeat split; vm_compute; reflexivity. Qed.

(** ** Signature subpackets *)

Lemma land_7f_small (t : Z) : 0 <= t < 128 -> Z.land t 0x7f = t.
Proof.
  intros Ht. change 0x7f with (Z.ones 7).
  rewrite Z.land_ones by lia. apply Z.mod_small. lia.
Qed.

Lemma lor_shiftl_add (hi lo k : Z) :
  0 <= k -> 0 <= lo < 2 ^ k -> Z.lor (Z.shiftl hi k) lo = hi * 2 ^ k + lo.
Proof.
  intros Hk Hlo.
  assert (Hdisj : Z.land (Z.shiftl hi k) lo = 0).
  { apply Z.bits_inj'. intros i Hi.
    rewrite Z.land_spec, Z.bits_0.
    destruct (Z.lt_ge_cases i k) as [Hik|Hik].
    - rewrite Z.shiftl_spec_low by exact Hik. reflexivity.
    - rewrite <- (Z.mod_small lo (2 ^ k)) by lia.
      rewrite Z.mod_pow2_bits_high by lia. apply andb_false_r. }
  rewrite <- Z.lxor_lor by exact Hdisj.
  rewrite <- Z.add_nocarry_lxor by exact Hdisj.
  rewrite Z.shiftl_mul_pow2 by exact Hk. reflexivity.
Qed.

Lemma mem_byte_inv buf i w x w' :
  mem_byte buf i w = Done x w' -> w' = w /\ is_byte x.
Proof.
  unfold mem_byte. destruct (buf !! i); [|discriminate].
  unfold ret. intros [= <- <-]. split; [reflexivity | apply byte_of_range].
Qed.

Lemma mem_byte_lookup buf i x w :
  buf !! i = Some x -> mem_byte buf i w = Done (byte_of x) w.
Proof. unfold mem_byte. intros ->. reflexivity. Qed.

Lemma mem_byte_abort buf i w why :
  mem_byte buf i w = Abort why -> why = BUG_bad_pointer.
Proof.
  unfold mem_byte, ret, log_bug. destruct (buf !! i); [discriminate|].
  intros [= <-]. reflexivity.
Qed.

Lemma subpkt_length_abort buf p bl n w why :
  subpkt_length buf p bl n w = Abort why -> why = BUG_bad_pointer.
Proof.
  unfold subpkt_length, bind, mem_byte, ret, log_bug. intros Hrun.
  repeat case_match; simplify_eq; reflexivity.
Qed.

Lemma subpkt_length_inv buf p bl n w r w' :
  is_byte n -> 0 <= bl ->
  subpkt_length buf p bl n w = Done r w' ->
  w' = w
  /\ match r with
     | Some (n', _, bl') => 0 <= n' /\ 0 <= bl' <= bl
     | None => True
     end.
Proof.
  unfold is_byte, subpkt_length. intros Hn Hbl.
  destruct (n =? 255) eqn:E255; [|destruct (192 <=? n) eqn:E192].
  - destruct (bl <? 4) eqn:E4.
    + unfold ret. intros [= <- <-]. split; [reflexivity | exact I].
    + unfold bind.
      destruct (mem_byte buf p w) as [b0 w0|] eqn:R0; [|discriminate].
      apply mem_byte_inv in R0 as [-> H0].
      destruct (mem_byte buf (p + 1) w) as [b1 w1|] eqn:R1; [|discriminate].
      apply mem_byte_inv in R1 as [-> H1].
      destruct (mem_byte buf (p + 2) w) as [b2 w2|] eqn:R2; [|discriminate].
      apply mem_byte_inv in R2 as [-> H2].
      destruct (mem_byte buf (p + 3) w) as [b3 w3|] eqn:R3; [|discriminate].
      apply mem_byte_inv in R3 as [-> H3].
      unfold ret. intros [= <- <-]. split; [reflexivity|].
      unfold is_byte in *. split; [|lia].
      rewrite !Z.lor_nonneg, !Z.shiftl_nonneg. lia.
  - destruct (bl <? 2) eqn:E2.
    + unfold ret. intros [= <- <-]. split; [reflexivity | exact I].
    + unfold bind.
      destruct (mem_byte buf p w) as [b0 w0|] eqn:R0; [|discriminate].
      apply mem_byte_inv in R0 as [-> H0].
      unfold ret. intros [= <- <-]. split; [reflexivity|].
      unfold is_byte in *. split; [|lia].
      assert (0 <= Z.shiftl (n - 192) 8) by (apply Z.shiftl_nonneg; lia).
      lia.
  - unfold ret. intros [= <- <-]. split; [reflexivity|]. lia.
Qed.

Lemma same_unfuelled_bind {A B : Type} (m : M A) (k1 k2 : A -> M B) w :
  (forall a w', m w = Done a w' -> same_unfuelled (k1 a w') (k2 a w')) ->
  (forall why, m w = Abort why -> why <> BUG_fuel) ->
  same_unfuelled (bind m k1 w) (bind m k2 w).
Proof.
  unfold bind, same_unfuelled. intros Hk Hm.
  destruct (m w) as [a w'|why].
  - apply Hk. reflexivity.
  - split; [reflexivity|]. intros [= ->]. exact (Hm _ eq_refl eq_refl).
Qed.

Lemma same_unfuelled_Done {A : Type} (a : A) w :
  same_unfuelled (Done a w) (Done a w).
Proof. split; [reflexivity | discriminate]. Qed.

Lemma same_unfuelled_too_short {A : Type} w :
  same_unfuelled (@subpkt_too_short A w) (subpkt_too_short w).
Proof. split; [reflexivity | discriminate]. Qed.

(** Enough fuel: the result of the scan does not depend on the fuel once
    it exceeds [buflen], and it is never the fuel that stops the scan. *)
Lemma find_subpkt_scan_fuel f1 :
  forall f2 buf reqtype p buflen w,
    0 <= buflen ->
    (Z.to_nat buflen < f1)%nat -> (Z.to_nat buflen < f2)%nat ->
    same_unfuelled (find_subpkt_scan f1 buf reqtype p buflen w)
                   (find_subpkt_scan f2 buf reqtype p buflen w).
Proof.
  induction f1 as [|f1 IH]; intros f2 buf reqtype p buflen w Hbl H1 H2;
    [lia|].
  destruct f2 as [|f2]; [lia|].
  cbn [find_subpkt_scan].
  destruct (buflen =? 0) eqn:E0; [apply same_unfuelled_Done|].
  apply same_unfuelled_bind.
  2:{ intros why Hab. apply mem_byte_abort in Hab. congruence. }
  intros n w0 Rn. apply mem_byte_inv in Rn as [-> Hn].
  apply same_unfuelled_bind.
  2:{ intros why Hab. apply subpkt_length_abort in Hab. congruence. }
  intros dec w0 Rd.
  apply subpkt_length_inv in Rd as [-> Hdec]; [|exact Hn|lia].
  destruct dec as [[[n' p'] bl']|]; [|apply same_unfuelled_too_short].
  destruct Hdec as [Hn' Hbl'].
  destruct (bl' <? n') eqn:Elt; [apply same_unfuelled_too_short|].
  apply same_unfuelled_bind.
  2:{ intros why Hab. apply mem_byte_abort in Hab. congruence. }
  intros t w0 Rt. apply mem_byte_inv in Rt as [-> Ht].
  destruct (Z.land t 127 =? reqtype).
  - destruct (bl' <? size_t (n' - 1));
      [apply same_unfuelled_too_short | apply same_unfuelled_Done].
  - apply IH; lia.
Qed.

Section Subpackets.
Context `{Headers}.

(** The first subpacket of a signature without regions. *)
Lemma build_sig_subpkt_first sig type body w :
  hashed_data sig = None -> unhashed_data sig = None ->
  (length body <= 190)%nat ->
  build_sig_subpkt sig type body w
  = Done (set_region (routed_hashed type)
            ([0; 2 + Z.of_nat (length body); Z.of_nat (length body) + 1;
              byte_of type] ++ body) sig) w.
Proof.
  intros Hh Hu Hlen. unfold build_sig_subpkt. rewrite Hh, Hu.
  cbv beta iota zeta delta [find_subpkt bind ret region_length].
  rewrite nonzero_0.
  unfold size_t. rewrite Z.mod_small by lia.
  destruct (192 <=? Z.of_nat (length body) + 1) eqn:E192; [lia|].
  fold (routed_hashed type).
  replace (if routed_hashed type then None else None)
    with (@None (list Z)) by (destruct (routed_hashed type); reflexivity).
  cbv beta iota.
  unfold ret. f_equal. f_equal.
  unfold m_realloc, memcpy, poke. simpl default.
  rewrite resize_nil.
  replace (Z.to_nat (0 + 1 + 1 + Z.of_nat (length body) + 2))
    with (4 + length body)%nat by lia.
  replace (Z.to_nat (0 + 4)) with (4 + 0)%nat by lia.
  change (Z.to_nat (0 + 0)) with 0%nat. change (Z.to_nat (0 + 1)) with 1%nat.
  change (Z.to_nat (0 + 2)) with 2%nat. change (Z.to_nat (0 + 3)) with 3%nat.
  cbn [replicate Nat.add].
  cbn [list_insert insert].
  rewrite !list_inserts_cons.
  rewrite <- (app_nil_r (replicate (length body) 0)).
  rewrite list_inserts_0_r by (rewrite length_replicate; reflexivity).
  rewrite app_nil_r.
  set (n := 0 + 1 + 1 + Z.of_nat (length body)).
  assert (Hhi : byte_of (Z.land (Z.shiftr n 8) 255) = 0)
    by (rewrite byte_of_mod, land_ff_mod, shiftr_8; zlia).
  assert (Hlo : byte_of (Z.land n 255) = 2 + Z.of_nat (length body))
    by (rewrite byte_of_mod, land_ff_mod; zlia).
  assert (Hl : byte_of (Z.of_nat (length body) + 1)
               = Z.of_nat (length body) + 1)
    by (rewrite byte_of_mod; zlia).
  rewrite Hhi, Hlo, Hl. reflexivity.
Qed.

(** C4: on a signature whose regions are both empty, [build_sig_subpkt]
    with the creation-time type and a 4-byte body yields a hashed region
    whose 2-byte prefix is 6, and [find_subpkt] on that region for that
    type succeeds with 2 header bytes, 4 body bytes, and a pointer to
    exactly the bytes written. *)
Theorem build_then_find_sig_created sig body w :
  hashed_data sig = None -> unhashed_data sig = None ->
  length body = 4%nat ->
  0 <= SIGSUBPKT_SIG_CREATED < 128 ->
  exists region,
    build_sig_subpkt sig SIGSUBPKT_SIG_CREATED body w
      = Done (set_region true region sig) w
    /\ hashed_data (set_region true region sig) = Some region
    /\ region = [0; 6; 5; SIGSUBPKT_SIG_CREATED] ++ body
    /\ region_length (Some region) w = Done 6 w
    /\ take 2 region = [0; 6]
    /\ (exists data,
         find_subpkt (Some region) SIGSUBPKT_SIG_CREATED w
           = Done (Some (data, 2, 4)) w
         /\ take 4 (drop data region) = body).
Proof.
  intros Hh Hu Hlen Hty.
  pose proof (build_sig_subpkt_first sig SIGSUBPKT_SIG_CREATED body w Hh Hu)
    as Hrun.
  unfold routed_hashed in Hrun. rewrite Z.eqb_refl, Hlen in Hrun.
  rewrite (byte_of_byte SIGSUBPKT_SIG_CREATED) in Hrun
    by (unfold is_byte; lia).
  destruct body as [|x0 [|x1 [|x2 [|x3 [|? ?]]]]]; try discriminate.
  cbn in Hrun.
  set (region := [0; 6; 5; SIGSUBPKT_SIG_CREATED; x0; x1; x2; x3]) in *.
  assert (Hrl : region_length (Some region) w = Done 6 w) by reflexivity.
  exists region. split; [apply Hrun; lia|].
  split; [reflexivity|]. split; [reflexivity|].
  split; [exact Hrl|]. split; [reflexivity|].
  exists 4%nat. split; [|reflexivity].
  unfold find_subpkt.
  erewrite bind_Done by exact Hrl.
  change (S (Z.to_nat 6)) with 7%nat.
  cbn [find_subpkt_scan]. change (6 =? 0) with false. cbv iota.
  erewrite bind_Done by reflexivity.
  erewrite bind_Done by reflexivity.
  cbv beta iota. change (6 - 1 <? byte_of 5) with false.
  cbv iota.
  erewrite bind_Done by reflexivity.
  rewrite (byte_of_byte SIGSUBPKT_SIG_CREATED) by (unfold is_byte; lia).
  rewrite land_7f_small by lia. rewrite Z.eqb_refl.
  reflexivity.
Qed.

End Subpackets.

Lemma build_then_find_sig_created_witness :
  exists region,
    @build_sig_subpkt gnupg_headers sig0 2 [0x36; 0x2b; 0x1c; 0x80] world0
      = Done (set_region true region sig0) world0
    /\ take 2 region = [0; 6].
Proof.
  destruct (@build_then_find_sig_created gnupg_headers sig0
              [0x36; 0x2b; 0x1c; 0x80] world0)
    as (region & Hrun & _ & _ & _ & Hpre & _).
  - reflexivity.
  - reflexivity.
  - reflexivity.
  - simpl. lia.
  - exists region. split; [exact Hrun | exact Hpre].
Defined.

(** ** The length forms [find_subpkt] decodes *)

Lemma region_length_bytes p0 p1 rest w :
  is_byte p0 -> is_byte p1 ->
  region_length (Some (p0 :: p1 :: rest)) w = Done (p0 * 256 + p1) w.
Proof.
  intros H0 H1. unfold region_length.
  erewrite !bind_Done by reflexivity. unfold ret.
  rewrite !byte_of_byte by assumption.
  rewrite lor_shiftl_add by (unfold is_byte in *; lia). reflexivity.
Qed.

Lemma be_value_lor b3 b2 b1 b0 :
  Forall is_byte [b3; b2; b1; b0] ->
  Z.lor (Z.lor (Z.lor (Z.shiftl b3 24) (Z.shiftl b2 16)) (Z.shiftl b1 8)) b0
  = be_value [b3; b2; b1; b0].
Proof.
  intros Hb. rewrite !Forall_cons in Hb.
  destruct Hb as (H3 & H2 & H1 & H0 & _). unfold is_byte in *.
  replace (Z.lor (Z.lor (Z.shiftl b3 24) (Z.shiftl b2 16)) (Z.shiftl b1 8))
    with (Z.shiftl (Z.lor (Z.shiftl (Z.lor (Z.shiftl b3 8) b2) 8) b1) 8).
  2:{ rewrite !Z.shiftl_lor, !Z.shiftl_shiftl by lia. reflexivity. }
  rewrite (lor_shiftl_add b3 b2 8) by lia.
  rewrite (lor_shiftl_add _ b1 8) by lia.
  rewrite (lor_shiftl_add _ b0 8) by lia.
  unfold be_value. simpl. lia.
Qed.

Lemma subpkt_length_long buf p buflen b3 b2 b1 b0 w :
  buf !! p = Some b3 -> buf !! (p + 1)%nat = Some b2 ->
  buf !! (p + 2)%nat = Some b1 -> buf !! (p + 3)%nat = Some b0 ->
  Forall is_byte [b3; b2; b1; b0] -> 4 <= buflen ->
  subpkt_length buf p buflen 255 w
  = Done (Some (be_value [b3; b2; b1; b0], (p + 4)%nat, buflen - 4)) w.
Proof.
  intros L3 L2 L1 L0 Hb Hlen. unfold subpkt_length.
  change (255 =? 255) with true. cbv iota.
  destruct (buflen <? 4) eqn:E4; [lia|].
  erewrite bind_Done by (apply mem_byte_lookup; exact L3).
  erewrite bind_Done by (apply mem_byte_lookup; exact L2).
  erewrite bind_Done by (apply mem_byte_lookup; exact L1).
  erewrite bind_Done by (apply mem_byte_lookup; exact L0).
  unfold ret. pose proof Hb as Hb'. rewrite !Forall_cons in Hb'.
  destruct Hb' as (H3 & H2 & H1 & H0 & _).
  rewrite !byte_of_byte by assumption.
  rewrite be_value_lor by exact Hb. reflexivity.
Qed.


Lemma subpkt_length_two_byte buf p buflen n b w :
  192 <= n < 255 -> 2 <= buflen -> buf !! p = Some b -> is_byte b ->
  exists p' buflen',
    subpkt_length buf p buflen n w
    = Done (Some ((n - 192) * 256 + b + 192, p', buflen')) w.
Proof.
  intros Hn Hlen Lb Hb. unfold subpkt_length.
  destruct (n =? 255) eqn:E255; [lia|].
  destruct (192 <=? n) eqn:E192; [|lia].
  destruct (buflen <? 2) eqn:E2; [lia|].
  erewrite bind_Done by (apply mem_byte_lookup; exact Lb).
  unfold ret. rewrite byte_of_byte by exact Hb.
  rewrite Z.shiftl_mul_pow2 by lia. do 2 eexists. reflexivity.
Qed.

(** One round of the scan over an entry whose length decodes to [n]. *)
Lemma find_subpkt_scan_step fuel buf reqtype p buflen n0 n p' bl' t w :
  buflen <> 0 ->
  buf !! p = Some n0 ->
  subpkt_length buf (S p) (buflen - 1) (byte_of n0) w
    = Done (Some (n, p', bl')) w ->
  n <= bl' ->
  buf !! p' = Some t ->
  find_subpkt_scan (S fuel) buf reqtype p buflen w
  = if Z.land (byte_of t) 0x7f =? reqtype
    then if bl' <? size_t (n - 1) then subpkt_too_short w
         else Done (Some (S p', Z.of_nat (S p' - p), size_t (n - 1))) w
    else find_subpkt_scan fuel buf reqtype (p' + Z.to_nat n) (bl' - n) w.
Proof.
  intros Hbl Ln Hdec Hfit Lt. cbn [find_subpkt_scan].
  destruct (buflen =? 0) eqn:E0; [lia|].
  erewrite bind_Done by (apply mem_byte_lookup; exact Ln).
  erewrite bind_Done by exact Hdec. cbv beta iota.
  destruct (bl' <? n) eqn:Elt; [lia|].
  erewrite bind_Done by (apply mem_byte_lookup; exact Lt).
  cbv zeta. repeat case_match; reflexivity.
Qed.




Section SubpacketAppend.
Context `{Headers}.

(** What [build_sig_subpkt] makes of a region that already holds
    entries, [p0 p1] being its prefix and the declared length the number
    of bytes that follow: the new total goes to the offsets [n0] and
    [n0 + 1], which are the last two bytes of the entries, and the prefix
    is left as it was. *)
Lemma build_sig_subpkt_append sig type buffer p0 p1 kept x y w :
  let entries := kept ++ [x; y] in
  let n0 := Z.of_nat (length entries) in
  let n := n0 + 2 + Z.of_nat (length buffer) in
  (if routed_hashed type then hashed_data sig else unhashed_data sig)
    = Some (p0 :: p1 :: entries) ->
  is_byte p0 -> is_byte p1 -> p0 * 256 + p1 = n0 ->
  (length buffer <= 190)%nat ->
  find_subpkt (hashed_data sig) type w = Done None w ->
  find_subpkt (unhashed_data sig) type w = Done None w ->
  build_sig_subpkt sig type buffer w
  = Done (set_region (routed_hashed type)
            (p0 :: p1 :: kept
             ++ [n / 256 mod 256; n mod 256;
                 Z.of_nat (length buffer) + 1; byte_of type]
             ++ buffer) sig) w.
Proof.
  intros entries n0 n Hregion Hp0 Hp1 Hdecl Hlen Hfh Hfu.
  unfold build_sig_subpkt.
  erewrite bind_Done by exact Hfh. cbv beta iota.
  erewrite bind_Done
    by (erewrite bind_Done by exact Hfu; reflexivity).
  rewrite nonzero_0.
  erewrite bind_Done by reflexivity.
  unfold size_t. rewrite Z.mod_small by lia.
  destruct (192 <=? Z.of_nat (length buffer) + 1) eqn:E192; [lia|].
  erewrite bind_Done by reflexivity.
  fold (routed_hashed type). cbv zeta. rewrite Hregion.
  erewrite bind_Done by (apply region_length_bytes; assumption).
  rewrite Hdecl. unfold ret. f_equal. f_equal.
  set (pre := p0 :: p1 :: kept).
  assert (Hpre : Z.to_nat n0 = length pre).
  { unfold n0, entries, pre. rewrite length_app. simpl. lia. }
  unfold m_realloc, memcpy, poke. simpl default.
  rewrite resize_ge by (unfold n0; simpl; lia).
  replace (p0 :: p1 :: entries) with (pre ++ [x; y])
    by (unfold pre, entries; reflexivity).
  replace (Z.to_nat (n0 + 1 + 1 + Z.of_nat (length buffer) + 2)
           - length (pre ++ [x; y]))%nat
    with (2 + length buffer)%nat
    by (unfold n0, entries, pre; rewrite !length_app; simpl; lia).
  rewrite <- app_assoc.
  replace (Z.to_nat (n0 + 0)) with (length pre + 0)%nat by lia.
  replace (Z.to_nat (n0 + 1)) with (length pre + 1)%nat by lia.
  replace (Z.to_nat (n0 + 2)) with (length pre + 2)%nat by lia.
  replace (Z.to_nat (n0 + 3)) with (length pre + 3)%nat by lia.
  replace (Z.to_nat (n0 + 4)) with (length pre + 4)%nat by lia.
  rewrite !insert_app_r, list_inserts_app_r.
  cbn [app replicate Nat.add list_insert insert].
  rewrite !list_inserts_cons.
  rewrite <- (app_nil_r (replicate (length buffer) 0)).
  rewrite list_inserts_0_r by (rewrite length_replicate; reflexivity).
  rewrite app_nil_r.
  replace (n0 + 1 + 1 + Z.of_nat (length buffer)) with n
    by (unfold n; lia).
  assert (Hhi : byte_of (Z.land (Z.shiftr n 8) 255) = n / 256 mod 256)
    by (rewrite byte_of_mod, land_ff_mod, shiftr_8; zlia).
  assert (Hlo : byte_of (Z.land n 255) = n mod 256)
    by (rewrite byte_of_mod, land_ff_mod; zlia).
  assert (Hl : byte_of (Z.of_nat (length buffer) + 1)
               = Z.of_nat (length buffer) + 1)
    by (rewrite byte_of_mod; zlia).
  rewrite Hhi, Hlo, Hl. reflexivity.
Qed.

End SubpacketAppend.

(** C6 (the code departs from it): the second subpacket of a region.
    After the creation-time subpacket, adding a one-byte subpacket of type
    [SIGSUBPKT_PRIV_ADD_SIG] to the same region leaves the prefix at 6,
    where 9 is due, and puts the new total over the last two body bytes of
    the first entry; the entry added is not found afterwards. *)
Theorem build_sig_subpkt_second_entry_misplaced :
  (do sig <- @build_sig_subpkt gnupg_headers sig0 2
               [0x36; 0x2b; 0x1c; 0x80] ;;
   @build_sig_subpkt gnupg_headers sig 101 [0x11]) world0
  = Done (set_region true
            [0; 6; 5; 2; 0x36; 0x2b; 0; 9; 2; 101; 0x11] sig0) world0
  /\ find_subpkt (Some [0; 6; 5; 2; 0x36; 0x2b; 0; 9; 2; 101; 0x11]) 101
       world0
     = Done None world0
  /\ find_subpkt (Some [0; 9; 5; 2; 0x36; 0x2b; 0x1c; 0x80; 2; 101; 0x11])
       101 world0
     = Done (Some (10%nat, 2, 1)) world0.
Proof. repeat split; vm_compute; reflexivity. Qed.

(** ** Staged encoders: what reaches the real sink *)

Lemma ins_ins a t1 t2 w : ins a t2 (ins a t1 w) = ins a t2 w.
Proof. unfold ins, set_iobufs. simpl. rewrite insert_insert_eq. reflexivity. Qed.

Lemma ins_lookup a t w : iobufs (ins a t w) !! a = Some t.
Proof. apply lookup_insert_eq. Qed.

Lemma ins_id a t w : iobufs w !! a = Some t -> ins a t w = w.
Proof.
  intros Ht. destruct w as [m d o]. unfold ins, set_iobufs. simpl in *.
  rewrite insert_id by exact Ht. reflexivity.
Qed.

Lemma close_ins a t w :
  iobufs w !! a = None ->
  set_iobufs (delete a (iobufs (ins a t w))) (ins a t w) = w.
Proof.
  intros Hfree. destruct w as [m d o]. unfold ins, set_iobufs. simpl in *.
  rewrite delete_insert_id by exact Hfree. reflexivity.
Qed.

Lemma fresh_free (w : world) : iobufs w !! fresh (dom (iobufs w)) = None.
Proof. apply not_elem_of_dom, is_fresh. Qed.

Lemma iobuf_temp_ins w :
  iobuf_temp w
  = Done (fresh (dom (iobufs w))) (ins (fresh (dom (iobufs w))) iobuf_empty w).
Proof. reflexivity. Qed.

Lemma confined_ret a {A : Type} (x : A) : confined a (ret x).
Proof.
  intros w r w' [t Ht] [= <- <-]. exists t. symmetry. apply ins_id, Ht.
Qed.

Lemma confined_log_bug a {A : Type} why : confined a (@log_bug A why).
Proof. intros w r w' _ Hrun. discriminate Hrun. Qed.

Lemma confined_bind a {A B : Type} (m : M A) (k : A -> M B) :
  confined a m -> (forall x, confined a (k x)) -> confined a (bind m k).
Proof.
  intros Hm Hk w r w' Ha. unfold bind.
  destruct (m w) as [x w1|why] eqn:Rm; [|discriminate].
  destruct (Hm w x w1 Ha Rm) as [t1 ->]. intros Rk.
  destruct (Hk x (ins a t1 w) r w') as [t2 ->]; [|exact Rk|].
  - rewrite ins_lookup. eexists. reflexivity.
  - exists t2. apply ins_ins.
Qed.

Lemma confined_on_iobuf a {A : Type} (f : iobuf -> A * iobuf) :
  confined a (on_iobuf a f).
Proof.
  intros w r w' _. unfold on_iobuf.
  destruct (iobufs w !! a) as [b|]; [|discriminate].
  destruct (f b) as [x b']. intros [= <- <-]. exists b'. reflexivity.
Qed.

Ltac confined_tac :=
  repeat first
    [ apply confined_ret
    | apply confined_log_bug
    | apply confined_on_iobuf
    | apply confined_bind; [|intros ?]
    | progress cbv zeta
    | progress unfold when, assert, iobuf_put, iobuf_write, iobuf_write_mem,
        mem_bytes, mem_byte, region_length, put_version, write_16, write_32,
        write_version, mpi_write
    | match goal with
      | |- confined _ (if ?c then _ else _) => destruct c
      | |- confined _ (match ?x with _ => _ end) => destruct x
      end ].

Section Staged.
Context `{Headers}.

Lemma stage_public_cert_confined a pkc : confined a (stage_public_cert a pkc).
Proof. unfold stage_public_cert. confined_tac. Qed.

Lemma stage_secret_cert_confined a skc : confined a (stage_secret_cert a skc).
Proof. unfold stage_secret_cert, put_protection. confined_tac. Qed.

Lemma stage_pubkey_enc_confined a ctb enc :
  confined a (stage_pubkey_enc a ctb enc).
Proof. unfold stage_pubkey_enc. confined_tac. Qed.

Lemma stage_signature_confined a sig : confined a (stage_signature a sig).
Proof. unfold stage_signature, put_region. confined_tac. Qed.

End Staged.

Lemma flush_staged_rc out a ctb hdrlen blkmode w rc w' :
  flush_staged out a ctb hdrlen blkmode w = Done rc w' ->
  rc <> G10ERR_PUBKEY_ALGO.
Proof.
  unfold flush_staged, bind, ret, rc_of_write. intros Hrun.
  repeat case_match; simplify_eq; discriminate.
Qed.

(** When a staged encoder returns [G10ERR_PUBKEY_ALGO], the state is
    the one it started from. *)
Lemma staged_unknown_untouched stage flush w w' :
  (forall a, confined a (stage a)) ->
  (forall a w0 rc w1, flush a w0 = Done rc w1 -> rc <> G10ERR_PUBKEY_ALGO) ->
  staged stage flush w = Done G10ERR_PUBKEY_ALGO w' -> w' = w.
Proof.
  intros Hstage Hflush. unfold staged.
  erewrite bind_Done by apply iobuf_temp_ins.
  set (a := fresh (dom (iobufs w))).
  unfold bind at 1.
  destruct (stage a (ins a iobuf_empty w)) as [known w2|] eqn:Rs;
    [|discriminate].
  destruct (Hstage a _ _ _ ltac:(rewrite ins_lookup; eauto) Rs) as [t ->].
  rewrite ins_ins. destruct known.
  - unfold bind.
    destruct (flush a (ins a t w)) as [rc w3|] eqn:Rf; [|discriminate].
    unfold leave, bind, iobuf_close, ret. intros [= -> _].
    destruct (Hflush _ _ _ _ Rf eq_refl).
  - unfold bind, ret, leave, bind, iobuf_close. intros [= <-].
    apply close_ins, fresh_free.
Qed.

Lemma local_ret out {A : Type} (x : A) : local out (ret x).
Proof. intros a t w _ Hfree. split; [reflexivity | exact Hfree]. Qed.

Lemma local_log_bug out {A : Type} why : local out (@log_bug A why).
Proof. intros a t w _ _. reflexivity. Qed.

Lemma local_bind out {A B : Type} (m : M A) (k : A -> M B) :
  local out m -> (forall x, local out (k x)) -> local out (bind m k).
Proof.
  intros Hm Hk a t w Hne Hfree. unfold bind.
  specialize (Hm a t w Hne Hfree).
  destruct (m w) as [x w1|why].
  - destruct Hm as [-> Hfree1]. apply Hk; assumption.
  - rewrite Hm. reflexivity.
Qed.

Lemma local_on_iobuf out {A : Type} (f : iobuf -> A * iobuf) :
  local out (on_iobuf out f).
Proof.
  intros a t w Hne Hfree. unfold on_iobuf, ins, set_iobufs. simpl.
  rewrite lookup_insert_ne by exact Hne.
  destruct (iobufs w !! out) as [b|]; [|reflexivity].
  destruct (f b) as [x b']. simpl. split.
  - rewrite insert_insert_ne by congruence. reflexivity.
  - rewrite lookup_insert_ne by congruence. exact Hfree.
Qed.

Ltac local_tac :=
  repeat first
    [ apply local_ret
    | apply local_log_bug
    | apply local_on_iobuf
    | apply local_bind; [|intros ?]
    | progress cbv zeta
    | progress unfold when, iobuf_put, iobuf_write, iobuf_set_block_mode
    | match goal with
      | |- local _ (if ?c then _ else _) => destruct c
      end ].

Lemma write_header2_local out ctb len hdrlen blkmode :
  local out (write_header2 out ctb len hdrlen blkmode).
Proof. unfold write_header2, write_new_header. local_tac. Qed.

Lemma iobuf_write_local out bs : local out (iobuf_write out bs).
Proof. local_tac. Qed.

Lemma emit_packet_local out ctb hdrlen blkmode body :
  local out (emit_packet out ctb hdrlen blkmode body).
Proof.
  unfold emit_packet.
  apply local_bind; [apply write_header2_local | intros ?].
  apply local_bind; [apply iobuf_write_local | intros ?].
  apply local_ret.
Qed.

Lemma flush_staged_emit out a ctb hdrlen blkmode t w :
  a <> out -> iobufs w !! a = None ->
  flush_staged out a ctb hdrlen blkmode (ins a t w)
  = emit_packet out ctb hdrlen blkmode (io_written t) (ins a t w).
Proof.
  intros Hne Hfree. unfold flush_staged, emit_packet.
  assert (Hlen : iobuf_get_temp_length a (ins a t w)
                 = Done (Z.of_nat (length (io_written t))) (ins a t w)).
  { unfold iobuf_get_temp_length, on_iobuf. rewrite ins_lookup.
    fold (ins a t (ins a t w)). rewrite ins_ins. reflexivity. }
  erewrite bind_Done by exact Hlen.
  unfold bind.
  pose proof (write_header2_local out ctb
                (u32 (Z.of_nat (length (io_written t)))) hdrlen blkmode
                a t w Hne Hfree) as Hh.
  destruct (write_header2 out ctb _ hdrlen blkmode w) as [r1 w1|].
  - destruct Hh as [-> Hfree1].
    unfold iobuf_write_temp. rewrite ins_lookup. reflexivity.
  - rewrite Hh. reflexivity.
Qed.

(** A staged encoder whose staging completes the body [t] gives the real
    sink the header and then the body; this is all it does. *)
Lemma staged_emits stage out ctb hdrlen blkmode w w2 :
  let a := fresh (dom (iobufs w)) in
  confined a (stage a) ->
  is_Some (iobufs w !! out) ->
  stage a (ins a iobuf_empty w) = Done true w2 ->
  exists t,
    w2 = ins a t w
    /\ staged stage (fun a => flush_staged out a ctb hdrlen blkmode) w
       = emit_packet out ctb hdrlen blkmode (io_written t) w.
Proof.
  intros a Hconf Hout Rs.
  assert (Hfree : iobufs w !! a = None) by apply fresh_free.
  assert (Hne : a <> out).
  { intros ->. rewrite Hfree in Hout. destruct Hout as [? [=]]. }
  destruct (Hconf _ _ _ ltac:(rewrite ins_lookup; eauto) Rs) as [t Hw2].
  rewrite ins_ins in Hw2. subst w2. exists t. split; [reflexivity|].
  unfold staged.
  erewrite bind_Done by apply iobuf_temp_ins. fold a.
  erewrite bind_Done by exact Rs. cbv beta iota.
  unfold bind at 1. rewrite flush_staged_emit by assumption.
  pose proof (emit_packet_local out ctb hdrlen blkmode (io_written t)
                a t w Hne Hfree) as He.
  destruct (emit_packet out ctb hdrlen blkmode _ w) as [rc w3|].
  - destruct He as [-> Hfree3].
    unfold leave, bind, iobuf_close, ret. rewrite close_ins by exact Hfree3.
    reflexivity.
  - rewrite He. reflexivity.
Qed.

Lemma runs_ret a b {A : Type} (x : A) (P : A -> Prop) :
  P x -> runs_to a b (ret x) P.
Proof. intros HP bs w. exists x, bs. split; [reflexivity | exact HP]. Qed.

Lemma runs_bind_post a b {A B : Type} (m : M A) (k : A -> M B)
  (P : A -> Prop) (Q : B -> Prop) :
  runs_to a b m P -> (forall x, P x -> runs_to a b (k x) Q) ->
  runs_to a b (bind m k) Q.
Proof.
  intros Hm Hk bs w. destruct (Hm bs w) as (x & bs1 & Rm & HP).
  destruct (Hk x HP bs1 w) as (r & bs2 & Rk & HQ).
  exists r, bs2. split; [|exact HQ].
  erewrite bind_Done by exact Rm. exact Rk.
Qed.

Lemma runs_bind a b {A B : Type} (m : M A) (k : A -> M B) (Q : B -> Prop) :
  runs_to a b m any -> (forall x, runs_to a b (k x) Q) ->
  runs_to a b (bind m k) Q.
Proof. intros Hm Hk. apply (runs_bind_post a b m k any Q Hm). auto. Qed.

Lemma runs_any a b {A : Type} (m : M A) (P : A -> Prop) :
  runs_to a b m P -> runs_to a b m any.
Proof.
  intros Hm bs w. destruct (Hm bs w) as (r & bs' & Rm & _).
  exists r, bs'. split; [exact Rm | exact I].
Qed.

Lemma runs_write a b cs : runs_to a b (iobuf_write a cs) any.
Proof.
  intros bs w. do 2 eexists. split; [apply iobuf_write_wrote | exact I].
Qed.

Lemma runs_put a b c : runs_to a b (iobuf_put a c) any.
Proof. apply runs_write. Qed.

Lemma runs_write_16 a b x : runs_to a b (write_16 a x) any.
Proof.
  intros bs w. do 2 eexists. split; [apply write_16_wrote | exact I].
Qed.

Lemma runs_write_32 a b x : runs_to a b (write_32 a x) any.
Proof.
  intros bs w. do 2 eexists. split; [apply write_32_wrote | exact I].
Qed.

Lemma runs_when a b c (m : M Z) :
  runs_to a b m any -> runs_to a b (when c m) any.
Proof. intros Hm. destruct c; [exact Hm | apply runs_ret; exact I]. Qed.

Lemma runs_put_region a b region :
  region_fits region -> runs_to a b (put_region a region) any.
Proof.
  unfold region_fits, put_region. destruct region as [buf|].
  - intros (p0 & p1 & entries & -> & Hfit).
    set (n := Z.lor (Z.shiftl (byte_of p0) 8) (byte_of p1)) in *.
    assert (Hn : 0 <= n).
    { unfold n. pose proof (byte_of_range p0). pose proof (byte_of_range p1).
      unfold is_byte in *. rewrite Z.lor_nonneg, Z.shiftl_nonneg. lia. }
    apply (runs_bind_post a b _ _ (fun x => x = n));
      [apply runs_ret; reflexivity | intros ? ->].
    apply runs_bind; [apply runs_write_16 | intros _].
    apply runs_when. unfold iobuf_write_mem, mem_bytes.
    rewrite decide_True by (simpl; lia).
    intros bs w. do 2 eexists. split; [apply iobuf_write_wrote | exact I].
  - intros _.
    apply runs_bind; [apply runs_ret; exact I | intros ?].
    apply runs_bind; [apply runs_write_16 | intros _].
    apply runs_ret. exact I.
Qed.

Ltac runs_tac :=
  repeat
    lazymatch goal with
    | H : runs_to ?a ?b ?m ?P |- runs_to ?a ?b ?m ?P => exact H
    | |- runs_to _ _ (ret _) _ => apply runs_ret; first [reflexivity | exact I]
    | |- runs_to _ _ (bind _ _) _ => apply runs_bind; [|intros ?]
    | |- runs_to _ _ (iobuf_put _ _) _ => apply runs_put
    | |- runs_to _ _ (iobuf_write _ _) _ => apply runs_write
    | |- runs_to _ _ (mpi_write _ _) _ => apply runs_write
    | |- runs_to _ _ (write_16 _ _) _ => apply runs_write_16
    | |- runs_to _ _ (write_32 _ _) _ => apply runs_write_32
    | |- runs_to _ _ (when _ _) _ => apply runs_when
    | |- runs_to _ _ (put_version _ _) _ => unfold put_version
    | |- runs_to _ _ (write_version _ _) _ => unfold write_version
    | |- runs_to _ _ (if ?c then _ else _) _ => destruct c
    end.

(** Staging that ends at the jump to [leave] makes the encoder return
    [G10ERR_PUBKEY_ALGO] in the state it started from. *)
Lemma staged_unknown_returns stage flush w :
  runs_to (fresh (dom (iobufs w))) iobuf_empty
    (stage (fresh (dom (iobufs w)))) (fun known => known = false) ->
  staged stage flush w = Done G10ERR_PUBKEY_ALGO w.
Proof.
  intros Hs. destruct (Hs [] w) as (known & bs & Rs & ->). unfold staged.
  erewrite bind_Done by apply iobuf_temp_ins.
  erewrite bind_Done by exact Rs.
  erewrite bind_Done by reflexivity.
  unfold leave, bind, iobuf_close, ret. f_equal.
  apply (close_ins _ (mk_iobuf bs [] [])), fresh_free.
Qed.

Section StagedEncoders.
Context `{Headers}.

Lemma do_public_cert_unknown out ctb pkc w :
  unknown_pubkey_algo (pkc_pubkey_algo pkc) ->
  do_public_cert out ctb pkc w = Done G10ERR_PUBKEY_ALGO w.
Proof.
  intros (He & Hd & Hr). apply staged_unknown_returns.
  unfold stage_public_cert. rewrite He, Hd, Hr. runs_tac.
Qed.

Lemma do_secret_cert_unknown out ctb skc w :
  unknown_pubkey_algo (skc_pubkey_algo skc) ->
  do_secret_cert out ctb skc w = Done G10ERR_PUBKEY_ALGO w.
Proof.
  intros (He & Hd & Hr). apply staged_unknown_returns.
  unfold stage_secret_cert. rewrite He, Hd, Hr. runs_tac.
Qed.

Lemma do_pubkey_enc_unknown out ctb enc w :
  is_ELGAMAL (enc_pubkey_algo enc) = false ->
  is_RSA (enc_pubkey_algo enc) = false ->
  do_pubkey_enc out ctb enc w = Done G10ERR_PUBKEY_ALGO w.
Proof.
  intros He Hr. apply staged_unknown_returns.
  unfold stage_pubkey_enc. rewrite He, Hr. runs_tac.
Qed.

Lemma do_signature_unknown out ctb sig w :
  unknown_pubkey_algo (sig_pubkey_algo sig) ->
  region_fits (hashed_data sig) -> region_fits (unhashed_data sig) ->
  do_signature out ctb sig w = Done G10ERR_PUBKEY_ALGO w.
Proof.
  intros (He & Hd & Hr) Hh Hu. apply staged_unknown_returns.
  unfold stage_signature. rewrite He, Hd, Hr.
  pose proof (runs_put_region (fresh (dom (iobufs w))) iobuf_empty _ Hh).
  pose proof (runs_put_region (fresh (dom (iobufs w))) iobuf_empty _ Hu).
  runs_tac.
Qed.

End StagedEncoders.

Section StagedClaim.
Context `{Headers}.

(** C7: the staged encoders (public certificate, secret certificate,
    public-key session key, signature) and the real sink.  When one of
    them returns [G10ERR_PUBKEY_ALGO] the state is the one before the
    call: no byte, header or body, has reached [out]; an algorithm of no
    known family does give this result; and when staging completes a
    body, all the encoder does to [out] is to write the header for the
    whole body and then the body. *)
Theorem staged_encoders_write_after_staging out ctb w :
  let a := fresh (dom (iobufs w)) in
  ((forall pkc w',
      do_public_cert out ctb pkc w = Done G10ERR_PUBKEY_ALGO w' -> w' = w)
   /\ (forall skc w',
      do_secret_cert out ctb skc w = Done G10ERR_PUBKEY_ALGO w' -> w' = w)
   /\ (forall enc w',
      do_pubkey_enc out ctb enc w = Done G10ERR_PUBKEY_ALGO w' -> w' = w)
   /\ (forall sig w',
      do_signature out ctb sig w = Done G10ERR_PUBKEY_ALGO w' -> w' = w))
  /\ ((forall pkc,
         unknown_pubkey_algo (pkc_pubkey_algo pkc) ->
         do_public_cert out ctb pkc w = Done G10ERR_PUBKEY_ALGO w)
      /\ (forall skc,
         unknown_pubkey_algo (skc_pubkey_algo skc) ->
         do_secret_cert out ctb skc w = Done G10ERR_PUBKEY_ALGO w)
      /\ (forall enc,
         is_ELGAMAL (enc_pubkey_algo enc) = false ->
         is_RSA (enc_pubkey_algo enc) = false ->
         do_pubkey_enc out ctb enc w = Done G10ERR_PUBKEY_ALGO w)
      /\ (forall sig,
         unknown_pubkey_algo (sig_pubkey_algo sig) ->
         region_fits (hashed_data sig) -> region_fits (unhashed_data sig) ->
         do_signature out ctb sig w = Done G10ERR_PUBKEY_ALGO w))
  /\ (is_Some (iobufs w !! out) ->
      (forall pkc w2,
         stage_public_cert a pkc (ins a iobuf_empty w) = Done true w2 ->
         exists t,
           w2 = ins a t w
           /\ do_public_cert out ctb pkc w
              = emit_packet out ctb (pkc_hdrbytes pkc) 1 (io_written t) w)
      /\ (forall skc w2,
         stage_secret_cert a skc (ins a iobuf_empty w) = Done true w2 ->
         exists t,
           w2 = ins a t w
           /\ do_secret_cert out ctb skc w
              = emit_packet out ctb (skc_hdrbytes skc) 1 (io_written t) w)
      /\ (forall enc w2,
         stage_pubkey_enc a ctb enc (ins a iobuf_empty w) = Done true w2 ->
         exists t,
           w2 = ins a t w
           /\ do_pubkey_enc out ctb enc w
              = emit_packet out ctb 0 1 (io_written t) w)
      /\ (forall sig w2,
         stage_signature a sig (ins a iobuf_empty w) = Done true w2 ->
         exists t,
           w2 = ins a t w
           /\ do_signature out ctb sig w
              = emit_packet out ctb 0 1 (io_written t) w)).
Proof.
  intros a. split; [|split].
  - repeat split; intros x w' Hrun.
    + apply (staged_unknown_untouched
               (fun a => stage_public_cert a x)
               (fun a => flush_staged out a ctb (pkc_hdrbytes x) 1) w w');
        [intros; apply stage_public_cert_confined
        |intros ? ? ? ?; apply flush_staged_rc | exact Hrun].
    + apply (staged_unknown_untouched
               (fun a => stage_secret_cert a x)
               (fun a => flush_staged out a ctb (skc_hdrbytes x) 1) w w');
        [intros; apply stage_secret_cert_confined
        |intros ? ? ? ?; apply flush_staged_rc | exact Hrun].
    + apply (staged_unknown_untouched
               (fun a => stage_pubkey_enc a ctb x)
               (fun a => flush_staged out a ctb 0 1) w w');
        [intros; apply stage_pubkey_enc_confined
        |intros ? ? ? ?; apply flush_staged_rc | exact Hrun].
    + apply (staged_unknown_untouched
               (fun a => stage_signature a x)
               (fun a => flush_staged out a ctb 0 1) w w');
        [intros; apply stage_signature_confined
        |intros ? ? ? ?; apply flush_staged_rc | exact Hrun].
  - split; [|split; [|split]].
    + intros pkc. apply do_public_cert_unknown.
    + intros skc. apply do_secret_cert_unknown.
    + intros enc. apply do_pubkey_enc_unknown.
    + intros sig. apply do_signature_unknown.
  - intros Hout. split; [|split; [|split]]; intros x w2 Hstage.
    + apply (staged_emits (fun a => stage_public_cert a x) out ctb
               (pkc_hdrbytes x) 1 w w2);
        [apply stage_public_cert_confined | exact Hout | exact Hstage].
    + apply (staged_emits (fun a => stage_secret_cert a x) out ctb
               (skc_hdrbytes x) 1 w w2);
        [apply stage_secret_cert_confined | exact Hout | exact Hstage].
    + apply (staged_emits (fun a => stage_pubkey_enc a ctb x) out ctb
               0 1 w w2);
        [apply stage_pubkey_enc_confined | exact Hout | exact Hstage].
    + apply (staged_emits (fun a => stage_signature a x) out ctb
               0 1 w w2);
        [apply stage_signature_confined | exact Hout | exact Hstage].
Qed.

End StagedClaim.

Lemma staged_encoders_write_after_staging_witness :
  @do_public_cert gnupg_headers 0%nat 0x98 pkc_unknown world0
  = Done G10ERR_PUBKEY_ALGO world0.
Proof.
  destruct (@staged_encoders_write_after_staging gnupg_headers 0%nat 0x98
              world0) as (_ & (Hunknown & _) & _).
  apply Hunknown. repeat split.
Defined.

(** ** Literal data *)

Lemma ins_wrote out b w :
  io_faults b = [] -> ins out b w = wrote out b [] w.
Proof.
  intros Hf. destruct b as [wr fr fa]. simpl in Hf. subst fa.
  unfold ins, wrote. simpl. rewrite app_nil_r. reflexivity.
Qed.

Lemma set_block_mode_wrote out b bs n w :
  iobuf_set_block_mode out n (wrote out b bs w)
  = Done tt (ins out
               (mk_iobuf (io_written b ++ bs)
                  (io_framing b ++ [(length (io_written b ++ bs), n)]) [])
               w).
Proof.
  unfold iobuf_set_block_mode, on_iobuf. rewrite wrote_lookup.
  unfold sink_block_mode, wrote, ins, set_iobufs. simpl.
  rewrite insert_insert_eq. reflexivity.
Qed.

(** The header of an old-format packet on a reliable sink: the sink
    stays reliable and gains the header bytes; a zero length also
    switches block mode on. *)
Lemma write_header_old_reliable out ctb len w b :
  iobufs w !! out = Some b -> io_faults b = [] ->
  Z.land ctb 0x40 = 0 ->
  exists r b1 hdr,
    write_header out ctb len w = Done r (ins out b1 w)
    /\ io_faults b1 = []
    /\ io_written b1 = io_written b ++ hdr
    /\ (len <> 0 ->
        b1 = mk_iobuf (io_written b ++ hdr) (io_framing b) []
        /\ hdr = byte_of (old_ctb ctb len 0)
                 :: old_length_bytes (old_ctb ctb len 0) len).
Proof.
  intros Hb Hf Hold. unfold write_header.
  pose proof (wrote_nil out b w Hb Hf) as Hw.
  destruct (Z.eq_dec len 0) as [->|Hlen].
  - exists 0,
      (mk_iobuf (io_written b ++ [byte_of (old_ctb ctb 0 0)])
         (io_framing b
          ++ [(length (io_written b ++ [byte_of (old_ctb ctb 0 0)]), 8196)])
         []),
      [byte_of (old_ctb ctb 0 0)].
    split; [|split; [reflexivity|split; [reflexivity|intros []; reflexivity]]].
    rewrite <- Hw at 1.
    unfold write_header2. rewrite Hold, nonzero_0. cbv zeta.
    put_step. change (0 =? 0) with true. cbv iota.
    change (nonzero 1) with true. cbv iota.
    erewrite bind_Done by apply set_block_mode_wrote.
    reflexivity.
  - exists 0,
      (mk_iobuf
         (io_written b
          ++ byte_of (old_ctb ctb len 0)
             :: old_length_bytes (old_ctb ctb len 0) len)
         (io_framing b) []),
      (byte_of (old_ctb ctb len 0)
       :: old_length_bytes (old_ctb ctb len 0) len).
    split; [|split; [reflexivity|split; [reflexivity|]]].
    + rewrite <- Hw at 1.
      rewrite write_header2_old_wrote by assumption. reflexivity.
    + intros _. split; reflexivity.
Qed.

Lemma put_each_wrote out b cs :
  forall bs w,
    put_each out cs (wrote out b bs w)
    = Done tt (wrote out b (bs ++ map byte_of cs) w).
Proof.
  induction cs as [|c cs IH]; intros bs w; cbn [put_each map].
  - rewrite app_nil_r. reflexivity.
  - put_step. rewrite IH, <- app_assoc. reflexivity.
Qed.

Lemma u32_u32_add (n k : Z) : u32 (u32 n + k) = u32 (n + k).
Proof. unfold u32. apply Z.add_mod_idemp_l. lia. Qed.

(** The copy loop on a reliable sink: the whole source is written, the
    counter advances by its length modulo 2^32, and the fuel is not used
    up. *)
Lemma copy_body_wrote out b rc fuel :
  forall src n bs w,
    (length src < fuel)%nat ->
    copy_body fuel out src rc n (wrote out b bs w)
    = Done (rc, u32 (u32 n + Z.of_nat (length src)))
        (wrote out b (bs ++ src) w)
      \/ (src = [] /\
          copy_body fuel out src rc n (wrote out b bs w)
          = Done (rc, n) (wrote out b bs w)).
Proof.
  induction fuel as [|fuel IH]; intros src n bs w Hfuel; [lia|].
  cbn [copy_body]. destruct src as [|x src].
  - right. split; reflexivity.
  - left. cbn [iobuf_read].
    set (buf := take 1000 (x :: src)). set (rest := drop 1000 (x :: src)).
    assert (Hsplit : buf ++ rest = x :: src) by apply take_drop.
    assert (Hlen : (length buf + length rest = length (x :: src))%nat)
      by (rewrite <- Hsplit, length_app; reflexivity).
    assert (Hbuf : (0 < length buf)%nat) by (unfold buf; simpl; lia).
    erewrite bind_Done by apply iobuf_write_wrote.
    change (0 =? -1) with false. cbv iota.
    destruct (IH rest (u32 (n + Z.of_nat (length buf))) (bs ++ buf) w)
      as [-> | [Hnil ->]]; [lia| |].
    + rewrite <- app_assoc, Hsplit. do 2 f_equal.
      rewrite !u32_u32_add. f_equal. lia.
    + rewrite Hnil, app_nil_r in Hsplit. rewrite Hsplit. do 2 f_equal.
      rewrite u32_u32_add. reflexivity.
Qed.

Lemma copy_body_done out b rc src bs w :
  copy_body (S (length src)) out src rc 0 (wrote out b bs w)
  = Done (rc, u32 (Z.of_nat (length src))) (wrote out b (bs ++ src) w).
Proof.
  destruct (copy_body_wrote out b rc (S (length src)) src 0 bs w)
    as [-> | [-> ->]]; [lia | reflexivity |].
  rewrite app_nil_r. reflexivity.
Qed.

(** The copy loop never stops for lack of fuel, whatever the sink
    does. *)
Lemma copy_body_fuel out rc fuel :
  forall src n w,
    (length src < fuel)%nat ->
    copy_body fuel out src rc n w <> Abort BUG_fuel.
Proof.
  induction fuel as [|fuel IH]; intros src n w Hfuel; [lia|].
  cbn [copy_body]. destruct src as [|x src]; [discriminate|].
  cbn [iobuf_read]. unfold bind, iobuf_write, on_iobuf.
  destruct (iobufs w !! out) as [b|]; [|discriminate].
  destruct (sink_write (take 1000 (x :: src)) b) as [r b'].
  destruct (r =? -1); [discriminate|].
  apply IH. rewrite length_drop. simpl in *. lia.
Qed.

Lemma plaintext_fields_length pt :
  Z.of_nat (length (plaintext_fields pt)) = 6 + pt_namelen pt.
Proof.
  unfold plaintext_fields, pt_namelen.
  rewrite !length_app, length_map. simpl. lia.
Qed.

(** [do_plaintext] on a reliable sink under an old-format tag byte: it
    returns success, the sink gains header, fields and the whole body,
    and what follows depends on the declared length. *)
Lemma do_plaintext_reliable out ctb pt w b :
  iobufs w !! out = Some b -> io_faults b = [] ->
  Z.land ctb 0x40 = 0 ->
  exists b1 hdr,
    io_faults b1 = []
    /\ io_written b1 = io_written b ++ hdr
    /\ (calc_plaintext pt <> 0 ->
        b1 = mk_iobuf (io_written b ++ hdr) (io_framing b) []
        /\ hdr = byte_of (old_ctb ctb (calc_plaintext pt) 0)
                 :: old_length_bytes (old_ctb ctb (calc_plaintext pt) 0)
                      (calc_plaintext pt))
    /\ let body := plaintext_fields pt ++ pt_buf pt in
       let n := u32 (Z.of_nat (length (pt_buf pt))) in
       do_plaintext out ctb pt w
       = if negb (nonzero (pt_len pt))
         then Done RC_OK
                (ins out
                   (mk_iobuf (io_written b1 ++ body)
                      (io_framing b1
                       ++ [(length (io_written b1 ++ body), 0)]) []) w)
         else if negb (n =? pt_len pt)
              then Done RC_OK
                     (mk_world (iobufs (wrote out b1 body w))
                        (diag w ++ [LOG_plaintext_length n (pt_len pt)])
                        (opt_no_comment w))
              else Done RC_OK (wrote out b1 body w).
Proof.
  intros Hb Hf Hold.
  destruct (write_header_old_reliable out ctb (calc_plaintext pt) w b
              Hb Hf Hold) as (r & b1 & hdr & Rh & Hf1 & Hw1 & Hnz).
  exists b1, hdr. split; [exact Hf1|]. split; [exact Hw1|].
  split; [exact Hnz|]. cbv zeta.
  unfold do_plaintext.
  erewrite bind_Done by exact Rh.
  rewrite (ins_wrote out b1 w Hf1).
  do 2 put_step.
  erewrite bind_Done by apply put_each_wrote.
  erewrite bind_Done by apply write_32_wrote.
  rewrite nonzero_0 || change (rc_of_write 0) with RC_OK.
  erewrite bind_Done by apply copy_body_done.
  cbv beta iota.
  match goal with
  | |- context [wrote out b1 ?bytes w] =>
      replace bytes with (plaintext_fields pt ++ pt_buf pt)
        by (unfold plaintext_fields; rewrite <- !app_assoc; reflexivity)
  end.
  destruct (negb (nonzero (pt_len pt))).
  - erewrite bind_Done by apply set_block_mode_wrote. reflexivity.
  - destruct (negb (u32 (Z.of_nat (length (pt_buf pt))) =? pt_len pt));
      reflexivity.
Qed.



(** ** Dispatcher and length precomputation *)

(** The tag byte [build_packet] forms for a packet type up to 15 has bit 6
    and the selector bits clear. *)
Lemma old_format_ctb (code : Z) :
  let ctb := Z.lor 0x80 (Z.shiftl (Z.land code 15) 2) in
  Z.land ctb 0x40 = 0 /\ Z.land ctb 3 = 0.
Proof.
  change 15 with (Z.ones 4). rewrite Z.land_ones by lia.
  pose proof (Z.mod_pos_bound code (2 ^ 4) ltac:(lia)) as Hc.
  set (c := code mod 2 ^ 4) in *. cbv zeta.
  assert (Hcases : c = 0 \/ c = 1 \/ c = 2 \/ c = 3 \/ c = 4 \/ c = 5
                   \/ c = 6 \/ c = 7 \/ c = 8 \/ c = 9 \/ c = 10 \/ c = 11
                   \/ c = 12 \/ c = 13 \/ c = 14 \/ c = 15) by lia.
  clearbody c.
  repeat (destruct Hcases as [-> | Hcases]; [split; reflexivity|]).
  subst c. split; reflexivity.
Qed.

(** The old-format header of a nonzero length has as many bytes as
    [calc_header_length] says. *)
Lemma old_header_length ctb len :
  Z.land ctb 3 = 0 -> 0 < len ->
  Z.of_nat (length (byte_of (old_ctb ctb len 0)
                    :: old_length_bytes (old_ctb ctb len 0) len))
  = calc_header_length len.
Proof.
  intros H3 Hlen. unfold old_ctb, calc_header_length, old_length_bytes.
  rewrite nonzero_0.
  destruct (len =? 0) eqn:E0; [lia|].
  destruct (len <? 256); [|destruct (len <? 65536)].
  - rewrite H3, (land_3_2 ctb H3). reflexivity.
  - destruct (selector_merged ctb 1 H3 ltac:(lia)) as [-> ->]. reflexivity.
  - destruct (selector_merged ctb 2 H3 ltac:(lia)) as [-> ->]. reflexivity.
Qed.

Lemma wrote_wrote out b hdr body w :
  wrote out (mk_iobuf (io_written b ++ hdr) (io_framing b) []) body w
  = wrote out b (hdr ++ body) w.
Proof. unfold wrote. simpl. rewrite app_assoc. reflexivity. Qed.

Section Dispatcher.
Context `{Headers}.

(** C10 (as amended): for a literal packet with declared length [L <> 0]
    whose body source holds exactly [L] bytes, on a sink whose writes all
    succeed, and whose total [6+namelen+L] plus 5 header bytes is below
    [2^32], [build_packet] gives the sink as many bytes as
    [calc_packet_length] returns, that is
    [calc_header_length (6+namelen+L) + 6+namelen+L].  The packet type is
    old-format (below 16, as in packet.h). *)
Theorem build_packet_plaintext_length out pt w b :
  iobufs w !! out = Some b -> io_faults b = [] ->
  pkttype_code PKT_PLAINTEXT <= 15 ->
  0 < pt_len pt ->
  Z.of_nat (length (pt_buf pt)) = pt_len pt ->
  6 + pt_namelen pt + pt_len pt + 5 < 2 ^ 32 ->
  let pkt := Build_PACKET PKT_PLAINTEXT (Some (P_plaintext pt)) in
  exists emitted,
    build_packet out pkt w = Done RC_OK (wrote out b emitted w)
    /\ calc_packet_length pkt w = Done (Z.of_nat (length emitted)) w
    /\ Z.of_nat (length emitted)
       = calc_header_length (6 + pt_namelen pt + pt_len pt)
         + 6 + pt_namelen pt + pt_len pt.
Proof.
  intros Hb Hf Hcode HL Hbody Hfit pkt.
  assert (Hname : 0 <= pt_namelen pt) by (unfold pt_namelen; lia).
  set (n := 6 + pt_namelen pt + pt_len pt).
  assert (Hcalc : calc_plaintext pt = n).
  { unfold calc_plaintext. rewrite nonzero_true by lia.
    unfold u32. rewrite Z.mod_small by lia. unfold n. lia. }
  set (ctb := Z.lor 0x80 (Z.shiftl (Z.land (pkttype_code PKT_PLAINTEXT) 15) 2)).
  destruct (old_format_ctb (pkttype_code PKT_PLAINTEXT)) as [Hold H3].
  fold ctb in Hold, H3.
  assert (Hbuild : build_packet out pkt w = do_plaintext out ctb pt w).
  { unfold build_packet, pkt. cbn [pkttype pkt_generic].
    destruct (15 <? pkttype_code PKT_PLAINTEXT) eqn:E15; [lia|].
    reflexivity. }
  destruct (do_plaintext_reliable out ctb pt w b Hb Hf Hold)
    as (b1 & hdr & _ & _ & Hhdr & Hrun).
  destruct Hhdr as [-> ->]; [rewrite Hcalc; unfold n; lia|].
  cbv zeta in Hrun. rewrite Hcalc in Hrun.
  rewrite (nonzero_true (pt_len pt)) in Hrun by lia. cbn [negb] in Hrun.
  rewrite Hbody in Hrun. unfold u32 in Hrun.
  rewrite Z.mod_small, Z.eqb_refl in Hrun by lia. cbn [negb] in Hrun.
  rewrite wrote_wrote in Hrun.
  eexists. split; [rewrite Hbuild; exact Hrun|].
  assert (Hlen : Z.of_nat
            (length ((byte_of (old_ctb ctb n 0)
                      :: old_length_bytes (old_ctb ctb n 0) n)
                     ++ plaintext_fields pt ++ pt_buf pt))
          = calc_header_length n + 6 + pt_namelen pt + pt_len pt).
  { rewrite length_app, Nat2Z.inj_add, (old_header_length ctb n H3)
      by (unfold n; lia).
    rewrite length_app, Nat2Z.inj_add, plaintext_fields_length, Hbody.
    lia. }
  split; [|exact Hlen].
  unfold calc_packet_length, pkt. cbn [pkttype pkt_generic].
  rewrite Hcalc, Hlen. unfold ret. f_equal.
  assert (1 <= calc_header_length n <= 5)
    by (unfold calc_header_length; repeat case_match; lia).
  unfold u32. rewrite Z.mod_small by (unfold n in *; lia).
  unfold n. lia.
Qed.

(** What is emitted and what is precomputed when the body with its
    fields fits the length field: the precomputed total is taken modulo
    [2^32], the emitted one is not. *)
Lemma build_packet_plaintext_emitted out pt w b :
  iobufs w !! out = Some b -> io_faults b = [] ->
  pkttype_code PKT_PLAINTEXT <= 15 ->
  0 < pt_len pt ->
  Z.of_nat (length (pt_buf pt)) = pt_len pt ->
  6 + pt_namelen pt + pt_len pt < 2 ^ 32 ->
  let pkt := Build_PACKET PKT_PLAINTEXT (Some (P_plaintext pt)) in
  let n := 6 + pt_namelen pt + pt_len pt in
  exists emitted,
    build_packet out pkt w = Done RC_OK (wrote out b emitted w)
    /\ Z.of_nat (length emitted) = calc_header_length n + n
    /\ calc_packet_length pkt w = Done (u32 (n + calc_header_length n)) w.
Proof.
  intros Hb Hf Hcode HL Hbody Hfit pkt n.
  assert (Hname : 0 <= pt_namelen pt) by (unfold pt_namelen; lia).
  assert (Hcalc : calc_plaintext pt = n).
  { unfold calc_plaintext. rewrite nonzero_true by lia.
    unfold u32. rewrite Z.mod_small by lia. unfold n. lia. }
  set (ctb := Z.lor 0x80 (Z.shiftl (Z.land (pkttype_code PKT_PLAINTEXT) 15) 2)).
  destruct (old_format_ctb (pkttype_code PKT_PLAINTEXT)) as [Hold H3].
  fold ctb in Hold, H3.
  assert (Hbuild : build_packet out pkt w = do_plaintext out ctb pt w).
  { unfold build_packet, pkt. cbn [pkttype pkt_generic].
    destruct (15 <? pkttype_code PKT_PLAINTEXT) eqn:E15; [lia|].
    reflexivity. }
  destruct (do_plaintext_reliable out ctb pt w b Hb Hf Hold)
    as (b1 & hdr & _ & _ & Hhdr & Hrun).
  destruct Hhdr as [-> ->]; [rewrite Hcalc; unfold n; lia|].
  cbv zeta in Hrun. rewrite Hcalc in Hrun.
  rewrite (nonzero_true (pt_len pt)) in Hrun by lia. cbn [negb] in Hrun.
  rewrite Hbody in Hrun. unfold u32 in Hrun.
  rewrite Z.mod_small, Z.eqb_refl in Hrun by lia. cbn [negb] in Hrun.
  rewrite wrote_wrote in Hrun.
  eexists. split; [rewrite Hbuild; exact Hrun|].
  split.
  - rewrite length_app, Nat2Z.inj_add, (old_header_length ctb n H3)
      by (unfold n; lia).
    rewrite length_app, Nat2Z.inj_add, plaintext_fields_length, Hbody.
    unfold n. lia.
  - unfold calc_packet_length, pkt. cbn [pkttype pkt_generic].
    rewrite Hcalc. reflexivity.
Qed.

End Dispatcher.

Lemma build_packet_plaintext_length_witness :
  exists emitted,
    @build_packet gnupg_headers 0%nat
      (Build_PACKET PKT_PLAINTEXT (Some (P_plaintext pt_exact))) world0
    = Done RC_OK (wrote 0%nat sink0 emitted world0)
    /\ Z.of_nat (length emitted) = 11.
Proof.
  destruct (@build_packet_plaintext_length gnupg_headers 0%nat pt_exact
              world0 sink0) as (emitted & Hrun & _ & Hlen).
  - reflexivity.
  - reflexivity.
  - simpl. lia.
  - simpl. lia.
  - reflexivity.
  - vm_compute. reflexivity.
  - exists emitted. split; [exact Hrun | exact Hlen].
Defined.

(** C10 (as the claim states it, refuted): the literal packet [pt_wrap]
    declares [L = 2^32 - 10], its source holds exactly [L] bytes and the
    sink's writes all succeed.  [build_packet] gives the sink
    [2^32 + 1] bytes, which is [calc_header_length (6+L) + 6 + L], and
    [calc_packet_length] returns 1: its 32-bit sum has wrapped. *)
Lemma build_packet_plaintext_length_wraps :
  pt_len pt_wrap <> 0
  /\ Z.of_nat (length (pt_buf pt_wrap)) = pt_len pt_wrap
  /\ exists emitted,
       @build_packet gnupg_headers 0%nat
         (Build_PACKET PKT_PLAINTEXT (Some (P_plaintext pt_wrap))) world0
       = Done RC_OK (wrote 0%nat sink0 emitted world0)
       /\ Z.of_nat (length emitted) = 2 ^ 32 + 1
       /\ Z.of_nat (length emitted)
          = calc_header_length (6 + pt_namelen pt_wrap + pt_len pt_wrap)
            + 6 + pt_namelen pt_wrap + pt_len pt_wrap
       /\ calc_packet_length
            (Build_PACKET PKT_PLAINTEXT (Some (P_plaintext pt_wrap))) world0
          = Done 1 world0
       /\ calc_packet_length
            (Build_PACKET PKT_PLAINTEXT (Some (P_plaintext pt_wrap))) world0
          <> Done (Z.of_nat (length emitted)) world0.
Proof.
  assert (Hlen : pt_len pt_wrap = 2 ^ 32 - 10) by reflexivity.
  assert (Hname : pt_namelen pt_wrap = 0) by reflexivity.
  assert (Hbody : Z.of_nat (length (pt_buf pt_wrap)) = pt_len pt_wrap).
  { change (pt_buf pt_wrap) with (replicate (Z.to_nat (2 ^ 32 - 10)) 0).
    rewrite length_replicate, Z2Nat.id by lia. symmetry. exact Hlen. }
  split; [rewrite Hlen; lia|]. split; [exact Hbody|].
  destruct (@build_packet_plaintext_emitted gnupg_headers 0%nat pt_wrap
              world0 sink0 eq_refl eq_refl)
    as (emitted & Hrun & Hemitted & Hcalc);
    [change (11 <= 15); lia | rewrite Hlen; lia | exact Hbody
    | rewrite Hlen, Hname; lia |].
  rewrite Hlen, Hname in Hemitted, Hcalc.
  change (calc_header_length (6 + 0 + (2 ^ 32 - 10))) with 5
    in Hemitted, Hcalc.
  change (u32 (6 + 0 + (2 ^ 32 - 10) + 5)) with 1 in Hcalc.
  exists emitted. split; [exact Hrun|].
  split; [rewrite Hemitted; lia|].
  split; [rewrite Hemitted, Hlen, Hname;
          change (calc_header_length (6 + 0 + (2 ^ 32 - 10))) with 5; lia|].
  split; [exact Hcalc|].
  rewrite Hcalc, Hemitted. intros Heq. injection Heq as Heq. lia.
Qed.

(** * Further properties *)

(** ** Old-format headers *)

Lemma write_header2_old_zero out b bs ctb hdrlen blkmode w :
  Z.land ctb 0x40 = 0 ->
  write_header2 out ctb 0 hdrlen blkmode (wrote out b bs w)
  = Done 0
      (if nonzero blkmode
       then ins out
              (mk_iobuf (io_written b ++ bs ++ [byte_of (Z.lor ctb 3)])
                 (io_framing b
                  ++ [(length (io_written b ++ bs ++ [byte_of (Z.lor ctb 3)]),
                       8196)]) []) w
       else wrote out b (bs ++ [byte_of (Z.lor ctb 3)]) w).
Proof.
  intros Hold. unfold write_header2. rewrite Hold, nonzero_0. cbv zeta.
  assert (Hctb : old_ctb ctb 0 hdrlen = Z.lor ctb 3).
  { unfold old_ctb. destruct (nonzero hdrlen); reflexivity. }
  rewrite Hctb. put_step. change (0 =? 0) with true. cbv iota.
  destruct (nonzero blkmode).
  - erewrite bind_Done by apply set_block_mode_wrote.
    reflexivity.
  - erewrite bind_Done by reflexivity. reflexivity.
Qed.

(** X1: on a reliable sink, [write_header] under an old-format tag byte
    writes as many bytes as [calc_header_length] says, for every 32-bit
    length: the tag byte alone for the length 0, in which case the
    selector is 3 and block mode 8196 is switched on behind the tag byte;
    no framing switch otherwise. *)
Theorem write_header_length out ctb len w b :
  iobufs w !! out = Some b -> io_faults b = [] ->
  Z.land ctb 0x40 = 0 -> Z.land ctb 3 = 0 ->
  0 <= len < 2 ^ 32 ->
  exists b1 hdr,
    write_header out ctb len w = Done 0 (ins out b1 w)
    /\ io_written b1 = io_written b ++ hdr
    /\ io_faults b1 = []
    /\ Z.of_nat (length hdr) = calc_header_length len
    /\ (len <> 0 -> io_framing b1 = io_framing b)
    /\ (len = 0 ->
        hdr = [byte_of (Z.lor ctb 3)]
        /\ io_framing b1
           = io_framing b ++ [(length (io_written b1), 8196)]).
Proof.
  intros Hb Hf Hold H3 Hlen. unfold write_header.
  pose proof (wrote_nil out b w Hb Hf) as Hw.
  destruct (Z.eq_dec len 0) as [->|Hnz].
  - eexists. exists [byte_of (Z.lor ctb 3)].
    split; [rewrite <- Hw at 1; rewrite write_header2_old_zero by exact Hold;
            reflexivity|].
    cbn [io_written io_framing io_faults app].
    repeat split; try reflexivity. intros []. reflexivity.
  - exists (mk_iobuf
              (io_written b
               ++ byte_of (old_ctb ctb len 0)
                  :: old_length_bytes (old_ctb ctb len 0) len)
              (io_framing b) []).
    eexists.
    split; [rewrite <- Hw at 1;
            rewrite write_header2_old_wrote by assumption; reflexivity|].
    cbn [io_written io_framing io_faults].
    split; [reflexivity|]. split; [reflexivity|].
    split; [apply old_header_length; [exact H3 | lia]|].
    split; [reflexivity | intros ->; contradiction].
Qed.

Lemma write_header_length_witness :
  exists b1 hdr,
    write_header 0%nat 0xb4 0 world0 = Done 0 (ins 0%nat b1 world0)
    /\ hdr = [0xb7]
    /\ io_framing b1 = [(1%nat, 8196)].
Proof.
  destruct (write_header_length 0%nat 0xb4 0 world0 sink0)
    as (b1 & hdr & Hrun & Hw & _ & _ & _ & Hzero);
    try reflexivity; try lia.
  destruct (Hzero eq_refl) as [Hhdr Hfr].
  exists b1, hdr. split; [exact Hrun|]. split; [exact Hhdr|].
  rewrite Hfr, Hw, Hhdr. reflexivity.
Defined.

(** X2: a forced header width is honoured whenever it can hold the
    length.  On a reliable sink, under an old-format tag byte and for a
    length [0 < len], [write_header2] with [hdrlen <> 0] writes 2 bytes if
    [hdrlen = 2] and [len < 256], 3 if [hdrlen = 3] and [len < 65536], and
    5 otherwise; so for [hdrlen] among 2, 3, 5 and not below
    [calc_header_length len] the header has [hdrlen] bytes, and it never
    has fewer than [calc_header_length len]. *)
Theorem write_header2_forced_length out ctb len hdrlen blkmode w b :
  iobufs w !! out = Some b -> io_faults b = [] ->
  Z.land ctb 0x40 = 0 -> Z.land ctb 3 = 0 ->
  0 < len < 2 ^ 32 -> hdrlen <> 0 ->
  exists hdr,
    write_header2 out ctb len hdrlen blkmode w = Done 0 (wrote out b hdr w)
    /\ Z.of_nat (length hdr)
       = (if (hdrlen =? 2) && (len <? 256) then 2
          else if (hdrlen =? 3) && (len <? 65536) then 3 else 5)
    /\ calc_header_length len <= Z.of_nat (length hdr)
    /\ (hdrlen = 2 \/ hdrlen = 3 \/ hdrlen = 5 ->
        calc_header_length len <= hdrlen ->
        Z.of_nat (length hdr) = hdrlen).
Proof.
  intros Hb Hf Hold H3 Hlen Hhdr.
  eexists. split.
  { rewrite <- (wrote_nil out b w Hb Hf) at 1.
    rewrite write_header2_old_wrote by (assumption || lia). reflexivity. }
  assert (Hcount : Z.of_nat
            (length (byte_of (old_ctb ctb len hdrlen)
                     :: old_length_bytes (old_ctb ctb len hdrlen) len))
          = (if (hdrlen =? 2) && (len <? 256) then 2
             else if (hdrlen =? 3) && (len <? 65536) then 3 else 5)).
  { unfold old_ctb, old_length_bytes. rewrite (nonzero_true hdrlen Hhdr).
    destruct (len =? 0) eqn:E0; [lia|].
    destruct ((hdrlen =? 2) && (len <? 256));
      [|destruct ((hdrlen =? 3) && (len <? 65536))].
    - rewrite H3, (land_3_2 ctb H3). reflexivity.
    - destruct (selector_merged ctb 1 H3 ltac:(lia)) as [-> ->].
      reflexivity.
    - destruct (selector_merged ctb 2 H3 ltac:(lia)) as [-> ->].
      reflexivity. }
  cbn [app] in *. rewrite Hcount. split; [reflexivity|].
  unfold calc_header_length.
  destruct (len =? 0) eqn:E0; [lia|].
  destruct (hdrlen =? 2) eqn:E2; destruct (hdrlen =? 3) eqn:E3;
    destruct (len <? 256) eqn:E256; destruct (len <? 65536) eqn:E64k;
    cbn [andb]; split; lia.
Qed.

Lemma write_header2_forced_length_witness :
  exists hdr,
    write_header2 0%nat 0x98 200 3 1 world0
      = Done 0 (wrote 0%nat sink0 hdr world0)
    /\ Z.of_nat (length hdr) = 3.
Proof.
  destruct (write_header2_forced_length 0%nat 0x98 200 3 1 world0 sink0)
    as (hdr & Hrun & _ & _ & Hforced); try reflexivity; try lia.
  exists hdr. split; [exact Hrun|].
  apply Hforced; [lia | vm_compute; discriminate].
Defined.

(** ** New-format lengths *)

(** X3: the length [write_new_header] writes is read back by the length
    decoder of [find_subpkt].  For [0 < len] below 2^31 the bytes behind
    the tag byte, taken as the start of a subpacket entry with enough of
    the region left, decode to [len] again, in each of the three forms.
    Below 2^31 the first of the four length bytes of the five-byte form
    is below 128, so that the decoder's shift by 24 stays inside [int];
    nothing is said of the lengths from 2^31 on. *)
Theorem new_format_length_round_trip w out b ctb len :
  iobufs w !! out = Some b -> io_faults b = [] ->
  0 < len < 2 ^ 31 ->
  exists first more,
    write_new_header out ctb len 0 w
      = Done 0 (wrote out b (byte_of ctb :: first :: more) w)
    /\ (8384 <= len ->
        first = 255
        /\ exists b3 b2 b1 b0,
             more = [b3; b2; b1; b0] /\ 0 <= b3 < 128)
    /\ forall rest buflen w0,
         Z.of_nat (length more) + 1 <= buflen ->
         exists p' buflen',
           subpkt_length (first :: more ++ rest) 1 buflen (byte_of first) w0
           = Done (Some (len, p', buflen')) w0.
Proof.
  intros Hb Hf Hlen.
  pose proof (write_new_header_wrote out b [] ctb len w ltac:(lia)) as Hrun.
  rewrite (wrote_nil out b w Hb Hf) in Hrun. cbn [app] in Hrun.
  unfold new_format_length in Hrun.
  destruct (len <? 192) eqn:E1; [|destruct (len <? 8384) eqn:E2].
  - exists len, []. split; [exact Hrun|].
    apply Z.ltb_lt in E1. split; [intros Hbig; lia|].
    intros rest buflen w0 Hbl.
    rewrite byte_of_byte by (unfold is_byte; lia).
    unfold subpkt_length.
    destruct (len =? 255) eqn:E255; [lia|].
    destruct (192 <=? len) eqn:E192; [lia|].
    do 2 eexists. reflexivity.
  - exists ((len - 192) / 256 + 192), [(len - 192) mod 256].
    split; [exact Hrun|].
    apply Z.ltb_ge in E1. apply Z.ltb_lt in E2.
    split; [intros Hbig; lia|].
    intros rest buflen w0 Hbl. cbn [length] in Hbl.
    rewrite byte_of_byte by (unfold is_byte; zlia).
    destruct (subpkt_length_two_byte
                (((len - 192) / 256 + 192) :: [(len - 192) mod 256] ++ rest)
                1 buflen ((len - 192) / 256 + 192) ((len - 192) mod 256) w0)
      as (p' & bl' & Hdec);
      [zlia | lia | reflexivity | unfold is_byte; zlia |].
    exists p', bl'. rewrite Hdec.
    assert (Hval : ((len - 192) / 256 + 192 - 192) * 256
                   + (len - 192) mod 256 + 192 = len) by zlia.
    rewrite Hval. reflexivity.
  - eexists 255, _. split; [exact Hrun|].
    split.
    { intros _. split; [reflexivity|].
      do 4 eexists. split; [reflexivity | zlia]. }
    intros rest buflen w0 Hbl. cbn [length] in Hbl.
    change (byte_of 255) with 255.
    do 2 eexists.
    erewrite subpkt_length_long; try reflexivity.
    + rewrite be_value_4 by lia. reflexivity.
    + repeat first [apply Forall_cons_2 | apply Forall_nil_2];
        unfold is_byte; zlia.
    + lia.
Qed.

Lemma new_format_length_round_trip_witness :
  exists first more,
    write_new_header 0%nat 0xfd 1000 0 world0
      = Done 0 (wrote 0%nat sink0 (byte_of 0xfd :: first :: more) world0)
    /\ exists p' buflen',
         subpkt_length (first :: more ++ [0x55]) 1 2 (byte_of first) world0
         = Done (Some (1000, p', buflen')) world0.
Proof.
  destruct (new_format_length_round_trip world0 0%nat sink0 0xfd 1000)
    as (first & more & Hrun & _ & Hback); try reflexivity; try lia.
  exists first, more. split; [exact Hrun|].
  apply Hback.
  assert (Hmore : length more = 1%nat).
  { vm_compute in Hrun. injection Hrun; intros; subst; reflexivity. }
  rewrite Hmore. lia.
Defined.

(** ** Lookup of subpackets *)

Lemma subpkt_length_short buf p buflen n w :
  0 <= n < 192 ->
  subpkt_length buf p buflen n w = Done (Some (n, p, buflen)) w.
Proof.
  intros Hn. unfold subpkt_length.
  destruct (n =? 255) eqn:E255; [lia|].
  destruct (192 <=? n) eqn:E192; [lia|]. reflexivity.
Qed.

Lemma find_subpkt_scan_entries reqtype es :
  forall pre post fuel w,
    Forall short_form_ok es ->
    (length (short_entries es) < fuel)%nat ->
    find_subpkt_scan fuel (pre ++ short_entries es ++ post) reqtype
      (length pre) (Z.of_nat (length (short_entries es))) w
    = Done (match first_entry reqtype es (length pre) with
            | Some (p, n) => Some (p, 2, n)
            | None => None
            end) w.
Proof.
  induction es as [|[t body] es IH]; intros pre post fuel w Hok Hfuel.
  - destruct fuel; [simpl in Hfuel; lia|]. reflexivity.
  - destruct fuel as [|fuel]; [lia|].
    apply Forall_cons in Hok as [[Ht Hbody] Hok]. cbn [fst snd] in *.
    cbn [short_entries first_entry fst snd].
    set (tail := short_entries es) in *.
    assert (Hlen : length (short_entry (t, body) ++ tail)
                   = (2 + length body + length tail)%nat).
    { unfold short_entry. cbn [fst snd]. rewrite length_app. simpl. lia. }
    cbn [short_entries] in Hfuel. fold tail in Hfuel.
    rewrite Hlen in *.
    set (buf := pre ++ (short_entry (t, body) ++ tail) ++ post).
    assert (L0 : buf !! length pre = Some (Z.of_nat (length body) + 1)).
    { unfold buf. rewrite lookup_app_r by lia.
      rewrite Nat.sub_diag. reflexivity. }
    assert (L1 : buf !! S (length pre) = Some t).
    { unfold buf. rewrite lookup_app_r by lia.
      replace (S (length pre) - length pre)%nat with 1%nat by lia.
      reflexivity. }
    assert (Hb : byte_of (Z.of_nat (length body) + 1)
                 = Z.of_nat (length body) + 1)
      by (apply byte_of_byte; unfold is_byte; lia).
    rewrite (find_subpkt_scan_step fuel buf reqtype (length pre) _
               (Z.of_nat (length body) + 1) (Z.of_nat (length body) + 1)
               (S (length pre))
               (Z.of_nat (2 + length body + length tail) - 1) t);
      [ | lia | exact L0 | rewrite Hb; apply subpkt_length_short; lia
        | lia | exact L1 ].
    rewrite (byte_of_byte t Ht).
    replace (size_t (Z.of_nat (length body) + 1 - 1))
      with (Z.of_nat (length body))
      by (unfold size_t; rewrite Z.mod_small; lia).
    destruct (Z.land t 127 =? reqtype).
    + destruct (Z.of_nat (2 + length body + length tail) - 1
                <? Z.of_nat (length body)) eqn:E;
        [apply Z.ltb_lt in E; lia|].
      replace (S (S (length pre))) with (length pre + 2)%nat by lia.
      replace (Z.of_nat (length pre + 2 - length pre)) with 2 by lia.
      reflexivity.
    + specialize (IH (pre ++ short_entry (t, body)) post fuel w Hok).
      assert (Hpre : length (pre ++ short_entry (t, body))
                     = (length pre + 2 + length body)%nat).
      { rewrite length_app. unfold short_entry. simpl. lia. }
      rewrite Hpre in IH. fold tail in IH.
      replace (S (length pre) + Z.to_nat (Z.of_nat (length body) + 1))%nat
        with (length pre + 2 + length body)%nat by lia.
      replace (Z.of_nat (2 + length body + length tail) - 1
               - (Z.of_nat (length body) + 1))
        with (Z.of_nat (length tail)) by lia.
      unfold buf. rewrite <- !app_assoc in *. apply IH. lia.
Qed.

Lemma find_subpkt_entries es reqtype w :
  Forall short_form_ok es ->
  Z.of_nat (length (short_entries es)) < 65536 ->
  find_subpkt (Some (region_of (short_entries es))) reqtype w
  = Done (match first_entry reqtype es 2 with
          | Some (p, n) => Some (p, 2, n)
          | None => None
          end) w.
Proof.
  intros Hok Hlen. unfold find_subpkt, region_of.
  set (n := Z.of_nat (length (short_entries es))) in *.
  erewrite bind_Done
    by (apply region_length_bytes; unfold is_byte; zlia).
  replace (n / 256 * 256 + n mod 256) with n by zlia.
  pose proof (find_subpkt_scan_entries reqtype es
                [n / 256; n mod 256] [] (S (Z.to_nat n)) w Hok) as Hscan.
  rewrite app_nil_r in Hscan. apply Hscan. unfold n. lia.
Qed.

(** X4: [find_subpkt] on a region of short-form entries.  For entries
    with body lengths up to 190 and a region below 65536 bytes, the result
    is the first entry whose type byte, bit 7 masked off, is the wanted
    type: the offset of its body, 2 header bytes and the body length; it
    is [NULL] when there is none.  No diagnostic is given either way. *)
Theorem find_subpkt_first_match es reqtype w :
  Forall short_form_ok es ->
  Z.of_nat (length (short_entries es)) < 65536 ->
  find_subpkt (Some (region_of (short_entries es))) reqtype w
  = Done (match first_entry reqtype es 2 with
          | Some (p, n) => Some (p, 2, n)
          | None => None
          end) w.
Proof. apply find_subpkt_entries. Qed.

Lemma find_subpkt_first_match_witness :
  find_subpkt
    (Some (region_of (short_entries [(16, [1; 2; 3]); (0x82, [9; 8])])))
    2 world0
  = Done (Some (9%nat, 2, 2)) world0.
Proof.
  apply (find_subpkt_first_match [(16, [1; 2; 3]); (0x82, [9; 8])] 2 world0).
  - repeat first [apply Forall_cons_2 | apply Forall_nil_2];
      split; simpl; unfold is_byte; lia.
  - simpl. lia.
Defined.

Lemma bind_Done_inv {A B : Type} (m : M A) (k : A -> M B) w r w' :
  bind m k w = Done r w' ->
  exists a w1, m w = Done a w1 /\ k a w1 = Done r w'.
Proof.
  unfold bind. destruct (m w) as [a w1|]; [|discriminate].
  intros Hk. exists a, w1. split; [reflexivity | exact Hk].
Qed.

Lemma subpkt_length_bounds buf p bl n w n' p' bl' w' :
  is_byte n -> 0 <= bl ->
  subpkt_length buf p bl n w = Done (Some (n', p', bl')) w' ->
  w' = w /\ 0 <= n' /\ 0 <= bl' /\ (p <= p')%nat
  /\ Z.of_nat p' + bl' <= Z.of_nat p + bl.
Proof.
  intros Hn Hbl Hrun.
  destruct (subpkt_length_inv buf p bl n w _ w' Hn Hbl Hrun)
    as [-> [Hn' Hbl']].
  split; [reflexivity|]. split; [exact Hn'|]. split; [lia|].
  revert Hrun. unfold subpkt_length, bind, mem_byte, ret, log_bug.
  intros Hrun. repeat case_match; simplify_eq; lia.
Qed.

Lemma find_subpkt_scan_sound fuel :
  forall buf reqtype p buflen w r w',
    0 <= buflen < 2 ^ 32 ->
    find_subpkt_scan fuel buf reqtype p buflen w = Done r w' ->
    match r with
    | Some (q, hlen, n) =>
        w' = w /\ 0 <= reqtype < 128 /\ 2 <= hlen /\ 0 <= n
        /\ Z.of_nat p + hlen <= Z.of_nat q
        /\ Z.of_nat q + n <= Z.of_nat p + buflen
    | None => w' = w \/ w' = with_short_error w
    end.
Proof.
  induction fuel as [|fuel IH]; intros buf reqtype p buflen w r w' Hbl Hrun;
    [discriminate Hrun|].
  cbn [find_subpkt_scan] in Hrun.
  destruct (buflen =? 0) eqn:E0.
  { injection Hrun as <- <-. left. reflexivity. }
  apply bind_Done_inv in Hrun as (n0 & w1 & Rn & Hrun).
  apply mem_byte_inv in Rn as [-> Hn0].
  apply bind_Done_inv in Hrun as (dec & w1 & Rd & Hrun).
  destruct dec as [[[n' p'] bl']|].
  2:{ apply subpkt_length_inv in Rd as [-> _]; [|exact Hn0|lia].
      injection Hrun as <- <-. right. reflexivity. }
  apply subpkt_length_bounds in Rd
    as (-> & Hn' & Hbl' & Hp' & Hsum); [|exact Hn0|lia].
  destruct (bl' <? n') eqn:Elt.
  { injection Hrun as <- <-. right. reflexivity. }
  apply Z.ltb_ge in Elt.
  apply bind_Done_inv in Hrun as (t & w1 & Rt & Hrun).
  apply mem_byte_inv in Rt as [-> Ht].
  destruct (Z.land t 127 =? reqtype) eqn:Ety.
  - destruct (bl' <? size_t (n' - 1)) eqn:Efit.
    { injection Hrun as <- <-. right. reflexivity. }
    apply Z.ltb_ge in Efit. injection Hrun as <- <-.
    apply Z.eqb_eq in Ety.
    assert (Hn1 : 1 <= n').
    { destruct (Z.eq_dec n' 0) as [->|]; [|lia].
      change (size_t (0 - 1)) with (2 ^ 32 - 1) in Efit. lia. }
    assert (Hsz : size_t (n' - 1) = n' - 1)
      by (unfold size_t; apply Z.mod_small; lia).
    rewrite Hsz. split; [reflexivity|].
    split.
    { rewrite <- Ety. change 127 with (Z.ones 7).
      rewrite Z.land_ones by lia. zlia. }
    lia.
  - specialize (IH buf reqtype (p' + Z.to_nat n')%nat (bl' - n') w r w'
                  ltac:(lia) Hrun).
    destruct r as [[[q hlen] n]|]; [|exact IH].
    destruct IH as (-> & Hreq & Hh & Hn & Hq & Hend).
    split; [reflexivity|]. split; [exact Hreq|]. lia.
Qed.

Lemma region_length_inv region w n w' :
  region_length region w = Done n w' ->
  w' = w /\ 0 <= n < 65536.
Proof.
  unfold region_length. destruct region as [buf|].
  - intros Rl.
    apply bind_Done_inv in Rl as (b0 & w2 & R0 & Rl).
    apply mem_byte_inv in R0 as [-> H0].
    apply bind_Done_inv in Rl as (b1 & w2 & R1 & Rl).
    apply mem_byte_inv in R1 as [-> H1].
    injection Rl as <- <-. split; [reflexivity|].
    rewrite lor_shiftl_add by (unfold is_byte in *; lia).
    unfold is_byte in *. lia.
  - intros [= <- <-]. split; [reflexivity | lia].
Qed.

Lemma find_subpkt_result buffer reqtype w r w' :
  find_subpkt buffer reqtype w = Done r w' ->
  match r with
  | Some (q, hlen, n) =>
      w' = w /\ 0 <= reqtype < 128 /\ 2 <= hlen /\ 0 <= n
      /\ 2 + hlen <= Z.of_nat q
      /\ exists declared,
           region_length buffer w = Done declared w
           /\ Z.of_nat q + n <= 2 + declared
  | None => w' = w \/ w' = with_short_error w
  end.
Proof.
  unfold find_subpkt. destruct buffer as [buf|].
  2:{ intros [= <- <-]. left. reflexivity. }
  intros Hrun. apply bind_Done_inv in Hrun as (declared & w1 & Rl & Hrun).
  assert (Hdecl : w1 = w /\ 0 <= declared < 65536).
  { revert Rl. unfold region_length. intros Rl.
    apply bind_Done_inv in Rl as (b0 & w2 & R0 & Rl).
    apply mem_byte_inv in R0 as [-> H0].
    apply bind_Done_inv in Rl as (b1 & w2 & R1 & Rl).
    apply mem_byte_inv in R1 as [-> H1].
    injection Rl as <- <-. split; [reflexivity|].
    rewrite lor_shiftl_add by (unfold is_byte in *; lia).
    unfold is_byte in *. lia. }
  destruct Hdecl as [-> Hdecl].
  apply find_subpkt_scan_sound in Hrun; [|lia].
  destruct r as [[[q hlen] n]|]; [|exact Hrun].
  destruct Hrun as (-> & Hreq & Hh & Hn & Hq & Hend).
  repeat split; try lia.
  exists declared. split; [exact Rl | simpl in Hend; lia].
Qed.

(** X5: what [find_subpkt] returns.  A found subpacket lies inside the
    declared region: its data offset plus its length is at most 2 plus the
    declared length; it has at least 2 header bytes behind the prefix;
    the wanted type is between 0 and 127; and the state is unchanged.
    When the result is [NULL] the state is unchanged or has exactly one
    more "buffer shorter than subpacket" message. *)
Theorem find_subpkt_sound buffer reqtype w r w' :
  find_subpkt buffer reqtype w = Done r w' ->
  match r with
  | Some (q, hlen, n) =>
      w' = w /\ 0 <= reqtype < 128 /\ 2 <= hlen /\ 0 <= n
      /\ 2 + hlen <= Z.of_nat q
      /\ exists declared,
           region_length buffer w = Done declared w
           /\ Z.of_nat q + n <= 2 + declared
  | None => w' = w \/ w' = with_short_error w
  end.
Proof. apply find_subpkt_result. Qed.

Lemma find_subpkt_sound_witness :
  0 <= 16 < 128 /\ 2 + 6 <= Z.of_nat 8.
Proof.
  pose proof (find_subpkt_sound
                (Some [0; 7; 255; 0; 0; 0; 2; 16; 0xab]) 16 world0
                (Some (8%nat, 6, 1)) world0) as Hsound.
  cbv beta iota in Hsound.
  destruct Hsound as (_ & Hreq & _ & _ & Hq & _).
  - vm_compute. reflexivity.
  - split; [exact Hreq | exact Hq].
Defined.

(** Short-form entries of other types are passed over. *)
Lemma find_subpkt_scan_skip reqtype es :
  forall pre post fuel fuel' k w,
    Forall short_form_ok es ->
    first_entry reqtype es (length pre) = None ->
    0 <= k ->
    (length (short_entries es) + Z.to_nat k < fuel)%nat ->
    (Z.to_nat k < fuel')%nat ->
    find_subpkt_scan fuel (pre ++ short_entries es ++ post) reqtype
      (length pre) (Z.of_nat (length (short_entries es)) + k) w
    = find_subpkt_scan fuel' (pre ++ short_entries es ++ post) reqtype
        (length pre + length (short_entries es)) k w.
Proof.
  induction es as [|[t body] es IH];
    intros pre post fuel fuel' k w Hok Hnone Hk Hfuel Hfuel'.
  - cbn [short_entries length]. rewrite Nat.add_0_r. cbn [Z.of_nat Z.add].
    apply find_subpkt_scan_fuel; simpl in Hfuel; lia.
  - destruct fuel as [|fuel]; [lia|].
    apply Forall_cons in Hok as [[Ht Hbody] Hok]. cbn [fst snd] in *.
    cbn [first_entry fst snd] in Hnone.
    destruct (Z.land t 127 =? reqtype) eqn:Ety; [discriminate|].
    cbn [short_entries] in *.
    set (tail := short_entries es) in *.
    assert (Hlen : length (short_entry (t, body) ++ tail)
                   = (2 + length body + length tail)%nat).
    { unfold short_entry. cbn [fst snd]. rewrite length_app. simpl. lia. }
    rewrite Hlen in *.
    set (buf := pre ++ (short_entry (t, body) ++ tail) ++ post).
    assert (L0 : buf !! length pre = Some (Z.of_nat (length body) + 1)).
    { unfold buf. rewrite lookup_app_r by lia.
      rewrite Nat.sub_diag. reflexivity. }
    assert (L1 : buf !! S (length pre) = Some t).
    { unfold buf. rewrite lookup_app_r by lia.
      replace (S (length pre) - length pre)%nat with 1%nat by lia.
      reflexivity. }
    assert (Hb : byte_of (Z.of_nat (length body) + 1)
                 = Z.of_nat (length body) + 1)
      by (apply byte_of_byte; unfold is_byte; lia).
    rewrite (find_subpkt_scan_step fuel buf reqtype (length pre) _
               (Z.of_nat (length body) + 1) (Z.of_nat (length body) + 1)
               (S (length pre))
               (Z.of_nat (2 + length body + length tail) + k - 1) t);
      [ | lia | exact L0 | rewrite Hb; apply subpkt_length_short; lia
        | lia | exact L1 ].
    rewrite (byte_of_byte t Ht), Ety.
    specialize (IH (pre ++ short_entry (t, body)) post fuel fuel' k w Hok).
    assert (Hpre : length (pre ++ short_entry (t, body))
                   = (length pre + 2 + length body)%nat).
    { rewrite length_app. unfold short_entry. simpl. lia. }
    rewrite Hpre in IH. fold tail in IH.
    replace (S (length pre) + Z.to_nat (Z.of_nat (length body) + 1))%nat
      with (length pre + 2 + length body)%nat by lia.
    replace (Z.of_nat (2 + length body + length tail) + k - 1
             - (Z.of_nat (length body) + 1))
      with (Z.of_nat (length tail) + k) by lia.
    replace (length pre + (2 + length body + length tail))%nat
      with (length pre + 2 + length body + length tail)%nat by lia.
    unfold buf. rewrite <- !app_assoc in *. apply IH; [exact Hnone|lia..].
Qed.

(** X6: an entry that runs past the declared region is reported.  Behind
    any short-form entries of other types, a short-form length byte [n]
    with fewer than [n] declared bytes left after it makes [find_subpkt]
    give the "buffer shorter than subpacket" message and return [NULL],
    whatever bytes follow. *)
Theorem find_subpkt_truncated es n tail k reqtype w :
  Forall short_form_ok es ->
  first_entry reqtype es 2 = None ->
  0 <= n < 192 -> 0 <= k < n ->
  let declared := Z.of_nat (length (short_entries es)) + 1 + k in
  declared < 65536 ->
  find_subpkt
    (Some ((declared / 256) :: (declared mod 256)
           :: short_entries es ++ n :: tail)) reqtype w
  = Done None (with_short_error w).
Proof.
  intros Hok Hnone Hn Hk declared Hdecl. unfold find_subpkt.
  erewrite bind_Done
    by (apply region_length_bytes; unfold is_byte; zlia).
  replace (declared / 256 * 256 + declared mod 256) with declared by zlia.
  pose proof (find_subpkt_scan_skip reqtype es
                [declared / 256; declared mod 256] (n :: tail)
                (S (Z.to_nat declared)) (S (Z.to_nat (1 + k))) (1 + k) w
                Hok Hnone ltac:(lia)) as Hskip.
  cbn [app length] in Hskip.
  replace (Z.of_nat (length (short_entries es)) + (1 + k))
    with declared in Hskip by (unfold declared; lia).
  rewrite Hskip by (unfold declared; lia).
  cbn [find_subpkt_scan].
  destruct (1 + k =? 0) eqn:E0; [lia|].
  set (buf := declared / 256 :: declared mod 256
              :: short_entries es ++ n :: tail).
  assert (L0 : buf !! (2 + length (short_entries es))%nat = Some n).
  { unfold buf.
    change (declared / 256 :: declared mod 256
            :: short_entries es ++ n :: tail)
      with (([declared / 256; declared mod 256] ++ short_entries es)
            ++ n :: tail).
    rewrite lookup_app_r by (rewrite length_app; simpl; lia).
    rewrite length_app. simpl. rewrite Nat.sub_diag. reflexivity. }
  erewrite bind_Done by (apply mem_byte_lookup; exact L0).
  rewrite (byte_of_byte n) by (unfold is_byte; lia).
  erewrite bind_Done by (apply subpkt_length_short; lia).
  cbv beta iota.
  destruct (1 + k - 1 <? n) eqn:E; [reflexivity|].
  apply Z.ltb_ge in E. lia.
Qed.

Lemma find_subpkt_truncated_witness :
  find_subpkt (Some [0; 7; 3; 16; 1; 2; 5; 2; 0xaa]) 2 world0
  = Done None (with_short_error world0).
Proof.
  apply (find_subpkt_truncated [(16, [1; 2])] 5 [2; 0xaa] 2 2 world0).
  - repeat first [apply Forall_cons_2 | apply Forall_nil_2];
      split; simpl; unfold is_byte; lia.
  - reflexivity.
  - lia.
  - lia.
  - simpl. lia.
Defined.



(** ** Building subpackets *)

Section SubpacketBuilder.
Context `{Headers}.

(** The first subpacket of the region a type goes to. *)
Lemma build_sig_subpkt_into_null sig type body w :
  (if routed_hashed type then hashed_data sig else unhashed_data sig)
    = None ->
  find_subpkt (hashed_data sig) type w = Done None w ->
  find_subpkt (unhashed_data sig) type w = Done None w ->
  (length body <= 190)%nat ->
  build_sig_subpkt sig type body w
  = Done (set_region (routed_hashed type)
            ([0; 2 + Z.of_nat (length body); Z.of_nat (length body) + 1;
              byte_of type] ++ body) sig) w.
Proof.
  intros Hregion Hfh Hfu Hlen. unfold build_sig_subpkt.
  erewrite bind_Done by exact Hfh. cbv beta iota.
  erewrite bind_Done
    by (erewrite bind_Done by exact Hfu; reflexivity).
  rewrite nonzero_0.
  erewrite bind_Done by reflexivity.
  unfold size_t. rewrite Z.mod_small by lia.
  destruct (192 <=? Z.of_nat (length body) + 1) eqn:E192; [lia|].
  erewrite bind_Done by reflexivity.
  fold (routed_hashed type). cbv zeta. rewrite Hregion.
  erewrite bind_Done by reflexivity.
  unfold ret. f_equal. f_equal.
  unfold m_realloc, memcpy, poke. simpl default.
  rewrite resize_nil.
  replace (Z.to_nat (0 + 1 + 1 + Z.of_nat (length body) + 2))
    with (4 + length body)%nat by lia.
  replace (Z.to_nat (0 + 4)) with (4 + 0)%nat by lia.
  change (Z.to_nat (0 + 0)) with 0%nat. change (Z.to_nat (0 + 1)) with 1%nat.
  change (Z.to_nat (0 + 2)) with 2%nat. change (Z.to_nat (0 + 3)) with 3%nat.
  cbn [replicate Nat.add].
  cbn [list_insert insert].
  rewrite !list_inserts_cons.
  rewrite <- (app_nil_r (replicate (length body) 0)).
  rewrite list_inserts_0_r by (rewrite length_replicate; reflexivity).
  rewrite app_nil_r.
  set (n := 0 + 1 + 1 + Z.of_nat (length body)).
  assert (Hhi : byte_of (Z.land (Z.shiftr n 8) 255) = 0)
    by (rewrite byte_of_mod, land_ff_mod, shiftr_8; zlia).
  assert (Hlo : byte_of (Z.land n 255) = 2 + Z.of_nat (length body))
    by (rewrite byte_of_mod, land_ff_mod; zlia).
  assert (Hl : byte_of (Z.of_nat (length body) + 1)
               = Z.of_nat (length body) + 1)
    by (rewrite byte_of_mod; zlia).
  rewrite Hhi, Hlo, Hl. reflexivity.
Qed.

Lemma single_entry_region type body :
  (length body <= 190)%nat ->
  [0; 2 + Z.of_nat (length body); Z.of_nat (length body) + 1; type] ++ body
  = region_of (short_entries [(type, body)]).
Proof.
  intros Hlen. unfold region_of, short_entries, short_entry.
  cbn [fst snd]. rewrite app_nil_r. cbn [length].
  replace (Z.of_nat (S (S (length body)))) with (2 + Z.of_nat (length body))
    by lia.
  rewrite Z.div_small, Z.mod_small by lia. reflexivity.
Qed.

(** X8: building a subpacket and looking it up.  On a signature without
    regions, for every type from 0 to 127 and every body of at most 190
    bytes, [build_sig_subpkt] leaves one region, the one the type is
    routed to, holding the single entry; [find_subpkt] on it returns the
    body that was given, with 2 header bytes; another type is not found
    in it; the other region stays [NULL] and no diagnostic is given. *)
Theorem build_then_find sig type body w :
  hashed_data sig = None -> unhashed_data sig = None ->
  0 <= type < 128 -> (length body <= 190)%nat ->
  exists region,
    build_sig_subpkt sig type body w
      = Done (set_region (routed_hashed type) region sig) w
    /\ region = region_of (short_entries [(type, body)])
    /\ find_subpkt (Some region) type w
       = Done (Some (4%nat, 2, Z.of_nat (length body))) w
    /\ take (length body) (drop 4 region) = body
    /\ (forall other, 0 <= other < 128 -> other <> type ->
        find_subpkt (Some region) other w = Done None w)
    /\ (if routed_hashed type
        then unhashed_data (set_region true region sig)
        else hashed_data (set_region false region sig)) = None.
Proof.
  intros Hh Hu Hty Hlen.
  exists (region_of (short_entries [(type, body)])).
  assert (Hok : Forall short_form_ok [(type, body)]).
  { apply Forall_cons_2; [|apply Forall_nil_2].
    split; [unfold is_byte; cbn [fst]; lia | exact Hlen]. }
  assert (Hsize : Z.of_nat (length (short_entries [(type, body)])) < 65536).
  { simpl. rewrite app_nil_r. lia. }
  split.
  { rewrite <- single_entry_region by exact Hlen.
    rewrite <- (byte_of_byte type) at 3 by (unfold is_byte; lia).
    apply build_sig_subpkt_into_null;
      [destruct (routed_hashed type); assumption
      |rewrite Hh; reflexivity | rewrite Hu; reflexivity | exact Hlen]. }
  split; [reflexivity|].
  split.
  { rewrite (find_subpkt_entries _ type w Hok Hsize).
    cbn [first_entry fst snd]. rewrite land_7f_small by lia.
    rewrite Z.eqb_refl. reflexivity. }
  split.
  { unfold region_of, short_entries, short_entry. cbn [fst snd].
    rewrite app_nil_r. cbn [drop]. rewrite <- (app_nil_r body) at 2.
    apply take_app_length. }
  split.
  { intros other Hother Hne.
    rewrite (find_subpkt_entries _ other w Hok Hsize).
    cbn [first_entry fst snd]. rewrite land_7f_small by lia.
    destruct (type =? other) eqn:E; [apply Z.eqb_eq in E; lia|].
    reflexivity. }
  destruct (routed_hashed type); cbn; assumption.
Qed.

(** X9: what [build_sig_subpkt] refuses on a signature without regions.
    After a type from 0 to 127 has been built there with a body of at
    most 190 bytes, which makes its entry the first of its region,
    building the same type once more stops the process with "update
    nyi", be the region the hashed or the unhashed one; and a body of
    more than 190 bytes stops it with "long subpackets are nyi".
    Nothing is said of a type whose entry is not the first of its
    region. *)
Theorem build_sig_subpkt_refuses sig type body body' w :
  hashed_data sig = None -> unhashed_data sig = None ->
  0 <= type < 128 -> (length body <= 190)%nat ->
  (do sig1 <- build_sig_subpkt sig type body ;;
   build_sig_subpkt sig1 type body') w
  = Abort BUG_subpkt_update_nyi
  /\ (forall long,
        (190 < length long)%nat -> Z.of_nat (length long) + 1 < 2 ^ 32 ->
        build_sig_subpkt sig type long w = Abort BUG_subpkt_long_nyi).
Proof.
  intros Hh Hu Hty Hlen. split.
  - assert (Hok : Forall short_form_ok [(type, body)]).
    { apply Forall_cons_2; [|apply Forall_nil_2].
      split; [unfold is_byte; cbn [fst]; lia | exact Hlen]. }
    assert (Hsize : Z.of_nat (length (short_entries [(type, body)]))
                    < 65536).
    { simpl. rewrite app_nil_r. lia. }
    assert (Hfound : find_subpkt
                       (Some (region_of (short_entries [(type, body)])))
                       type w
                     = Done (Some (4%nat, 2, Z.of_nat (length body))) w).
    { rewrite (find_subpkt_entries _ type w Hok Hsize).
      cbn [first_entry fst snd]. rewrite land_7f_small by lia.
      rewrite Z.eqb_refl. reflexivity. }
    erewrite bind_Done.
    2:{ apply build_sig_subpkt_into_null;
          [destruct (routed_hashed type); assumption
          |rewrite Hh; reflexivity | rewrite Hu; reflexivity | exact Hlen]. }
    rewrite (byte_of_byte type) by (unfold is_byte; lia).
    rewrite single_entry_region by exact Hlen.
    unfold build_sig_subpkt.
    destruct (routed_hashed type); cbn [set_region hashed_data unhashed_data].
    + erewrite bind_Done by exact Hfound. reflexivity.
    + rewrite Hh. erewrite bind_Done by reflexivity. cbv beta iota.
      erewrite bind_Done
        by (erewrite bind_Done by exact Hfound; reflexivity).
      reflexivity.
  - intros long Hlong Hsmall. unfold build_sig_subpkt. rewrite Hh, Hu.
    erewrite bind_Done by reflexivity. cbv beta iota.
    erewrite bind_Done by reflexivity.
    rewrite nonzero_0. erewrite bind_Done by reflexivity.
    unfold size_t. rewrite Z.mod_small by lia.
    destruct (192 <=? Z.of_nat (length long) + 1) eqn:E;
      [reflexivity | apply Z.leb_gt in E; lia].
Qed.

End SubpacketBuilder.

Lemma build_then_find_witness :
  exists region,
    @build_sig_subpkt gnupg_headers sig0 16 [1; 2; 3; 4; 5; 6; 7; 8] world0
      = Done (set_region false region sig0) world0
    /\ find_subpkt (Some region) 16 world0
       = Done (Some (4%nat, 2, 8)) world0.
Proof.
  destruct (@build_then_find gnupg_headers sig0 16 [1; 2; 3; 4; 5; 6; 7; 8]
              world0) as (region & Hrun & _ & Hfind & _).
  - reflexivity.
  - reflexivity.
  - lia.
  - simpl. lia.
  - exists region. split; [exact Hrun | exact Hfind].
Defined.

Lemma build_sig_subpkt_refuses_witness :
  (do sig1 <- @build_sig_subpkt gnupg_headers sig0 2 [1; 2; 3; 4] ;;
   @build_sig_subpkt gnupg_headers sig1 2 [5; 6; 7; 8]) world0
  = Abort BUG_subpkt_update_nyi.
Proof.
  refine (proj1 (@build_sig_subpkt_refuses gnupg_headers sig0 2 [1; 2; 3; 4]
                   [5; 6; 7; 8] world0 _ _ _ _)).
  - reflexivity.
  - reflexivity.
  - lia.
  - simpl. lia.
Defined.

Lemma inserts_then_read (k : list Z) :
  forall (i : nat) (l : list Z),
    (i + length k <= length l)%nat ->
    take (length k) (drop i (list_inserts i k l)) = k.
Proof.
  induction i as [|i IH]; intros l Hfit.
  - rewrite <- (take_drop (length k) l).
    rewrite list_inserts_0_r by (rewrite length_take; simpl in Hfit; lia).
    cbn [drop]. apply take_app_length.
  - destruct l as [|x l]; [simpl in Hfit; lia|].
    rewrite list_inserts_cons. cbn [drop]. apply IH. simpl in Hfit. lia.
Qed.

Lemma find_subpkt_keeps_sinks buffer reqtype w r w' :
  find_subpkt buffer reqtype w = Done r w' ->
  iobufs w' = iobufs w /\ opt_no_comment w' = opt_no_comment w.
Proof.
  intros Hrun. apply find_subpkt_result in Hrun.
  destruct r as [[[q hlen] n]|].
  - destruct Hrun as [-> _]. split; reflexivity.
  - destruct Hrun as [-> | ->]; split; reflexivity.
Qed.

Section SubpacketFrame.
Context `{Headers}.

(** X10: what a returning [build_sig_subpkt] has done, for a body whose
    length plus 1 fits a 32-bit [size_t].  Only the region
    the type is routed to is replaced: the other region and every other
    field of the signature are as before.  The body had at most 190
    bytes; the new region has the old declared length plus 4 plus the
    body's length bytes, with the body copied behind the 4 bytes that
    follow the old declared end.  No sink is touched. *)
Theorem build_sig_subpkt_frame sig type body w sig' w' :
  Z.of_nat (length body) + 1 < 2 ^ 32 ->
  build_sig_subpkt sig type body w = Done sig' w' ->
  exists data declared,
    sig' = set_region (routed_hashed type) data sig
    /\ region_length (if routed_hashed type then hashed_data sig
                      else unhashed_data sig) w = Done declared w
    /\ (length body <= 190)%nat
    /\ Z.of_nat (length data) = declared + 4 + Z.of_nat (length body)
    /\ take (length body) (drop (Z.to_nat declared + 4) data) = body
    /\ (if routed_hashed type
        then unhashed_data sig' = unhashed_data sig
        else hashed_data sig' = hashed_data sig)
    /\ sig_version sig' = sig_version sig
    /\ sig_timestamp sig' = sig_timestamp sig
    /\ iobufs w' = iobufs w.
Proof.
  unfold build_sig_subpkt. intros Hsmall Hrun.
  apply bind_Done_inv in Hrun as (r1 & w1 & R1 & Hrun).
  apply find_subpkt_keeps_sinks in R1 as [Hs1 _].
  apply bind_Done_inv in Hrun as (found & w2 & R2 & Hrun).
  assert (Hs2 : iobufs w2 = iobufs w).
  { destruct r1 as [?|].
    - injection R2 as <- <-. exact Hs1.
    - apply bind_Done_inv in R2 as (r2 & w3 & R2 & Hret).
      apply find_subpkt_keeps_sinks in R2 as [Hs2 _].
      destruct r2; injection Hret as <- <-; congruence. }
  apply bind_Done_inv in Hrun as ([] & w3 & R3 & Hrun).
  destruct (nonzero found); [discriminate R3|]. injection R3 as <-.
  apply bind_Done_inv in Hrun as ([] & w4 & R4 & Hrun).
  destruct (192 <=? size_t (Z.of_nat (length body) + 1)) eqn:E192;
    [discriminate R4|]. injection R4 as <-.
  apply Z.leb_gt in E192.
  fold (routed_hashed type) in Hrun. cbv zeta in Hrun.
  apply bind_Done_inv in Hrun as (declared & w5 & Rl & Hrun).
  pose proof (region_length_inv _ _ _ _ Rl) as [-> Hdecl].
  injection Hrun as <- <-.
  assert (Hlen : (length body <= 190)%nat).
  { unfold size_t in E192. rewrite Z.mod_small in E192 by lia. lia. }
  eexists _, declared. split; [reflexivity|].
  split.
  { revert Rl. unfold region_length.
    destruct (if routed_hashed type then hashed_data sig
              else unhashed_data sig) as [buf|]; [|intros [= <-]; reflexivity].
    unfold bind, mem_byte, ret, log_bug.
    repeat case_match; intros; simplify_eq; reflexivity. }
  split; [exact Hlen|].
  assert (Hsize :
    length (m_realloc (if routed_hashed type then hashed_data sig
                       else unhashed_data sig)
              (declared + 1 + 1 + Z.of_nat (length body) + 2))
    = (Z.to_nat declared + 4 + length body)%nat).
  { unfold m_realloc. rewrite length_resize. lia. }
  split.
  { unfold memcpy, poke. rewrite length_inserts, !length_insert, Hsize. lia. }
  split.
  { unfold memcpy.
    replace (Z.to_nat (declared + 4)) with (Z.to_nat declared + 4)%nat by lia.
    apply inserts_then_read. unfold poke.
    rewrite !length_insert, Hsize. lia. }
  split; [destruct (routed_hashed type); reflexivity|].
  split; [reflexivity|]. split; [reflexivity|]. exact Hs2.
Qed.

Lemma from_sig_result sig w :
  hashed_data sig = None -> unhashed_data sig = None ->
  0 <= SIGSUBPKT_ISSUER < 128 -> 0 <= SIGSUBPKT_SIG_CREATED < 128 ->
  routed_hashed SIGSUBPKT_ISSUER = false ->
  let sig' :=
    set_region true
      ([0; 6; 5; SIGSUBPKT_SIG_CREATED]
       ++ be32_bytes (u32 (sig_timestamp sig)))
      (set_region false
         ([0; 10; 9; SIGSUBPKT_ISSUER]
          ++ be32_bytes (u32 (sig_keyid0 sig))
          ++ be32_bytes (u32 (sig_keyid1 sig))) sig) in
  build_sig_subpkt_from_sig sig w = Done sig' w
  /\ find_subpkt (unhashed_data sig') SIGSUBPKT_ISSUER w
     = Done (Some (4%nat, 2, 8)) w
  /\ find_subpkt (hashed_data sig') SIGSUBPKT_SIG_CREATED w
     = Done (Some (4%nat, 2, 4)) w.
Proof.
  intros Hh Hu Hissuer Hcreated Hrouted sig'. subst sig'.
  set (keyid := be32_bytes (u32 (sig_keyid0 sig))
                ++ be32_bytes (u32 (sig_keyid1 sig))).
  set (ts := be32_bytes (u32 (sig_timestamp sig))).
  assert (Hne : SIGSUBPKT_ISSUER <> SIGSUBPKT_SIG_CREATED).
  { intros Heq. unfold routed_hashed in Hrouted. rewrite Heq in Hrouted.
    rewrite Z.eqb_refl in Hrouted. discriminate Hrouted. }
  assert (Hrc : routed_hashed SIGSUBPKT_SIG_CREATED = true)
    by (unfold routed_hashed; rewrite Z.eqb_refl; reflexivity).
  assert (Hok : forall t body, 0 <= t < 128 -> (length body <= 190)%nat ->
            Forall short_form_ok [(t, body)]
            /\ Z.of_nat (length (short_entries [(t, body)])) < 65536).
  { intros t body Ht Hb. split.
    - apply Forall_cons_2; [|apply Forall_nil_2].
      split; [unfold is_byte; cbn [fst]; lia | exact Hb].
    - simpl. rewrite app_nil_r. lia. }
  destruct (Hok SIGSUBPKT_ISSUER keyid Hissuer ltac:(simpl; lia))
    as [Hoki Hsizei].
  destruct (Hok SIGSUBPKT_SIG_CREATED ts Hcreated ltac:(simpl; lia))
    as [Hokc Hsizec].
  assert (Hfi : forall t,
    find_subpkt (Some ([0; 10; 9; SIGSUBPKT_ISSUER] ++ keyid)) t w
    = Done (if SIGSUBPKT_ISSUER =? t then Some (4%nat, 2, 8) else None) w).
  { intros t.
    change [0; 10; 9; SIGSUBPKT_ISSUER]
      with [0; 2 + Z.of_nat (length keyid); Z.of_nat (length keyid) + 1;
            SIGSUBPKT_ISSUER].
    rewrite single_entry_region by (simpl; lia).
    rewrite (find_subpkt_entries _ t w Hoki Hsizei).
    cbn [first_entry fst snd]. rewrite land_7f_small by lia.
    destruct (SIGSUBPKT_ISSUER =? t); reflexivity. }
  assert (Hfc :
    find_subpkt (Some ([0; 6; 5; SIGSUBPKT_SIG_CREATED] ++ ts))
      SIGSUBPKT_SIG_CREATED w
    = Done (Some (4%nat, 2, 4)) w).
  { change [0; 6; 5; SIGSUBPKT_SIG_CREATED]
      with [0; 2 + Z.of_nat (length ts); Z.of_nat (length ts) + 1;
            SIGSUBPKT_SIG_CREATED].
    rewrite single_entry_region by (simpl; lia).
    rewrite (find_subpkt_entries _ _ w Hokc Hsizec).
    cbn [first_entry fst snd]. rewrite land_7f_small by lia.
    rewrite Z.eqb_refl. reflexivity. }
  split.
  { unfold build_sig_subpkt_from_sig. fold keyid.
    erewrite bind_Done.
    2:{ apply build_sig_subpkt_into_null;
          [rewrite Hrouted; exact Hu
          |rewrite Hh; reflexivity | rewrite Hu; reflexivity
          |simpl; lia]. }
    rewrite Hrouted, (byte_of_byte SIGSUBPKT_ISSUER)
      by (unfold is_byte; lia).
    cbn [set_region sig_timestamp]. fold ts.
    etransitivity.
    { apply build_sig_subpkt_into_null.
      - rewrite Hrc. cbn [set_region hashed_data]. exact Hh.
      - cbn [set_region hashed_data]. rewrite Hh. reflexivity.
      - cbn [set_region unhashed_data]. change (length keyid) with 8%nat.
        change (2 + Z.of_nat 8) with 10. change (Z.of_nat 8 + 1) with 9.
        rewrite Hfi.
        destruct (SIGSUBPKT_ISSUER =? SIGSUBPKT_SIG_CREATED) eqn:E;
          [apply Z.eqb_eq in E; contradiction | reflexivity].
      - simpl. lia. }
    rewrite Hrc, (byte_of_byte SIGSUBPKT_SIG_CREATED)
      by (unfold is_byte; lia).
    reflexivity. }
  cbn [set_region hashed_data unhashed_data].
  split; [|exact Hfc].
  rewrite Hfi, Z.eqb_refl. reflexivity.
Qed.

(** X11: [build_sig_subpkt_from_sig] on a signature without regions,
    for subpacket numbers below 128 of which the issuer's is not a
    hashed one.  The unhashed region becomes the issuer entry, 8 bytes
    made of the two key id words, most significant byte first; the
    hashed region becomes the creation time entry, 4 bytes; each is
    found again by [find_subpkt], and no diagnostic is given. *)
Theorem build_sig_subpkt_from_sig_regions sig w :
  hashed_data sig = None -> unhashed_data sig = None ->
  0 <= SIGSUBPKT_ISSUER < 128 -> 0 <= SIGSUBPKT_SIG_CREATED < 128 ->
  routed_hashed SIGSUBPKT_ISSUER = false ->
  exists sig',
    build_sig_subpkt_from_sig sig w = Done sig' w
    /\ unhashed_data sig'
       = Some ([0; 10; 9; SIGSUBPKT_ISSUER]
               ++ be32_bytes (u32 (sig_keyid0 sig))
               ++ be32_bytes (u32 (sig_keyid1 sig)))
    /\ hashed_data sig'
       = Some ([0; 6; 5; SIGSUBPKT_SIG_CREATED]
               ++ be32_bytes (u32 (sig_timestamp sig)))
    /\ find_subpkt (unhashed_data sig') SIGSUBPKT_ISSUER w
       = Done (Some (4%nat, 2, 8)) w
    /\ find_subpkt (hashed_data sig') SIGSUBPKT_SIG_CREATED w
       = Done (Some (4%nat, 2, 4)) w.
Proof.
  intros Hh Hu Hissuer Hcreated Hrouted.
  destruct (from_sig_result sig w Hh Hu Hissuer Hcreated Hrouted)
    as (Hrun & Hfu & Hfh).
  eexists. split; [exact Hrun|].
  split; [reflexivity|]. split; [reflexivity|].
  split; [exact Hfu | exact Hfh].
Qed.

End SubpacketFrame.

Lemma build_sig_subpkt_frame_witness :
  exists data declared,
    set_region false [0; 10; 9; 16; 1; 2; 3; 4; 5; 6; 7; 8] sig0
    = set_region (@routed_hashed gnupg_headers 16) data sig0
    /\ Z.of_nat (length data) = declared + 4 + 8.
Proof.
  destruct (@build_sig_subpkt_frame gnupg_headers sig0 16
              [1; 2; 3; 4; 5; 6; 7; 8] world0
              (set_region false [0; 10; 9; 16; 1; 2; 3; 4; 5; 6; 7; 8] sig0)
              world0)
    as (data & declared & Hsig & _ & _ & Hsize & _).
  - simpl. lia.
  - vm_compute. reflexivity.
  - exists data, declared. split; [exact Hsig | exact Hsize].
Defined.

Lemma build_sig_subpkt_from_sig_regions_witness :
  exists sig',
    @build_sig_subpkt_from_sig gnupg_headers sig0 world0 = Done sig' world0
    /\ hashed_data sig' = Some [0; 6; 5; 2; 0; 0; 0; 0].
Proof.
  destruct (@build_sig_subpkt_from_sig_regions gnupg_headers sig0 world0)
    as (sig' & Hrun & _ & Hhashed & _).
  - reflexivity.
  - reflexivity.
  - simpl. lia.
  - simpl. lia.
  - reflexivity.
  - exists sig'. split; [exact Hrun | exact Hhashed].
Defined.

(** ** The bytes of the packets *)

Lemma old_header_bytes ctb len :
  Z.land ctb 3 = 0 -> 0 < len < 2 ^ 32 ->
  byte_of (old_ctb ctb len 0) :: old_length_bytes (old_ctb ctb len 0) len
  = old_header ctb len.
Proof.
  intros H3 Hlen. unfold old_ctb, old_header, old_length_bytes.
  rewrite nonzero_0.
  destruct (len =? 0) eqn:E0; [lia|].
  destruct (len <? 256) eqn:E1; [|destruct (len <? 65536) eqn:E2].
  - apply Z.ltb_lt in E1.
    rewrite H3, (land_3_2 ctb H3). cbn [nonzero Z.eqb negb app].
    rewrite (byte_of_byte len) by (unfold is_byte; lia). reflexivity.
  - apply Z.ltb_ge in E1. apply Z.ltb_lt in E2.
    destruct (selector_merged ctb 1 H3 ltac:(lia)) as [-> ->].
    cbn [nonzero Z.eqb negb app Z.land Pos.land].
    assert (H8 : byte_of (Z.shiftr len 8) = len / 256)
      by (rewrite byte_of_mod, shiftr_8; zlia).
    rewrite H8, (byte_of_mod len). reflexivity.
  - apply Z.ltb_ge in E1. apply Z.ltb_ge in E2.
    destruct (selector_merged ctb 2 H3 ltac:(lia)) as [-> ->].
    cbn [nonzero Z.eqb negb app Z.land Pos.land].
    assert (H24 : byte_of (Z.shiftr len 24) = len / 16777216)
      by (rewrite byte_of_mod, shiftr_24; zlia).
    rewrite H24, !byte_of_mod, shiftr_8, shiftr_16. reflexivity.
Qed.

Lemma flush_leave_emit out a ctb hdrlen blkmode body w :
  a <> out -> iobufs w !! a = None ->
  (do rc <- flush_staged out a ctb hdrlen blkmode ;; leave a rc)
    (wrote a iobuf_empty body w)
  = emit_packet out ctb hdrlen blkmode body w.
Proof.
  intros Hne Hfree.
  change (wrote a iobuf_empty body w) with (ins a (mk_iobuf body [] []) w).
  unfold bind at 1. rewrite flush_staged_emit by assumption.
  cbn [io_written].
  pose proof (emit_packet_local out ctb hdrlen blkmode body
                a (mk_iobuf body [] []) w Hne Hfree) as He.
  destruct (emit_packet out ctb hdrlen blkmode body w) as [rc w3|].
  - destruct He as [-> Hfree3].
    unfold leave, bind, iobuf_close, ret. rewrite close_ins by exact Hfree3.
    reflexivity.
  - rewrite He. reflexivity.
Qed.

Lemma emit_packet_reliable out ctb blkmode body w b :
  iobufs w !! out = Some b -> io_faults b = [] ->
  Z.land ctb 0x40 = 0 -> Z.land ctb 3 = 0 ->
  0 < Z.of_nat (length body) < 2 ^ 32 ->
  emit_packet out ctb 0 blkmode body w
  = Done RC_OK
      (wrote out b (old_header ctb (Z.of_nat (length body)) ++ body) w).
Proof.
  intros Hb Hf Hold H3 Hlen.
  rewrite <- (wrote_nil out b w Hb Hf) at 1.
  unfold emit_packet, u32. rewrite Z.mod_small by lia.
  erewrite bind_Done by (apply write_header2_old_wrote; [exact Hold | lia]).
  erewrite bind_Done by apply iobuf_write_wrote.
  rewrite old_header_bytes by assumption.
  cbn [app]. reflexivity.
Qed.

Lemma temp_is_new out w :
  is_Some (iobufs w !! out) ->
  fresh (dom (iobufs w)) <> out /\ iobufs w !! fresh (dom (iobufs w)) = None.
Proof.
  intros Hout. pose proof (fresh_free w) as Hfree.
  split; [|exact Hfree].
  intros Heq. rewrite Heq in Hfree. rewrite Hfree in Hout.
  destruct Hout as [? [=]].
Qed.

Lemma write_version_wrote a b bs ctb w :
  write_version a ctb (wrote a b bs w) = Done 0 (wrote a b (bs ++ [3]) w).
Proof. unfold write_version. put_step. reflexivity. Qed.

Lemma put_version_wrote a b bs version w :
  put_version a version (wrote a b bs w)
  = Done 0 (wrote a b (bs ++ [version_byte version]) w).
Proof.
  unfold put_version, version_byte.
  destruct (nonzero version); apply iobuf_put_wrote.
Qed.

Lemma write_16_wire a b bs x w :
  write_16 a x (wrote a b bs w) = Done 0 (wrote a b (bs ++ u16_wire x) w).
Proof. apply write_16_wrote. Qed.

Lemma write_32_wire a b bs x w :
  write_32 a x (wrote a b bs w) = Done 0 (wrote a b (bs ++ u32_wire x) w).
Proof. apply write_32_wrote. Qed.

Lemma iobuf_write_mem_whole a b bs buf w :
  length buf = 8%nat ->
  iobuf_write_mem a buf 0 8 (wrote a b bs w)
  = Done 0 (wrote a b (bs ++ buf) w).
Proof.
  intros Hlen. unfold iobuf_write_mem, mem_bytes.
  rewrite decide_True by lia. erewrite bind_Done by reflexivity.
  rewrite drop_0, take_ge by lia. apply iobuf_write_wrote.
Qed.

Lemma put_region_wrote a b bs region w :
  region_fits region ->
  put_region a region (wrote a b bs w)
  = Done 0 (wrote a b (bs ++ region_wire region) w).
Proof.
  unfold region_fits, put_region, region_wire. destruct region as [buf|].
  - intros (p0 & p1 & entries & -> & Hfit).
    pose proof (byte_of_range p0) as H0. pose proof (byte_of_range p1) as H1.
    unfold is_byte in H0, H1.
    rewrite lor_shiftl_add in Hfit by lia.
    erewrite bind_Done
      by (unfold region_length;
          erewrite bind_Done by (apply mem_byte_lookup; reflexivity);
          erewrite bind_Done by (apply mem_byte_lookup; reflexivity);
          reflexivity).
    rewrite lor_shiftl_add by lia.
    change (2 ^ 8) with 256 in *.
    set (n := byte_of p0 * 256 + byte_of p1) in *.
    erewrite bind_Done by apply write_16_wrote.
    assert (Hu : u16 n = n) by (unfold u16; apply Z.mod_small; lia).
    assert (Hhi : u16 n / 256 mod 256 = byte_of p0) by (rewrite Hu; zlia).
    assert (Hlo : u16 n mod 256 = byte_of p1) by (rewrite Hu; zlia).
    rewrite Hhi, Hlo. unfold when.
    destruct (nonzero n) eqn:En.
    + unfold iobuf_write_mem, mem_bytes.
      rewrite decide_True by (simpl; lia).
      erewrite bind_Done by reflexivity. cbn [drop].
      rewrite iobuf_write_wrote. rewrite <- app_assoc. reflexivity.
    + unfold nonzero in En. apply negb_false_iff, Z.eqb_eq in En.
      rewrite En. cbn [Z.to_nat take]. unfold ret.
      reflexivity.
  - intros _. unfold region_length.
    erewrite bind_Done by reflexivity.
    erewrite bind_Done by apply write_16_wrote. reflexivity.
Qed.

Lemma write_seskey_wrote a b bs enc w :
  when (nonzero (sym_seskeylen enc)) (iobuf_write a (sym_seskey enc))
    (wrote a b bs w)
  = Done 0 (wrote a b (bs ++ sym_seskey enc) w).
Proof.
  unfold sym_seskeylen. destruct (sym_seskey enc) as [|x l].
  - rewrite app_nil_r. reflexivity.
  - rewrite nonzero_true by (simpl; lia). apply iobuf_write_wrote.
Qed.

(** Runs a sequence of writes on a reliable sink. *)
Ltac wrote_done :=
  lazymatch goal with
  | |- bind _ _ _ = _ => erewrite bind_Done by wrote_done; cbv beta; wrote_done
  | |- iobuf_put _ _ _ = _ => apply iobuf_put_wrote
  | |- iobuf_write _ _ _ = _ => apply iobuf_write_wrote
  | |- mpi_write _ _ _ = _ => apply iobuf_write_wrote
  | |- write_16 _ _ _ = _ => apply write_16_wire
  | |- write_32 _ _ _ = _ => apply write_32_wire
  | |- write_version _ _ _ = _ => apply write_version_wrote
  | |- put_version _ _ _ = _ => apply put_version_wrote
  | |- put_region _ _ _ = _ => apply put_region_wrote; assumption
  | |- iobuf_write_mem _ _ 0 8 _ = _ =>
      apply iobuf_write_mem_whole; assumption
  | |- when (nonzero (sym_seskeylen _)) _ _ = _ => apply write_seskey_wrote
  | |- when true ?m ?w = _ => change (when true m w) with (m w); wrote_done
  | |- _ => reflexivity
  end.

Ltac wrote_steps := repeat (erewrite bind_Done by wrote_done; cbv beta).

(** The end of a run that has written [bytes]. *)
Ltac wrote_end :=
  unfold ret; rewrite <- ?app_assoc; cbn [app]; reflexivity.

Lemma staged_wire stage out ctb hdrlen blkmode body w :
  is_Some (iobufs w !! out) ->
  stage (fresh (dom (iobufs w)))
    (wrote (fresh (dom (iobufs w))) iobuf_empty [] w)
  = Done true (wrote (fresh (dom (iobufs w))) iobuf_empty body w) ->
  staged stage (fun a => flush_staged out a ctb hdrlen blkmode) w
  = emit_packet out ctb hdrlen blkmode body w.
Proof.
  intros Hout Hstage. destruct (temp_is_new out w Hout) as [Hne Hfree].
  unfold staged. erewrite bind_Done by apply iobuf_temp_ins.
  rewrite (ins_wrote _ iobuf_empty w eq_refl).
  erewrite bind_Done by exact Hstage. cbv iota.
  apply flush_leave_emit; assumption.
Qed.

Lemma do_onepass_sig_emit out ctb ops w :
  is_Some (iobufs w !! out) ->
  do_onepass_sig out ctb ops w
  = emit_packet out ctb 0 1 (onepass_sig_body ops) w.
Proof.
  intros Hout. destruct (temp_is_new out w Hout) as [Hne Hfree].
  unfold do_onepass_sig.
  erewrite bind_Done by apply iobuf_temp_ins.
  set (a := fresh (dom (iobufs w))) in *.
  rewrite (ins_wrote a iobuf_empty w eq_refl).
  wrote_steps.
  rewrite flush_leave_emit by assumption. reflexivity.
Qed.

(** X12: the one-pass signature packet.  On a reliable sink, under an
    old-format tag byte with clear selector bits, [do_onepass_sig] returns
    0 and the sink gains 15 bytes: the tag byte, the length 13, the
    version 3, signature class, digest and public-key algorithm, the two
    key id words most significant byte first, and the "last" flag; the
    temporary buffer is gone. *)
Theorem do_onepass_sig_wire out ctb ops w b :
  iobufs w !! out = Some b -> io_faults b = [] ->
  Z.land ctb 0x40 = 0 -> Z.land ctb 3 = 0 ->
  do_onepass_sig out ctb ops w
  = Done RC_OK (wrote out b (byte_of ctb :: 13 :: onepass_sig_body ops) w)
  /\ length (byte_of ctb :: 13 :: onepass_sig_body ops) = 15%nat.
Proof.
  intros Hb Hf Hold H3. split; [|reflexivity].
  rewrite do_onepass_sig_emit by eauto.
  erewrite emit_packet_reliable by first [eassumption | cbn; lia].
  reflexivity.
Qed.

Lemma do_onepass_sig_wire_witness :
  do_onepass_sig 0%nat 0x90
    (Build_PKT_onepass_sig 0 2 17 0x01020304 0x05060708 1) world0
  = Done RC_OK
      (wrote 0%nat sink0
         [0x90; 13; 3; 0; 2; 17; 1; 2; 3; 4; 5; 6; 7; 8; 1] world0).
Proof.
  refine (proj1 (do_onepass_sig_wire 0%nat 0x90
                   (Build_PKT_onepass_sig 0 2 17 0x01020304 0x05060708 1)
                   world0 sink0 _ _ _ _)); reflexivity.
Defined.

Section StagedBodies.
Context `{Headers}.


Lemma put_protection_wire a b bs skc w :
  length (s2k_salt (skc_protect_s2k skc)) = 8%nat ->
  length (skc_protect_iv skc) = 8%nat ->
  put_protection a skc (wrote a b bs w)
  = Done 0 (wrote a b (bs ++ protection_wire skc) w).
Proof.
  intros Hsalt Hiv. unfold put_protection, protection_wire, when.
  cbv zeta.
  destruct (nonzero (skc_is_protected skc)); [|apply iobuf_put_wrote].
  destruct (s2k_mode (skc_protect_s2k skc) =? 1);
    destruct (s2k_mode (skc_protect_s2k skc) =? 4);
    cbn [orb]; wrote_steps;
    (etransitivity; [wrote_done|]); rewrite <- ?app_assoc; cbn [app];
    rewrite ?app_nil_r; reflexivity.
Qed.

Lemma stage_secret_cert_wire a b bs skc w :
  known_pubkey_algo (skc_pubkey_algo skc) = true ->
  length (s2k_salt (skc_protect_s2k skc)) = 8%nat ->
  length (skc_protect_iv skc) = 8%nat ->
  stage_secret_cert a skc (wrote a b bs w)
  = Done true (wrote a b (bs ++ secret_cert_body skc) w).
Proof.
  unfold known_pubkey_algo, stage_secret_cert, secret_cert_body, when.
  intros Hknown Hsalt Hiv.
  pose proof (fun bs => put_protection_wire a b bs skc w Hsalt Hiv) as Hprot.
  destruct (skc_version skc <? 4);
    destruct (is_ELGAMAL (skc_pubkey_algo skc));
    destruct (skc_pubkey_algo skc =? PUBKEY_ALGO_DSA);
    destruct (is_RSA (skc_pubkey_algo skc));
    try discriminate Hknown;
    destruct (nonzero (skc_is_protected skc)) eqn:Eprot;
    wrote_steps;
    try (erewrite bind_Done by apply Hprot; wrote_steps);
    wrote_end.
Qed.

Lemma stage_pubkey_enc_wire a b bs ctb enc w :
  is_ELGAMAL (enc_pubkey_algo enc) || is_RSA (enc_pubkey_algo enc) = true ->
  stage_pubkey_enc a ctb enc (wrote a b bs w)
  = Done true (wrote a b (bs ++ pubkey_enc_body enc) w).
Proof.
  unfold stage_pubkey_enc, pubkey_enc_body. intros Hknown.
  destruct (is_ELGAMAL (enc_pubkey_algo enc));
    destruct (is_RSA (enc_pubkey_algo enc));
    try discriminate Hknown; wrote_steps; wrote_end.
Qed.

Lemma stage_signature_wire a b bs sig w :
  known_pubkey_algo (sig_pubkey_algo sig) = true ->
  region_fits (hashed_data sig) -> region_fits (unhashed_data sig) ->
  stage_signature a sig (wrote a b bs w)
  = Done true (wrote a b (bs ++ signature_body sig) w).
Proof.
  unfold known_pubkey_algo, stage_signature, signature_body, signature_mpis,
    when.
  intros Hknown Hh Hu.
  assert (Hle : (4 <=? sig_version sig) = negb (sig_version sig <? 4)).
  { destruct (sig_version sig <? 4) eqn:E.
    - apply Z.ltb_lt in E. apply Z.leb_gt. lia.
    - apply Z.ltb_ge in E. apply Z.leb_le. lia. }
  rewrite Hle.
  destruct (sig_version sig <? 4);
    destruct (is_ELGAMAL (sig_pubkey_algo sig));
    destruct (sig_pubkey_algo sig =? PUBKEY_ALGO_DSA);
    destruct (is_RSA (sig_pubkey_algo sig));
    try discriminate Hknown; cbn [negb]; wrote_steps; wrote_end.
Qed.

Lemma do_signature_emit out ctb sig w :
  is_Some (iobufs w !! out) ->
  known_pubkey_algo (sig_pubkey_algo sig) = true ->
  region_fits (hashed_data sig) -> region_fits (unhashed_data sig) ->
  do_signature out ctb sig w
  = emit_packet out ctb 0 1 (signature_body sig) w.
Proof.
  intros Hout Hknown Hh Hu.
  change (do_signature out ctb sig w)
    with (staged (fun a => stage_signature a sig)
            (fun a => flush_staged out a ctb 0 1) w).
  apply staged_wire; [exact Hout|].
  apply stage_signature_wire; assumption.
Qed.

(** X13: the signature packet.  For an algorithm of a known family and
    regions that hold what they declare, all [do_signature] does is to
    give the real sink the header for the body and the body, which is:
    below version 4, version byte (3 for 0), 5, class, creation time, key
    id, the two algorithm bytes, the two digest start bytes and the
    integers; from version 4 on, version, class, the two algorithm
    bytes, the hashed and the unhashed region as declared (two zero
    bytes for none), the digest start bytes and the integers.  On a
    reliable sink, under an old-format tag byte, the sink gains the
    shortest old-format header and this body, and the result is 0. *)
Theorem do_signature_wire out ctb sig w :
  is_Some (iobufs w !! out) ->
  known_pubkey_algo (sig_pubkey_algo sig) = true ->
  region_fits (hashed_data sig) -> region_fits (unhashed_data sig) ->
  do_signature out ctb sig w
  = emit_packet out ctb 0 1 (signature_body sig) w
  /\ (forall b,
        iobufs w !! out = Some b -> io_faults b = [] ->
        Z.land ctb 0x40 = 0 -> Z.land ctb 3 = 0 ->
        Z.of_nat (length (signature_body sig)) < 2 ^ 32 ->
        do_signature out ctb sig w
        = Done RC_OK
            (wrote out b
               (old_header ctb (Z.of_nat (length (signature_body sig)))
                ++ signature_body sig) w)).
Proof.
  intros Hout Hknown Hh Hu.
  pose proof (do_signature_emit out ctb sig w Hout Hknown Hh Hu) as Hemit.
  split; [exact Hemit|].
  intros b Hb Hf Hold H3 Hlen. rewrite Hemit.
  apply emit_packet_reliable; try assumption.
  split; [|exact Hlen]. unfold signature_body.
  destruct (sig_version sig <? 4); cbn [app length]; lia.
Qed.


(** X15: the secret certificate packet.  For an algorithm of a known
    family, with salt and initial vector of 8 bytes each, all
    [do_secret_cert] does is to give the real sink the header for the
    body, in the width the certificate asks for, and the body: the public
    fields as in a public certificate, the public integers, the
    protection descriptor, the secret integers, and the checksum.  The
    descriptor of Elgamal and DSA keys is 0xFF, cipher, string-to-key
    mode and hash, the salt in the modes 1 and 4, the count in mode 4,
    and the initial vector; the one of RSA keys is the cipher and the
    initial vector; an unprotected key has one zero byte. *)
Theorem do_secret_cert_wire out ctb skc w :
  is_Some (iobufs w !! out) ->
  known_pubkey_algo (skc_pubkey_algo skc) = true ->
  length (s2k_salt (skc_protect_s2k skc)) = 8%nat ->
  length (skc_protect_iv skc) = 8%nat ->
  do_secret_cert out ctb skc w
  = emit_packet out ctb (skc_hdrbytes skc) 1 (secret_cert_body skc) w
  /\ (forall b,
        iobufs w !! out = Some b -> io_faults b = [] ->
        Z.land ctb 0x40 = 0 -> Z.land ctb 3 = 0 ->
        skc_hdrbytes skc = 0 ->
        Z.of_nat (length (secret_cert_body skc)) < 2 ^ 32 ->
        do_secret_cert out ctb skc w
        = Done RC_OK
            (wrote out b
               (old_header ctb (Z.of_nat (length (secret_cert_body skc)))
                ++ secret_cert_body skc) w)).
Proof.
  intros Hout Hknown Hsalt Hiv.
  assert (Hemit : do_secret_cert out ctb skc w
                  = emit_packet out ctb (skc_hdrbytes skc) 1
                      (secret_cert_body skc) w).
  { change (do_secret_cert out ctb skc w)
      with (staged (fun a => stage_secret_cert a skc)
              (fun a => flush_staged out a ctb (skc_hdrbytes skc) 1) w).
    apply staged_wire; [exact Hout|].
    apply stage_secret_cert_wire; assumption. }
  split; [exact Hemit|].
  intros b Hb Hf Hold H3 Hhdr Hlen. rewrite Hemit, Hhdr.
  apply emit_packet_reliable; try assumption.
  split; [|exact Hlen]. unfold secret_cert_body. cbn [app length]. lia.
Qed.

(** X16: the public-key encrypted session key packet.  For an Elgamal
    or RSA algorithm, all [do_pubkey_enc] does is to give the real sink
    the header for the body and the body: the version 3, the key id, the
    algorithm and its integers.  On a reliable sink the sink gains the
    shortest old-format header and this body, and the result is 0. *)
Theorem do_pubkey_enc_wire out ctb enc w :
  is_Some (iobufs w !! out) ->
  is_ELGAMAL (enc_pubkey_algo enc) || is_RSA (enc_pubkey_algo enc) = true ->
  do_pubkey_enc out ctb enc w
  = emit_packet out ctb 0 1 (pubkey_enc_body enc) w
  /\ (forall b,
        iobufs w !! out = Some b -> io_faults b = [] ->
        Z.land ctb 0x40 = 0 -> Z.land ctb 3 = 0 ->
        Z.of_nat (length (pubkey_enc_body enc)) < 2 ^ 32 ->
        do_pubkey_enc out ctb enc w
        = Done RC_OK
            (wrote out b
               (old_header ctb (Z.of_nat (length (pubkey_enc_body enc)))
                ++ pubkey_enc_body enc) w)).
Proof.
  intros Hout Hknown.
  assert (Hemit : do_pubkey_enc out ctb enc w
                  = emit_packet out ctb 0 1 (pubkey_enc_body enc) w).
  { change (do_pubkey_enc out ctb enc w)
      with (staged (fun a => stage_pubkey_enc a ctb enc)
              (fun a => flush_staged out a ctb 0 1) w).
    apply staged_wire; [exact Hout|].
    apply stage_pubkey_enc_wire; assumption. }
  split; [exact Hemit|].
  intros b Hb Hf Hold H3 Hlen. rewrite Hemit.
  apply emit_packet_reliable; try assumption.
  split; [|exact Hlen]. unfold pubkey_enc_body. cbn [app length]. lia.
Qed.

End StagedBodies.

Lemma do_signature_wire_witness :
  @do_signature gnupg_headers 0%nat 0x88 sig0 world0
  = Done RC_OK
      (wrote 0%nat sink0 [0x88; 10; 4; 0; 17; 2; 0; 0; 0; 0; 0; 0] world0).
Proof.
  refine (proj2 (@do_signature_wire gnupg_headers 0%nat 0x88 sig0 world0
                   _ _ _ _) sink0 _ _ _ _ _).
  - eexists. reflexivity.
  - reflexivity.
  - exact I.
  - exact I.
  - reflexivity.
  - reflexivity.
  - reflexivity.
  - reflexivity.
  - vm_compute. reflexivity.
Defined.


Lemma do_secret_cert_wire_witness :
  @do_secret_cert gnupg_headers 0%nat 0x94
    (Build_PKT_secret_cert 4 0x36000000 0 17 0 1 3
       (Build_STRING2KEY 1 2 [1; 2; 3; 4; 5; 6; 7; 8] 0)
       [9; 9; 9; 9; 9; 9; 9; 9] 0x1234
       (mk_MPI []) (mk_MPI []) (mk_MPI []) (mk_MPI [])
       (mk_MPI [0; 1; 1]) (mk_MPI []) (mk_MPI []) (mk_MPI [])
       (mk_MPI [0; 2; 2])
       (mk_MPI []) (mk_MPI []) (mk_MPI []) (mk_MPI []) (mk_MPI [])
       (mk_MPI []))
    world0
  = Done RC_OK
      (wrote 0%nat sink0
         [0x94; 34; 4; 0x36; 0; 0; 0; 17; 0; 1; 1;
          0xff; 3; 1; 2; 1; 2; 3; 4; 5; 6; 7; 8; 9; 9; 9; 9; 9; 9; 9; 9;
          0; 2; 2; 0x12; 0x34] world0).
Proof.
  refine (proj2 (@do_secret_cert_wire gnupg_headers 0%nat 0x94 _ world0
                   _ _ _ _) sink0 _ _ _ _ _ _).
  - eexists. reflexivity.
  - reflexivity.
  - reflexivity.
  - reflexivity.
  - reflexivity.
  - reflexivity.
  - reflexivity.
  - reflexivity.
  - reflexivity.
  - vm_compute. reflexivity.
Defined.

Lemma do_pubkey_enc_wire_witness :
  @do_pubkey_enc gnupg_headers 0%nat 0x84
    (Build_PKT_pubkey_enc 0x01020304 0x05060708 1
       (mk_MPI []) (mk_MPI []) (mk_MPI [0; 3; 5]))
    world0
  = Done RC_OK
      (wrote 0%nat sink0
         [0x84; 13; 3; 1; 2; 3; 4; 5; 6; 7; 8; 1; 0; 3; 5] world0).
Proof.
  refine (proj2 (@do_pubkey_enc_wire gnupg_headers 0%nat 0x84 _ world0
                   _ _) sink0 _ _ _ _ _).
  - eexists. reflexivity.
  - reflexivity.
  - reflexivity.
  - reflexivity.
  - reflexivity.
  - reflexivity.
  - vm_compute. reflexivity.
Defined.

(** X17: the symmetric-key encrypted session key packet.  A version
    other than 4 stops the process at the assertion, a string-to-key
    mode other than 0, 1 and 4 at [log_bug].  Otherwise, with a salt of 8
    bytes, all [do_symkey_enc] does is to give the real sink the header
    for the body and the body: version, cipher, mode and hash, the salt
    in the modes 1 and 4, the count in mode 4, and the session key if
    there is one; on a reliable sink the sink gains the shortest
    old-format header and this body, and the result is 0. *)
Theorem do_symkey_enc_wire out ctb enc w :
  let mode := s2k_mode (sym_s2k enc) in
  (sym_version enc <> 4 -> do_symkey_enc out ctb enc w = Abort BUG_assert)
  /\ (sym_version enc = 4 -> mode <> 0 -> mode <> 1 -> mode <> 4 ->
      do_symkey_enc out ctb enc w = Abort (BUG_symkey_s2k mode))
  /\ (sym_version enc = 4 -> mode = 0 \/ mode = 1 \/ mode = 4 ->
      length (s2k_salt (sym_s2k enc)) = 8%nat ->
      is_Some (iobufs w !! out) ->
      do_symkey_enc out ctb enc w
      = emit_packet out ctb 0 1 (symkey_enc_body enc) w
      /\ (forall b,
            iobufs w !! out = Some b -> io_faults b = [] ->
            Z.land ctb 0x40 = 0 -> Z.land ctb 3 = 0 ->
            Z.of_nat (length (symkey_enc_body enc)) < 2 ^ 32 ->
            do_symkey_enc out ctb enc w
            = Done RC_OK
                (wrote out b
                   (old_header ctb (Z.of_nat (length (symkey_enc_body enc)))
                    ++ symkey_enc_body enc) w))).
Proof.
  intros mode. split; [|split].
  - intros Hver. unfold do_symkey_enc. cbv zeta.
    erewrite bind_Done by apply iobuf_temp_ins.
    apply Z.eqb_neq in Hver. rewrite Hver. reflexivity.
  - intros Hver H0 H1 H4. unfold do_symkey_enc. cbv zeta. fold mode.
    erewrite bind_Done by apply iobuf_temp_ins.
    rewrite Hver. erewrite bind_Done by reflexivity.
    apply Z.eqb_neq in H0, H1, H4. rewrite H0, H1, H4. reflexivity.
  - intros Hver Hmode Hsalt Hout.
    destruct (temp_is_new out w Hout) as [Hne Hfree].
    assert (Hemit : do_symkey_enc out ctb enc w
                    = emit_packet out ctb 0 1 (symkey_enc_body enc) w).
    { unfold do_symkey_enc, symkey_enc_body. cbv zeta. fold mode.
      erewrite bind_Done by apply iobuf_temp_ins.
      set (a := fresh (dom (iobufs w))) in *.
      rewrite (ins_wrote a iobuf_empty w eq_refl).
      rewrite Hver. erewrite bind_Done by reflexivity.
      destruct (mode =? 0) eqn:E0; destruct (mode =? 1) eqn:E1;
        destruct (mode =? 4) eqn:E4;
        try (apply Z.eqb_neq in E0, E1, E4; lia);
        cbn [orb]; wrote_steps;
        rewrite flush_leave_emit by assumption;
        f_equal; rewrite <- ?app_assoc; cbn [app]; reflexivity. }
    split; [exact Hemit|].
    intros b Hb Hf Hold H3 Hlen. rewrite Hemit.
    apply emit_packet_reliable; try assumption.
    split; [|exact Hlen]. unfold symkey_enc_body. cbn [app length]. lia.
Qed.

Lemma do_symkey_enc_wire_witness :
  do_symkey_enc 0%nat 0x8c
    (Build_PKT_symkey_enc 4 7 (Build_STRING2KEY 4 2 [1; 2; 3; 4; 5; 6; 7; 8]
                                 0x00010000) [])
    world0
  = Done RC_OK
      (wrote 0%nat sink0
         [0x8c; 16; 4; 7; 4; 2; 1; 2; 3; 4; 5; 6; 7; 8; 0; 1; 0; 0] world0).
Proof.
  refine (proj2 (proj2 (proj2 (do_symkey_enc_wire 0%nat 0x8c _ world0))
                   _ _ _ _) sink0 _ _ _ _ _).
  - reflexivity.
  - right. right. reflexivity.
  - reflexivity.
  - eexists. reflexivity.
  - reflexivity.
  - reflexivity.
  - reflexivity.
  - reflexivity.
  - vm_compute. reflexivity.
Defined.

(** ** Packets written straight to the sink *)

Lemma old_tag (code : Z) :
  0 <= code <= 15 ->
  Z.lor 0x80 (Z.shiftl (Z.land code 15) 2) = 128 + 4 * code
  /\ byte_of (Z.lor (128 + 4 * code) 3) = 131 + 4 * code.
Proof.
  intros Hc.
  assert (Hcases : code = 0 \/ code = 1 \/ code = 2 \/ code = 3 \/ code = 4
                   \/ code = 5 \/ code = 6 \/ code = 7 \/ code = 8
                   \/ code = 9 \/ code = 10 \/ code = 11 \/ code = 12
                   \/ code = 13 \/ code = 14 \/ code = 15) by lia.
  repeat (destruct Hcases as [-> | Hcases]; [split; reflexivity|]).
  subst code. split; reflexivity.
Qed.


Lemma write_header_zero_reliable out ctb w b :
  iobufs w !! out = Some b -> io_faults b = [] ->
  Z.land ctb 0x40 = 0 ->
  write_header out ctb 0 w
  = Done 0
      (ins out
         (mk_iobuf (io_written b ++ [byte_of (Z.lor ctb 3)])
            (io_framing b
             ++ [(length (io_written b ++ [byte_of (Z.lor ctb 3)]), 8196)])
            []) w).
Proof.
  intros Hb Hf Hold. unfold write_header.
  rewrite <- (wrote_nil out b w Hb Hf) at 1.
  rewrite write_header2_old_zero by exact Hold.
  change (nonzero 1) with true. cbv iota. reflexivity.
Qed.


Section StraightPackets.
Context `{Headers}.

(** X18: the user id packet, through [build_packet].  For a packet type
    number [code] from 0 to 15 and a reliable sink: a name of 1 to
    [2^32-1] bytes gives the tag byte [128 + 4*code] with the selector of
    the shortest length field, the length, and the name as it is; an
    empty name gives the tag byte with selector 3 alone and leaves the
    sink in block mode 8196, which nothing switches off. *)
Theorem build_packet_user_id out uid w b :
  let code := pkttype_code PKT_USER_ID in
  let pkt := Build_PACKET PKT_USER_ID (Some (P_user_id uid)) in
  iobufs w !! out = Some b -> io_faults b = [] ->
  0 <= code <= 15 ->
  (0 < uid_len uid < 2 ^ 32 ->
   build_packet out pkt w
   = Done RC_OK
       (wrote out b
          (old_header (128 + 4 * code) (uid_len uid) ++ uid_name uid) w))
  /\ (uid_name uid = [] ->
      build_packet out pkt w
      = Done RC_OK
          (ins out
             (mk_iobuf (io_written b ++ [131 + 4 * code])
                (io_framing b
                 ++ [(length (io_written b ++ [131 + 4 * code]), 8196)])
                []) w)).
Proof.
  intros code pkt Hb Hf Hcode.
  destruct (old_tag code Hcode) as [Htag Htag3].
  destruct (old_format_ctb code) as [Hold H3]. rewrite Htag in Hold, H3.
  assert (Hrun : build_packet out pkt w
                 = do_user_id out (128 + 4 * code) uid w).
  { unfold build_packet, pkt. cbn [pkttype pkt_generic]. fold code.
    destruct (15 <? code) eqn:E; [apply Z.ltb_lt in E; lia|].
    rewrite Htag. reflexivity. }
  rewrite Hrun. split.
  - intros Hlen.
    change (do_user_id out (128 + 4 * code) uid w)
      with (emit_packet out (128 + 4 * code) 0 1 (uid_name uid) w).
    exact (emit_packet_reliable out (128 + 4 * code) 1 (uid_name uid) w b
             Hb Hf Hold H3 Hlen).
  - intros Hname. unfold do_user_id, uid_len. rewrite Hname.
    change (u32 (Z.of_nat (length (@nil Z)))) with 0.
    erewrite bind_Done by (apply write_header_zero_reliable; eassumption).
    rewrite Htag3.
    match goal with
    | |- context [ins out ?t w] => rewrite (ins_wrote out t w eq_refl)
    end.
    erewrite bind_Done by apply iobuf_write_wrote.
    unfold ret, rc_of_write. rewrite nonzero_0. reflexivity.
Qed.


End StraightPackets.

Lemma build_packet_user_id_witness :
  @build_packet gnupg_headers 0%nat
    (Build_PACKET PKT_USER_ID
       (Some (P_user_id (Build_PKT_user_id [0x61; 0x62; 0x63])))) world0
  = Done RC_OK (wrote 0%nat sink0 [0xb4; 3; 0x61; 0x62; 0x63] world0).
Proof.
  refine (proj1 (@build_packet_user_id gnupg_headers 0%nat
                   (Build_PKT_user_id [0x61; 0x62; 0x63]) world0 sink0
                   _ _ _) _).
  - reflexivity.
  - reflexivity.
  - simpl. lia.
  - vm_compute. split; reflexivity.
Defined.


(** ** Write failures and headers alone *)

Lemma total_ret out {A : Type} (x : A) : total_on out (ret x).
Proof. intros w Hout. exists x, w. split; [reflexivity | exact Hout]. Qed.

Lemma total_bind out {A B : Type} (m : M A) (k : A -> M B) :
  total_on out m -> (forall x, total_on out (k x)) ->
  total_on out (bind m k).
Proof.
  intros Hm Hk w Hout. destruct (Hm w Hout) as (x & w1 & Rm & Hout1).
  destruct (Hk x w1 Hout1) as (r & w2 & Rk & Hout2).
  exists r, w2. split; [|exact Hout2].
  erewrite bind_Done by exact Rm. exact Rk.
Qed.

Lemma total_on_iobuf out {A : Type} (f : iobuf -> A * iobuf) :
  total_on out (on_iobuf out f).
Proof.
  intros w [b Hb]. unfold on_iobuf. rewrite Hb.
  destruct (f b) as [r b']. exists r. eexists. split; [reflexivity|].
  simpl. rewrite lookup_insert_eq. eauto.
Qed.

Ltac total_tac :=
  repeat first
    [ apply total_ret
    | apply total_on_iobuf
    | apply total_bind; [|intros ?]
    | progress cbv zeta
    | progress unfold when, iobuf_put, iobuf_write, iobuf_set_block_mode
    | match goal with
      | |- total_on _ (if ?c then _ else _) => destruct c
      end ].

Lemma write_header2_old_total out ctb len hdrlen blkmode :
  Z.land ctb 0x40 = 0 ->
  total_on out (write_header2 out ctb len hdrlen blkmode).
Proof.
  intros Hold. unfold write_header2. rewrite Hold, nonzero_0. total_tac.
Qed.

Lemma iobuf_write_ins out b cs w :
  iobuf_write out cs (ins out b w)
  = Done (fst (sink_write cs b)) (ins out (snd (sink_write cs b)) w).
Proof.
  unfold iobuf_write, on_iobuf. rewrite ins_lookup.
  destruct (sink_write cs b) as [r b']. cbn [fst snd].
  fold (ins out b' (ins out b w)). rewrite ins_ins. reflexivity.
Qed.

Lemma write_header2_first_fails out ctb len blkmode W F fs w :
  write_header2 out ctb len 0 blkmode (ins out (mk_iobuf W F (true :: fs)) w)
  = Done (-1) (ins out (mk_iobuf W F fs) w).
Proof.
  unfold write_header2, write_new_header, iobuf_put.
  destruct (nonzero (Z.land ctb 64)).
  - rewrite nonzero_0. erewrite bind_Done by reflexivity.
    erewrite bind_Done by apply iobuf_write_ins. reflexivity.
  - cbv zeta. erewrite bind_Done by apply iobuf_write_ins. reflexivity.
Qed.



(** X21: the header of an encrypted packet.  Under an old-format tag
    byte [do_encrypted] returns 0 whatever the sink does with the
    writes.  On a reliable sink, for a 32-bit length: a length other
    than 0 gets the shortest old-format header for the length plus 10,
    taken modulo [2^32]; the length 0, and the length [2^32 - 10] whose
    sum wraps to 0, get the tag byte with selector 3 and block mode
    8196. *)
Theorem do_encrypted_header out ctb ed w :
  Z.land ctb 0x40 = 0 ->
  (is_Some (iobufs w !! out) ->
   exists w', do_encrypted out ctb ed w = Done RC_OK w')
  /\ (forall b,
        iobufs w !! out = Some b -> io_faults b = [] ->
        Z.land ctb 3 = 0 -> 0 <= ed_len ed < 2 ^ 32 ->
        (ed_len ed <> 0 -> ed_len ed <> 2 ^ 32 - 10 ->
         do_encrypted out ctb ed w
         = Done RC_OK
             (wrote out b (old_header ctb (u32 (ed_len ed + 10))) w))
        /\ (ed_len ed = 0 \/ ed_len ed = 2 ^ 32 - 10 ->
            do_encrypted out ctb ed w
            = Done RC_OK
                (ins out
                   (mk_iobuf (io_written b ++ [byte_of (Z.lor ctb 3)])
                      (io_framing b
                       ++ [(length (io_written b ++ [byte_of (Z.lor ctb 3)]),
                            8196)])
                      []) w))).
Proof.
  intros Hold. split.
  - intros Hout. unfold do_encrypted. cbv zeta.
    destruct (write_header2_old_total out ctb
                (if nonzero (ed_len ed) then u32 (ed_len ed + 10) else 0)
                0 1 Hold w Hout) as (r & w' & Hrun & _).
    exists w'. unfold write_header.
    erewrite bind_Done by exact Hrun. reflexivity.
  - intros b Hb Hf H3 Hlen. unfold do_encrypted. cbv zeta. split.
    + intros Hnz Hwrap. rewrite (nonzero_true _ Hnz).
      assert (Hn : 0 < u32 (ed_len ed + 10) < 2 ^ 32) by (unfold u32; zlia).
      unfold write_header.
      rewrite <- (wrote_nil out b w Hb Hf) at 1.
      erewrite bind_Done
        by (apply write_header2_old_wrote; [exact Hold | lia]).
      rewrite old_header_bytes by assumption. reflexivity.
    + intros Hzero.
      assert (Hn : (if nonzero (ed_len ed) then u32 (ed_len ed + 10) else 0)
                   = 0).
      { destruct Hzero as [-> | ->]; reflexivity. }
      rewrite Hn.
      erewrite bind_Done by (apply write_header_zero_reliable; eassumption).
      reflexivity.
Qed.

Lemma do_encrypted_header_witness :
  do_encrypted 0%nat 0xa4 (Build_PKT_encrypted 300) world0
  = Done RC_OK (wrote 0%nat sink0 [0xa5; 1; 54] world0).
Proof.
  refine (proj1 (proj2 (do_encrypted_header 0%nat 0xa4
                          (Build_PKT_encrypted 300) world0 _)
                   sink0 _ _ _ _) _ _).
  - reflexivity.
  - reflexivity.
  - reflexivity.
  - reflexivity.
  - simpl. lia.
  - simpl. lia.
  - simpl. lia.
Defined.

(** X22: a failed header write is not reported.  When the first write
    to the sink fails and the later ones succeed, [do_user_id] and
    [do_onepass_sig] return 0 although the sink has the body without any
    header, for every tag byte. *)
Theorem header_failure_not_reported out ctb w b :
  iobufs w !! out = Some b -> io_faults b = [true] ->
  (forall uid,
     do_user_id out ctb uid w
     = Done RC_OK
         (ins out (mk_iobuf (io_written b ++ uid_name uid) (io_framing b) [])
            w))
  /\ (forall ops,
        do_onepass_sig out ctb ops w
        = Done RC_OK
            (ins out
               (mk_iobuf (io_written b ++ onepass_sig_body ops)
                  (io_framing b) []) w)).
Proof.
  intros Hb Hf.
  assert (Hemit : forall body,
    emit_packet out ctb 0 1 body w
    = Done RC_OK (ins out (mk_iobuf (io_written b ++ body) (io_framing b) [])
                    w)).
  { intros body. rewrite <- (ins_id out b w Hb) at 1.
    destruct b as [W F fa]. cbn [io_faults io_written io_framing] in *.
    subst fa. unfold emit_packet.
    erewrite bind_Done by apply write_header2_first_fails.
    erewrite bind_Done by apply iobuf_write_ins.
    reflexivity. }
  split.
  - intros uid. apply (Hemit (uid_name uid)).
  - intros ops. rewrite do_onepass_sig_emit by eauto. apply Hemit.
Qed.

Lemma header_failure_not_reported_witness :
  do_user_id 0%nat 0xb4 (Build_PKT_user_id [0x61; 0x62]) (faulty_world [true])
  = Done RC_OK
      (ins 0%nat (mk_iobuf [0x61; 0x62] [] []) (faulty_world [true])).
Proof.
  refine (proj1 (header_failure_not_reported 0%nat 0xb4 (faulty_world [true])
                   (mk_iobuf [] [] [true]) _ _) _); reflexivity.
Defined.

(** ** Subpackets built, then written *)

Section BuiltThenWritten.
Context `{Headers}.

(** X23: a signature prepared by [build_sig_subpkt_from_sig] and written
    by [do_signature].  For a signature of version 4 or more, without
    regions, of a known algorithm, the packet body is: version, class,
    the two algorithm bytes; the hashed region, which is the length 6
    and the creation time entry; the unhashed region, which is the
    length 10 and the issuer entry; the two digest start bytes and the
    integers. *)
Theorem built_subpackets_are_written out ctb sig w :
  hashed_data sig = None -> unhashed_data sig = None ->
  0 <= SIGSUBPKT_ISSUER < 128 -> 0 <= SIGSUBPKT_SIG_CREATED < 128 ->
  routed_hashed SIGSUBPKT_ISSUER = false ->
  4 <= sig_version sig ->
  known_pubkey_algo (sig_pubkey_algo sig) = true ->
  is_Some (iobufs w !! out) ->
  (do sig' <- build_sig_subpkt_from_sig sig ;; do_signature out ctb sig') w
  = emit_packet out ctb 0 1
      ([version_byte (sig_version sig); byte_of (sig_class sig);
        byte_of (sig_pubkey_algo sig); byte_of (sig_digest_algo sig)]
       ++ [0; 6; 5; SIGSUBPKT_SIG_CREATED]
       ++ be32_bytes (u32 (sig_timestamp sig))
       ++ [0; 10; 9; SIGSUBPKT_ISSUER]
       ++ be32_bytes (u32 (sig_keyid0 sig))
       ++ be32_bytes (u32 (sig_keyid1 sig))
       ++ [byte_of (sig_digest_start0 sig); byte_of (sig_digest_start1 sig)]
       ++ signature_mpis sig) w.
Proof.
  intros Hh Hu Hissuer Hcreated Hrouted Hver Hknown Hout.
  destruct (from_sig_result sig w Hh Hu Hissuer Hcreated Hrouted)
    as (Hrun & _).
  erewrite bind_Done by exact Hrun.
  rewrite do_signature_emit; try assumption.
  - f_equal. unfold signature_body, signature_mpis.
    cbn [set_region sig_version sig_class sig_pubkey_algo sig_digest_algo
         hashed_data unhashed_data sig_digest_start0 sig_digest_start1
         sig_elg_a sig_elg_b sig_dsa_r sig_dsa_s sig_rsa_integer].
    destruct (sig_version sig <? 4) eqn:E; [apply Z.ltb_lt in E; lia|].
    cbn [region_wire app].
    change (Z.to_nat (byte_of 0 * 256 + byte_of 6)) with 6%nat.
    change (Z.to_nat (byte_of 0 * 256 + byte_of 10)) with 10%nat.
    unfold be32_bytes. cbn [take app]. reflexivity.
  - cbn [set_region hashed_data]. unfold region_fits.
    eexists 0, 6, _. split; [reflexivity|]. vm_compute. discriminate.
  - cbn [set_region unhashed_data]. unfold region_fits.
    eexists 0, 10, _. split; [reflexivity|]. vm_compute. discriminate.
Qed.

End BuiltThenWritten.

Lemma built_subpackets_are_written_witness :
  (do sig' <- @build_sig_subpkt_from_sig gnupg_headers sig0 ;;
   @do_signature gnupg_headers 0%nat 0x88 sig') world0
  = Done RC_OK
      (wrote 0%nat sink0
         [0x88; 26; 4; 0; 17; 2; 0; 6; 5; 2; 0; 0; 0; 0;
          0; 10; 9; 16; 0; 0; 0; 0; 0; 0; 0; 0; 0; 0] world0).
Proof.
  refine (eq_trans (@built_subpackets_are_written gnupg_headers 0%nat 0x88
                      sig0 world0 _ _ _ _ _ _ _ _) _).
  - reflexivity.
  - reflexivity.
  - simpl. lia.
  - simpl. lia.
  - reflexivity.
  - simpl. lia.
  - reflexivity.
  - eexists. reflexivity.
  - vm_compute. reflexivity.
Defined.
